(** * HealthSense: symptom triage core, embedded in Rocq

    A shallow embedding of the Python sources
    - [core/models.py]           (module [models])
    - [data/medical_facts.py]    (module [medical_facts])
    - [core/rag_engine.py]       (module [rag_engine])
    - [core/gemini_client.py]    (module [gemini_client])
    - [core/diagnosis_logic.py]  (module [diagnosis_logic])
    over a small prelude of Python values, strings, lists and floats
    (module [py]); then the notions in which the properties are stated
    (module [spec]), some analyzers and replies to try them on (module
    [samples]), and the properties themselves.

    Conventions.  A Python [str] is a Rocq [string] whose characters are the
    code points 0..255 (the Latin-1 part of Unicode); [str.lower],
    [str.strip] and the regular-expression class [\w] are given for exactly
    that range.  A Python [float] is an IEEE binary64 number, taken from the
    Standard Library's [SpecFloat].  A value that comes out of [json.loads]
    is a [pyval]; type annotations of the Python code are not enforced at run
    time, so a field that receives such a value has type [pyval].  A call
    that can raise returns a [result]; a function that acts on the outside
    world also returns the list of what it did.  The external model and the
    JSON parser are not part of the embedding: each turn of the gateway's
    retry loop is given by how its [try] body ends. *)

From Stdlib Require Import ZArith String Ascii List Sorted Permutation.
From Stdlib Require Import SpecFloat DecimalString.
From stdpp Require Import gmap strings list.

Local Open Scope string_scope.
Local Open Scope Z_scope.

(** ** Python prelude *)
Module py.

(** Values that [json.loads] builds. *)
#[warnings="-register-all"]
Inductive pyval : Type :=
| PyNone
| PyBool (b : bool)
| PyInt (z : Z)
| PyFloat (f : spec_float)
| PyStr (s : string)
| PyList (l : list pyval)
| PyDict (m : gmap string pyval).

(** [bool(v)], the truth value used by [if], [not], [and], [or]. *)
Definition truthy (v : pyval) : bool :=
  match v with
  | PyNone => false
  | PyBool b => b
  | PyInt z => negb (z =? 0)
  | PyFloat (S754_zero _) => false
  | PyFloat _ => true
  | PyStr s => negb (String.eqb s "")
  | PyList l => match l with [] => false | _ => true end
  | PyDict m => match map_to_list m with [] => false | _ => true end
  end.

(** [a or b] *)
Definition or_ (a b : pyval) : pyval := if truthy a then a else b.

(** Exceptions, each carrying the text that [str(e)] returns.
    [OtherException] stands for any other subclass of [Exception]. *)
Inductive exn : Type :=
| ValidationError (msg : string)
| GeminiAPIError (msg : string)
| RAGError (msg : string)
| AttributeError (msg : string)
| TypeError (msg : string)
| OtherException (msg : string).

Definition str_exn (e : exn) : string :=
  match e with
  | ValidationError m | GeminiAPIError m | RAGError m
  | AttributeError m | TypeError m | OtherException m => m
  end.

(** The outcome of a call: a value, or a raised exception. *)
Inductive result (A : Type) : Type :=
| Ok (a : A)
| Raise (e : exn).
Arguments Ok {A} a.
Arguments Raise {A} e.

Definition bind {A B} (r : result A) (k : A -> result B) : result B :=
  match r with
  | Ok a => k a
  | Raise e => Raise e
  end.

(** [type(v).__name__] *)
Definition type_name (v : pyval) : string :=
  match v with
  | PyNone => "NoneType" | PyBool _ => "bool" | PyInt _ => "int"
  | PyFloat _ => "float" | PyStr _ => "str" | PyList _ => "list"
  | PyDict _ => "dict"
  end.

(** [d.get(key, default)]: only a [dict] has the method. *)
Definition get (d : pyval) (key : string) (default : pyval) : result pyval :=
  match d with
  | PyDict m => Ok (match m !! key with Some v => v | None => default end)
  | _ => Raise (AttributeError
                  ("'" ++ type_name d ++ "' object has no attribute 'get'"))
  end.

(** The items a [for] loop draws from [v]: the elements of a list, the
    characters of a string, the keys of a dictionary (json objects have
    string keys; the order of the keys plays no part below). *)
Definition iterate (v : pyval) : result (list pyval) :=
  match v with
  | PyList l => Ok l
  | PyStr s => Ok (map (fun c => PyStr (String c EmptyString))
                       (list_ascii_of_string s))
  | PyDict m => Ok (map (fun kv => PyStr (fst kv)) (map_to_list m))
  | _ => Raise (TypeError ("'" ++ type_name v ++ "' object is not iterable"))
  end.

(** *** Strings *)

(** [c.isspace()] for a code point below 256. *)
Definition isspace (c : ascii) : bool :=
  let n := N_of_ascii c in
  ((9 <=? n) && (n <=? 13) || (28 <=? n) && (n <=? 32)
   || (n =? 133) || (n =? 160))%N.

Fixpoint lstrip (s : string) : string :=
  match s with
  | EmptyString => EmptyString
  | String c r => if isspace c then lstrip r else s
  end.

(** [rstrip]: a character is dropped when it and everything after it is
    white space. *)
Fixpoint rstrip (s : string) : string :=
  match s with
  | EmptyString => EmptyString
  | String c r =>
      match rstrip r with
      | EmptyString => if isspace c then EmptyString else String c EmptyString
      | r' => String c r'
      end
  end.

Definition strip (s : string) : string := rstrip (lstrip s).

(** [c.lower()] for a code point below 256: A-Z, and the Latin-1 capitals
    U+00C0..U+00DE except the multiplication sign U+00D7. *)
Definition lower_char (c : ascii) : ascii :=
  let n := N_of_ascii c in
  if ((65 <=? n) && (n <=? 90)
      || (192 <=? n) && (n <=? 222) && negb (n =? 215))%N
  then ascii_of_N (n + 32) else c.

Fixpoint lower (s : string) : string :=
  match s with
  | EmptyString => EmptyString
  | String c r => String (lower_char c) (lower r)
  end.

(** [needle in hay] on strings. *)
Fixpoint contains (needle hay : string) : bool :=
  String.prefix needle hay
  || match hay with
     | EmptyString => false
     | String _ r => contains needle r
     end.

(** [x in l] for a list or set of strings. *)
Definition str_in (x : string) (l : list string) : bool :=
  existsb (String.eqb x) l.

(** The character class [\w] of [re] on [str] patterns, below 256. *)
Definition isword (c : ascii) : bool :=
  let n := N_of_ascii c in
  ((48 <=? n) && (n <=? 57) || (65 <=? n) && (n <=? 90) || (n =? 95)
   || (97 <=? n) && (n <=? 122) || (n =? 170) || (178 <=? n) && (n <=? 179)
   || (n =? 181) || (185 <=? n) && (n <=? 186) || (188 <=? n) && (n <=? 190)
   || (192 <=? n) && (n <=? 214) || (216 <=? n) && (n <=? 246)
   || (248 <=? n) && (n <=? 255))%N.

(** [re.findall(r'\b\w+\b', s)]: the maximal runs of word characters, left
    to right.  [cur] is the run being read. *)
Fixpoint findall_words_from (cur : string) (s : string) : list string :=
  match s with
  | EmptyString => if String.eqb cur "" then [] else [cur]
  | String c r =>
      if isword c then findall_words_from (cur ++ String c EmptyString) r
      else if String.eqb cur "" then findall_words_from "" r
      else cur :: findall_words_from "" r
  end.

Definition findall_words (s : string) : list string := findall_words_from "" s.

(** *** Lists *)

(** [l[:k]] *)
Definition slice_to {A} (l : list A) (k : Z) : list A :=
  if 0 <=? k then firstn (Z.to_nat k) l
  else firstn (length l - Z.to_nat (- k)) l.

(** [l.sort(key=key, reverse=True)] where keys are compared with [lt]:
    a stable sort into descending key order.  An element moves behind the
    elements that were after it only when their key is strictly greater. *)
Section Sort.
Context {A K : Type} (key : A -> K) (lt : K -> K -> bool).

Fixpoint insert_reverse (x : A) (l : list A) : list A :=
  match l with
  | [] => [x]
  | y :: l' =>
      if lt (key x) (key y) then y :: insert_reverse x l' else x :: l
  end.

Fixpoint sort_reverse (l : list A) : list A :=
  match l with
  | [] => []
  | x :: l' => insert_reverse x (sort_reverse l')
  end.
End Sort.

(** *** Floats (binary64) *)

Definition prec : Z := 53.
Definition emax : Z := 1024.

(** [float(z)] *)
Definition float_of_int (z : Z) : spec_float :=
  binary_normalize prec emax z 0 false.

(** A decimal literal [n/100], such as [0.95]: the double nearest to it. *)
Definition float_lit_hundredths (n : Z) : spec_float :=
  SFdiv prec emax (float_of_int n) (float_of_int 100).

Definition float_mul : spec_float -> spec_float -> spec_float :=
  SFmul prec emax.
Definition float_lt : spec_float -> spec_float -> bool := SFltb.

(** The characters ["] and line feed, and a text between two ["]. *)
Definition dq : string := String "034"%char EmptyString.
Definition nl : string := String "010"%char EmptyString.
Definition quoted (s : string) : string := dq ++ s ++ dq.

(** [s.find(c)] for a one-character [c]: the index of the first [c], or
    [-1]. *)
Fixpoint find_char (c : ascii) (s : string) : Z :=
  match s with
  | EmptyString => -1
  | String a r =>
      if Ascii.eqb a c then 0
      else let i := find_char c r in if i =? -1 then -1 else i + 1
  end.

(** [s.rfind(c)]: the index of the last [c], or [-1]. *)
Fixpoint rfind_char (c : ascii) (s : string) : Z :=
  match s with
  | EmptyString => -1
  | String a r =>
      let i := rfind_char c r in
      if negb (i =? -1) then i + 1
      else if Ascii.eqb a c then 0 else -1
  end.

(** [s[a:b]]: a negative index counts from the end, and both are clipped to
    the string. *)
Definition str_slice (s : string) (a b : Z) : string :=
  let n := Z.of_nat (String.length s) in
  let clip i := Z.max 0 (Z.min n (if i <? 0 then i + n else i)) in
  let a := clip a in
  let b := clip b in
  if a <? b then String.substring (Z.to_nat a) (Z.to_nat (b - a)) s
  else "".

(** [str(z)] for an integer. *)
Definition str_of_int (z : Z) : string :=
  NilZero.string_of_int (Z.to_int z).

End py.

(** ** core/models.py *)
Module models.
Import py.

(** [class ConfidenceLevel(str, Enum)]: [t] is the type of its members,
    [value m] is [m.value], and [call v] is [ConfidenceLevel(v)], the member
    whose value equals [v]; [None] stands for the [ValueError] raised when
    there is none.  The values are strings, so only a [str] can match, and
    the match is case-sensitive. *)
Module ConfidenceLevel.
Inductive t : Type := HIGH | MEDIUM | LOW.

Definition value (c : t) : string :=
  match c with HIGH => "High" | MEDIUM => "Medium" | LOW => "Low" end.

Definition call (v : pyval) : option t :=
  match v with
  | PyStr s =>
      if String.eqb s "High" then Some HIGH
      else if String.eqb s "Medium" then Some MEDIUM
      else if String.eqb s "Low" then Some LOW
      else None
  | _ => None
  end.
End ConfidenceLevel.

(** [class UrgencyLevel(str, Enum)], in the same way. *)
Module UrgencyLevel.
Inductive t : Type := CRITICAL | URGENT | MODERATE | LOW.

Definition value (u : t) : string :=
  match u with
  | CRITICAL => "Critical" | URGENT => "Urgent"
  | MODERATE => "Moderate" | LOW => "Low"
  end.

Definition call (v : pyval) : option t :=
  match v with
  | PyStr s =>
      if String.eqb s "Critical" then Some CRITICAL
      else if String.eqb s "Urgent" then Some URGENT
      else if String.eqb s "Moderate" then Some MODERATE
      else if String.eqb s "Low" then Some LOW
      else None
  | _ => None
  end.
End UrgencyLevel.

Record MedicalFact : Type := {
  id : string;
  fact : string;
  category : string;
  keywords : list string;
  source : option string;
  reliability_score : spec_float
}.

Record Condition : Type := {
  name : pyval;
  confidence : ConfidenceLevel.t;
  reasoning : pyval;
  recommendation : pyval;
  urgency : UrgencyLevel.t;
  related_symptoms : pyval
}.

Record DiagnosisResult : Type := {
  conditions : list Condition;
  flagged : pyval;
  urgency_level : UrgencyLevel.t;
  disclaimer : string;
  lifestyle_suggestions : pyval;
  next_steps : pyval;
  metadata : gmap string pyval
}.

(** The dictionary built for one condition inside [to_dict]. *)
Definition condition_to_dict (c : Condition) : pyval :=
  PyDict (<["condition" := name c]>
         (<["confidence" := PyStr (ConfidenceLevel.value (confidence c))]>
         (<["reasoning" := reasoning c]>
         (<["recommendation" := recommendation c]>
         (<["urgency" := PyStr (UrgencyLevel.value (urgency c))]>
         (<["related_symptoms" := related_symptoms c]> ∅)))))).

(** [DiagnosisResult.to_dict] *)
Definition to_dict (self : DiagnosisResult) : gmap string pyval :=
  <["possible_conditions" := PyList (map condition_to_dict (conditions self))]>
  (<["flagged" := flagged self]>
  (<["urgency_level" := PyStr (UrgencyLevel.value (urgency_level self))]>
  (<["lifestyle_suggestions" := or_ (lifestyle_suggestions self) (PyList [])]>
  (<["next_steps" := next_steps self]>
  (<["disclaimer" := PyStr (disclaimer self)]>
  (<["metadata" := PyDict (metadata self)]> ∅)))))).

End models.

(** ** data/medical_facts.py *)
Module medical_facts.
Import py.
Import models.

(** Display texts are kept as the source file spells them; only [keywords]
    and [reliability_score] take part in retrieval. *)
Definition MEDICAL_FACTS_DB : list MedicalFact := [
  {| id := "fever_001";
     fact := "Fever is typically defined as a body temperature above 100.4°F (38°C). It's often a sign of infection or inflammation.";
     category := "Fever";
     keywords := ["fever"; "temperature"; "hot"; "chills"; "sweating"];
     source := Some "Mayo Clinic";
     reliability_score := float_lit_hundredths 95 |};
  {| id := "infection_001";
     fact := "Common symptoms of viral infections include fever, fatigue, body aches, and respiratory symptoms.";
     category := "Infection";
     keywords := ["infection"; "viral"; "bacterial"; "flu"; "cold"];
     source := Some "CDC";
     reliability_score := float_lit_hundredths 95 |};
  {| id := "respiratory_001";
     fact := "Shortness of breath, especially when accompanied by chest pain, can indicate serious conditions requiring immediate medical attention.";
     category := "Respiratory";
     keywords := ["shortness of breath"; "difficulty breathing"; "chest pain"; "wheezing"];
     source := Some "American Lung Association";
     reliability_score := float_lit_hundredths 98 |};
  {| id := "respiratory_002";
     fact := "Persistent cough lasting more than 3 weeks should be evaluated by a healthcare provider.";
     category := "Respiratory";
     keywords := ["cough"; "persistent"; "chronic"];
     source := Some "American Thoracic Society";
     reliability_score := float_lit_hundredths 90 |};
  {| id := "headache_001";
     fact := "Migraines often present with throbbing pain, nausea, sensitivity to light and sound, and can last 4-72 hours.";
     category := "Neurological";
     keywords := ["migraine"; "headache"; "throbbing"; "nausea"; "light sensitivity"];
     source := Some "American Migraine Foundation";
     reliability_score := float_lit_hundredths 92 |};
  {| id := "headache_002";
     fact := "Sudden severe headache (thunderclap headache) requires immediate medical evaluation as it may indicate serious conditions.";
     category := "Neurological";
     keywords := ["sudden headache"; "severe headache"; "thunderclap"];
     source := Some "Mayo Clinic";
     reliability_score := float_lit_hundredths 98 |};
  {| id := "digestive_001";
     fact := "Gastroenteritis (stomach flu) typically causes nausea, vomiting, diarrhea, and abdominal cramps, usually resolving within 1-3 days.";
     category := "Digestive";
     keywords := ["nausea"; "vomiting"; "diarrhea"; "stomach"; "abdominal"; "cramps"];
     source := Some "CDC";
     reliability_score := float_lit_hundredths 93 |};
  {| id := "digestive_002";
     fact := "Severe abdominal pain, especially with fever or bloody stools, requires prompt medical evaluation.";
     category := "Digestive";
     keywords := ["severe abdominal pain"; "bloody stool"; "fever"];
     source := Some "American Gastroenterological Association";
     reliability_score := float_lit_hundredths 95 |};
  {| id := "cardiac_001";
     fact := "Chest pain, especially when radiating to the arm, jaw, or back, along with shortness of breath, may indicate a heart condition requiring immediate attention.";
     category := "Cardiovascular";
     keywords := ["chest pain"; "heart"; "cardiac"; "arm pain"; "jaw pain"];
     source := Some "American Heart Association";
     reliability_score := float_lit_hundredths 99 |};
  {| id := "fatigue_001";
     fact := "Chronic fatigue can be caused by various factors including sleep disorders, anemia, thyroid issues, or mental health conditions.";
     category := "General";
     keywords := ["fatigue"; "tiredness"; "exhaustion"; "weakness"];
     source := Some "Mayo Clinic";
     reliability_score := float_lit_hundredths 88 |};
  {| id := "skin_001";
     fact := "Rash with fever, especially in children, should be evaluated by a healthcare provider to rule out serious conditions.";
     category := "Dermatological";
     keywords := ["rash"; "skin"; "redness"; "itching"];
     source := Some "American Academy of Dermatology";
     reliability_score := float_lit_hundredths 90 |};
  {| id := "pain_001";
     fact := "Acute pain that is severe, sudden, or accompanied by other symptoms like fever or loss of function should be evaluated promptly.";
     category := "General";
     keywords := ["severe pain"; "acute pain"; "sudden pain"];
     source := Some "American Pain Society";
     reliability_score := float_lit_hundredths 87 |};
  {| id := "mental_001";
     fact := "Persistent feelings of sadness, anxiety, or changes in sleep and appetite patterns may indicate mental health concerns that benefit from professional support.";
     category := "Mental Health";
     keywords := ["sadness"; "anxiety"; "depression"; "mood"];
     source := Some "National Institute of Mental Health";
     reliability_score := float_lit_hundredths 90 |}
].

(** The test of the inner loop: [user_keyword in fact_keyword or
    fact_keyword in user_keyword]. *)
Definition keyword_match (user_keyword fact_keyword : string) : bool :=
  contains user_keyword fact_keyword || contains fact_keyword user_keyword.

(** The integer [score] of one fact after the two nested loops.  The inner
    loop adds one and leaves at the first keyword of the fact that matches
    the user keyword. *)
Definition match_score (fact_keywords keywords : list string) : nat :=
  let fact_keywords_lower := map lower fact_keywords in
  let user_keywords_lower := map lower keywords in
  fold_left
    (fun score user_keyword =>
       if existsb (keyword_match user_keyword) fact_keywords_lower
       then S score else score)
    user_keywords_lower 0%nat.

(** [final_score = score * fact.reliability_score] *)
Definition final_score (score : nat) (f : MedicalFact) : spec_float :=
  float_mul (float_of_int (Z.of_nat score)) (reliability_score f).

(** [scored_facts] when the loop over the table is over. *)
Fixpoint scored_facts_of (db : list MedicalFact) (keywords : list string)
  : list (spec_float * MedicalFact) :=
  match db with
  | [] => []
  | f :: db' =>
      let score := match_score (models.keywords f) keywords in
      if (0 <? score)%nat
      then (final_score score f, f) :: scored_facts_of db' keywords
      else scored_facts_of db' keywords
  end.

(** [get_facts_by_keywords] over a given table. *)
Definition get_facts_by_keywords_in (db : list MedicalFact)
    (keywords : list string) (top_k : Z) : list MedicalFact :=
  let scored_facts := scored_facts_of db keywords in
  let scored_facts := sort_reverse fst float_lt scored_facts in
  map snd (slice_to scored_facts top_k).

Definition get_facts_by_keywords (keywords : list string) (top_k : Z)
  : list MedicalFact :=
  get_facts_by_keywords_in MEDICAL_FACTS_DB keywords top_k.

Definition get_all_facts : list MedicalFact := MEDICAL_FACTS_DB.

End medical_facts.

(** ** core/rag_engine.py *)
Module rag_engine.
Import py.
Import models.
Import medical_facts.

Definition medical_keywords : list string := [
  "fever"; "headache"; "pain"; "ache"; "nausea"; "vomiting";
  "diarrhea"; "cough"; "sore throat"; "fatigue"; "tired";
  "shortness of breath"; "chest pain"; "abdominal"; "stomach";
  "rash"; "itching"; "swelling"; "dizziness"; "lightheaded";
  "chills"; "sweating"; "muscle"; "joint"; "stiffness";
  "numbness"; "tingling"; "weakness"; "confusion"; "anxiety";
  "depression"; "mood"; "sleep"; "appetite"; "weight"
].

Definition stop_words : list string := [
  "the"; "a"; "an"; "and"; "or"; "but"; "in"; "on"; "at";
  "to"; "for"; "of"; "with"; "by"; "i"; "have"; "had"; "has";
  "been"; "is"; "are"; "was"; "were"; "be"; "been"; "being"
].

(** One turn of the second loop of [extract_keywords]: [word] is appended
    unless it is short, a stop word, or already collected. *)
Definition add_word (found_keywords : list string) (word : string)
  : list string :=
  if (3 <? String.length word)%nat
     && negb (str_in word stop_words)
     && negb (str_in word found_keywords)
  then found_keywords ++ [word]
  else found_keywords.

(** [RAGEngine.extract_keywords] *)
Definition extract_keywords (text : string) : list string :=
  let text_lower := lower text in
  let found_keywords :=
    List.filter (fun keyword => contains keyword text_lower) medical_keywords in
  let words := findall_words text_lower in
  let found_keywords := fold_left add_word words found_keywords in
  firstn 20 found_keywords.

(** [not symptoms or not symptoms.strip()] *)
Definition is_blank (symptoms : string) : bool :=
  String.eqb symptoms "" || String.eqb (strip symptoms) "".

(** [RAGEngine.retrieve_relevant_facts], with [self_top_k] for
    [self.top_k].  None of the operations in the [try] block raises in this
    model, so the handler that turns an exception into [RAGError] is never
    entered and the function returns its list. *)
Definition retrieve_relevant_facts (self_top_k : Z) (symptoms : string)
    (top_k : option Z) : list MedicalFact :=
  if is_blank symptoms then []
  else
    let k := match top_k with Some k => k | None => self_top_k end in
    let keywords := extract_keywords symptoms in
    match keywords with
    | [] => slice_to get_all_facts k
    | _ =>
        let facts := get_facts_by_keywords keywords k in
        match facts with
        | [] => slice_to get_all_facts k
        | _ => facts
        end
    end.

(** One turn of the loop of [format_facts_for_prompt]: the line of the
    fact numbered [i] is appended; the source is written when it is neither
    [None] nor empty. *)
Definition add_fact_line (formatted : string) (numbered : nat * MedicalFact)
  : string :=
  let '(i, fact) := numbered in
  let formatted :=
    formatted ++ str_of_int (Z.of_nat i) ++ ". " ++ models.fact fact in
  let formatted :=
    match models.source fact with
    | Some src =>
        if negb (String.eqb src "")
        then formatted ++ " (Source: " ++ src ++ ")"
        else formatted
    | None => formatted
    end in
  formatted ++ nl.

(** [RAGEngine.format_facts_for_prompt] *)
Definition format_facts_for_prompt (facts : list MedicalFact) : string :=
  match facts with
  | [] => "No specific medical facts available."
  | _ =>
      fold_left add_fact_line (combine (seq 1 (length facts)) facts)
        ("Medical Facts:" ++ nl)
  end.

End rag_engine.

(** ** core/gemini_client.py *)
Module gemini_client.
Import py.
Import models.

(** What one turn of the retry loop ends in.  The body of the [try]
    (building the request, [generate_content], [response.text], [_extract_json],
    [json.loads]) either returns the parsed reply, or raises
    [json.JSONDecodeError], or raises something else; the three cases are
    the three exits of the [try] statement. *)
Inductive attempt_outcome : Type :=
| Parsed (reply : pyval)
| JSONDecodeError (msg : string)
| OtherError (msg : string).

(** [GeminiClient._create_fallback_response] *)
Definition _create_fallback_response (symptom_text : string) : pyval :=
  PyDict
    (<["conditions" := PyList [
         PyDict (<["name" := PyStr "Unable to analyze"]>
                (<["confidence" := PyStr "Low"]>
                (<["reasoning" := PyStr "Unable to process symptoms at this time. Please consult a healthcare provider."]>
                (<["recommendation" := PyStr "Please consult with a healthcare professional for proper evaluation."]>
                (<["urgency" := PyStr "Moderate"]>
                (<["related_symptoms" := PyList []]> ∅))))))]]>
    (<["is_urgent" := PyBool false]>
    (<["urgency_level" := PyStr "Moderate"]>
    (<["next_steps" := PyList [PyStr "Consult a healthcare provider";
                               PyStr "Monitor symptoms";
                               PyStr "Seek emergency care if symptoms worsen"]]>
    (<["lifestyle_suggestions" := PyList []]> ∅))))).

(** The [for attempt in range(self.max_retries)] loop, from the turn
    [attempt] on, with [turns] turns left.  [call attempt] is the outcome of
    the [try] body in that turn.  The state threaded through the loop is
    [log]: the arguments of the [time.sleep] calls made so far, oldest
    first. *)
Fixpoint retry_loop (max_retries : Z) (symptom_text : string)
    (call : Z -> attempt_outcome) (turns : nat) (attempt : Z) (log : list Z)
  : list Z * result pyval :=
  match turns with
  | O => (log, Raise (GeminiAPIError "Failed to get response from Gemini API"))
  | S turns' =>
      match call attempt with
      | Parsed reply => (log, Ok reply)
      | JSONDecodeError e =>
          if attempt =? max_retries - 1
          then (log, Ok (_create_fallback_response symptom_text))
          else retry_loop max_retries symptom_text call turns' (attempt + 1)
                 (log ++ [1])
      | OtherError e =>
          if attempt =? max_retries - 1
          then (log, Raise (GeminiAPIError
                 ("Failed to get response from Gemini API after "
                  ++ str_of_int max_retries ++ " attempts: " ++ e)))
          else retry_loop max_retries symptom_text call turns' (attempt + 1)
                 (log ++ [2 ^ attempt])
      end
  end.

(** A client: its [max_retries], and the external model behind it.
    [try_body self symptom_text medical_facts prompt_type include_lifestyle
    attempt] is how the body of the [try] statement ends in the turn
    [attempt] of the call with these arguments; the prompt sent to the model
    is built from the four arguments once, before the loop. *)
Record GeminiClient : Type := {
  max_retries : Z;
  try_body :
    string -> list MedicalFact -> string -> bool -> Z -> attempt_outcome
}.

(** [GeminiClient.analyze_symptoms]: the delays slept, and what the call
    returns or raises. *)
Definition analyze_symptoms (self : GeminiClient) (symptom_text : string)
    (medical_facts : list MedicalFact) (prompt_type : string)
    (include_lifestyle : bool) : list Z * result pyval :=
  retry_loop (max_retries self) symptom_text
    (try_body self symptom_text medical_facts prompt_type include_lifestyle)
    (Z.to_nat (max_retries self)) 0 [].

(** [GeminiClient._extract_json] *)
Definition _extract_json (text : string) : string :=
  let text := strip text in
  let start_idx := find_char "{"%char text in
  let end_idx := rfind_char "}"%char text in
  if negb (start_idx =? -1) && negb (end_idx =? -1) && (start_idx <? end_idx)
  then str_slice text start_idx (end_idx + 1)
  else text.

(** The text of the template up to the symptoms. *)
Definition prompt_before_symptoms : string :=
  String.concat nl [
    "You are a medical triage assistant. Your role is to help users understand their symptoms and provide informed guidance. You are NOT a replacement for professional medical care.";
    "";
    "IMPORTANT DISCLAIMERS:";
    "- This is for informational purposes only";
    "- Always recommend consulting healthcare professionals for proper diagnosis";
    "- Never provide definitive diagnoses";
    "- Flag urgent symptoms that require immediate medical attention";
    "";
    "User Symptoms: "
  ].

(** The text between the symptoms and the facts. *)
Definition prompt_before_facts : string :=
  String.concat nl [
    "";
    "";
    "Relevant Medical Information:";
    ""
  ].

(** The text after the facts: the JSON shape asked for and the guidelines. *)
Definition prompt_after_facts : string :=
  String.concat nl [
    "";
    "";
    "Based on the symptoms and medical information above, provide a structured analysis in JSON format with the following structure:";
    "{";
    ("    " ++ quoted "conditions" ++ ": [");
    "        {";
    ("            " ++ quoted "name" ++ ": " ++ quoted "Condition name"
     ++ ",");
    ("            " ++ quoted "confidence" ++ ": "
     ++ quoted "High/Medium/Low" ++ ",");
    ("            " ++ quoted "reasoning" ++ ": "
     ++ quoted "Brief explanation of why this condition is possible" ++ ",");
    ("            " ++ quoted "recommendation" ++ ": "
     ++ quoted "Recommended actions or next steps" ++ ",");
    ("            " ++ quoted "urgency" ++ ": "
     ++ quoted "Critical/Urgent/Moderate/Low" ++ ",");
    ("            " ++ quoted "related_symptoms" ++ ": ["
     ++ quoted "symptom1" ++ ", " ++ quoted "symptom2" ++ "]");
    "        }";
    "    ],";
    ("    " ++ quoted "is_urgent" ++ ": true/false,");
    ("    " ++ quoted "urgency_level" ++ ": "
     ++ quoted "Critical/Urgent/Moderate/Low" ++ ",");
    ("    " ++ quoted "next_steps" ++ ": [" ++ quoted "step1" ++ ", "
     ++ quoted "step2" ++ ", " ++ quoted "step3" ++ "],");
    ("    " ++ quoted "lifestyle_suggestions" ++ ": ["
     ++ quoted "suggestion1" ++ ", " ++ quoted "suggestion2"
     ++ "] (only if relevant)");
    "}";
    "";
    "Guidelines:";
    "1. Provide 1-3 most likely conditions (not more)";
    "2. Use confidence levels appropriately (High only for very clear cases)";
    "3. Always include reasoning for each condition";
    "4. Set is_urgent=true for symptoms requiring immediate care (chest pain, severe difficulty breathing, loss of consciousness, etc.)";
    "5. Provide actionable next steps";
    "6. Be conservative - when in doubt, recommend professional consultation";
    "7. Output ONLY valid JSON, no additional text";
    ""
  ].

(** [json.dumps] of the example analysis, with [indent=2]. *)
Definition few_shot_example : string :=
  String.concat nl [
    "{";
    ("  " ++ quoted "conditions" ++ ": [");
    "    {";
    ("      " ++ quoted "name" ++ ": " ++ quoted "Common Cold" ++ ",");
    ("      " ++ quoted "confidence" ++ ": " ++ quoted "Medium" ++ ",");
    ("      " ++ quoted "reasoning" ++ ": "
     ++ quoted "Symptoms match common viral infection patterns" ++ ",");
    ("      " ++ quoted "recommendation" ++ ": "
     ++ quoted "Rest, hydration, over-the-counter symptom relief" ++ ",");
    ("      " ++ quoted "urgency" ++ ": " ++ quoted "Low" ++ ",");
    ("      " ++ quoted "related_symptoms" ++ ": [");
    ("        " ++ quoted "cough" ++ ",");
    ("        " ++ quoted "sore throat");
    "      ]";
    "    }";
    "  ],";
    ("  " ++ quoted "is_urgent" ++ ": false,");
    ("  " ++ quoted "urgency_level" ++ ": " ++ quoted "Low" ++ ",");
    ("  " ++ quoted "next_steps" ++ ": [");
    ("    " ++ quoted "Rest" ++ ",");
    ("    " ++ quoted "Stay hydrated" ++ ",");
    ("    " ++ quoted "Monitor symptoms");
    "  ]";
    "}"
  ].

(** [GeminiClient._build_prompt] *)
Definition _build_prompt (symptom_text : string)
    (medical_facts : list MedicalFact) (prompt_type : string)
    (include_lifestyle : bool) : string :=
  let facts_text :=
    String.concat nl (map (fun fact => "- " ++ models.fact fact) medical_facts) in
  let base_prompt :=
    prompt_before_symptoms ++ symptom_text ++ prompt_before_facts
    ++ facts_text ++ prompt_after_facts in
  let base_prompt :=
    if String.eqb prompt_type "role"
    then "You are an experienced medical triage nurse with 20 years of experience. "
         ++ base_prompt
    else if String.eqb prompt_type "few"
    then base_prompt ++ nl ++ nl ++ "Example analysis:" ++ nl
         ++ few_shot_example
    else base_prompt in
  let base_prompt :=
    if include_lifestyle
    then base_prompt ++ nl ++ nl
         ++ "Also provide general lifestyle and wellness suggestions that may help with symptom management."
    else base_prompt in
  base_prompt.

End gemini_client.

(** ** core/diagnosis_logic.py *)
Module diagnosis_logic.
Import py.
Import models.

Definition MEDICAL_DISCLAIMER : string :=
  "⚠️ IMPORTANT: This is not a substitute for professional medical advice. "
  ++ "Always consult with a qualified healthcare provider for proper diagnosis and treatment. "
  ++ "For medical emergencies, call emergency services immediately.".

Definition URGENT_KEYWORDS : list string := [
  "chest pain"; "heart attack"; "stroke"; "severe difficulty breathing";
  "can't breathe"; "unconscious"; "severe bleeding"; "severe allergic reaction";
  "severe burn"; "severe head injury"; "severe abdominal pain"; "severe pain";
  "loss of consciousness"; "seizure"; "choking"; "severe trauma";
  "sudden severe headache"; "thunderclap headache"; "severe dizziness";
  "severe confusion"; "severe weakness"; "paralysis"
].

(** [check_urgent_keywords]: the loop returns [True] at the first keyword
    found in the lowered text. *)
Definition check_urgent_keywords (symptoms : string) : bool :=
  let symptoms_lower := lower symptoms in
  existsb (fun keyword => contains keyword symptoms_lower) URGENT_KEYWORDS.

(** [validate_symptoms] *)
Definition validate_symptoms (symptoms : string) : result unit :=
  if String.eqb symptoms "" || String.eqb (strip symptoms) ""
  then Raise (ValidationError
                "Symptoms cannot be empty. Please describe your symptoms.")
  else if (String.length (strip symptoms) <? 3)%nat
  then Raise (ValidationError
                "Symptom description is too short. Please provide more details.")
  else if (2000 <? String.length symptoms)%nat
  then Raise (ValidationError
                "Symptom description is too long. Please keep it under 2000 characters.")
  else Ok tt.

(** The body of the first loop of [parse_llm_response].  The two [try]
    statements catch [ValueError] only, so a [cond_data] without [get] ends
    the whole call. *)
Definition parse_condition (cond_data : pyval) : result Condition :=
  bind (get cond_data "confidence" (PyStr "Low")) (fun c =>
  let confidence :=
    match ConfidenceLevel.call c with
    | Some x => x | None => ConfidenceLevel.LOW
    end in
  bind (get cond_data "urgency" (PyStr "Moderate")) (fun u =>
  let urgency :=
    match UrgencyLevel.call u with
    | Some x => x | None => UrgencyLevel.MODERATE
    end in
  bind (get cond_data "name" (PyStr "Unknown Condition")) (fun n =>
  bind (get cond_data "reasoning" (PyStr "No reasoning provided")) (fun r =>
  bind (get cond_data "recommendation" (PyStr "Consult a healthcare provider"))
    (fun rc =>
  bind (get cond_data "related_symptoms" (PyList [])) (fun rs =>
  Ok {| name := n; confidence := confidence; reasoning := r;
        recommendation := rc; urgency := urgency;
        related_symptoms := rs |})))))).

Fixpoint parse_conditions (items : list pyval) : result (list Condition) :=
  match items with
  | [] => Ok []
  | cond_data :: rest =>
      bind (parse_condition cond_data) (fun condition =>
      bind (parse_conditions rest) (fun conditions =>
      Ok (condition :: conditions)))
  end.

(** [cond.urgency in [UrgencyLevel.CRITICAL, UrgencyLevel.URGENT]] *)
Definition is_critical_or_urgent (u : UrgencyLevel.t) : bool :=
  match u with
  | UrgencyLevel.CRITICAL | UrgencyLevel.URGENT => true
  | _ => false
  end.

(** The second loop of [parse_llm_response], entered when [is_urgent] is
    false: the first condition that is Critical or Urgent sets both
    variables and ends the loop. *)
Fixpoint scan_conditions (conditions : list Condition)
    (is_urgent : pyval) (urgency_level : UrgencyLevel.t)
  : pyval * UrgencyLevel.t :=
  match conditions with
  | [] => (is_urgent, urgency_level)
  | cond :: rest =>
      if is_critical_or_urgent (urgency cond)
      then (PyBool true, urgency cond)
      else scan_conditions rest is_urgent urgency_level
  end.

(** [parse_llm_response] *)
Definition parse_llm_response (response : pyval) : result DiagnosisResult :=
  bind (get response "conditions" (PyList [])) (fun cs =>
  bind (iterate cs) (fun items =>
  bind (parse_conditions items) (fun conditions =>
  bind (get response "is_urgent" (PyBool false)) (fun is_urgent =>
  bind (get response "urgency_level" (PyStr "Moderate")) (fun urgency_level_str =>
  let urgency_level :=
    match UrgencyLevel.call urgency_level_str with
    | Some x => x | None => UrgencyLevel.MODERATE
    end in
  let '(is_urgent, urgency_level) :=
    if negb (truthy is_urgent)
    then scan_conditions conditions is_urgent urgency_level
    else (is_urgent, urgency_level) in
  bind (get response "lifestyle_suggestions" PyNone) (fun ls =>
  bind (get response "next_steps" (PyList [])) (fun ns =>
  Ok {| conditions := conditions;
        flagged := is_urgent;
        urgency_level := urgency_level;
        disclaimer := MEDICAL_DISCLAIMER;
        lifestyle_suggestions := ls;
        next_steps := ns;
        metadata :=
          <["source" := PyStr "gemini_ai"]>
          (<["conditions_count" := PyInt (Z.of_nat (length conditions))]> ∅)
     |}))))))).

(** What [analyze_symptoms] does outside itself, in order. *)
Inductive event : Type :=
| RetrieveFacts (symptoms : string)
| GatewayCall (symptoms : string) (medical_facts : list MedicalFact)
    (prompt_type : string) (include_lifestyle : bool).

(** The analyzer's two collaborators: the [analyze_symptoms] method of its
    [gemini_client], as a function of its arguments to what it returns or
    raises (any object with that method can be passed to the constructor),
    and the [top_k] of its [rag_engine]. *)
Record DiagnosisAnalyzer : Type := {
  gemini_client :
    string -> list MedicalFact -> string -> bool -> result pyval;
  rag_engine_top_k : Z
}.

(** The analyzer built from a [GeminiClient] and a [RAGEngine(top_k)]. *)
Definition make_analyzer (client : gemini_client.GeminiClient) (top_k : Z)
  : DiagnosisAnalyzer :=
  {| gemini_client := fun symptoms medical_facts prompt_type include_lifestyle =>
       snd (gemini_client.analyze_symptoms client symptoms medical_facts
              prompt_type include_lifestyle);
     rag_engine_top_k := top_k |}.

(** The result built in the [except Exception] branch. *)
Definition fallback_result (is_urgent_rule : bool) (e : exn)
  : DiagnosisResult :=
  {| conditions := [
       {| name := PyStr "Analysis Unavailable";
          confidence := ConfidenceLevel.LOW;
          reasoning := PyStr "Unable to analyze symptoms at this time. Please consult a healthcare provider.";
          recommendation := PyStr "Please consult with a healthcare professional for proper evaluation.";
          urgency := UrgencyLevel.MODERATE;
          related_symptoms := PyList [] |} ];
     flagged := PyBool is_urgent_rule;
     urgency_level :=
       if is_urgent_rule then UrgencyLevel.URGENT else UrgencyLevel.MODERATE;
     disclaimer := MEDICAL_DISCLAIMER;
     lifestyle_suggestions := PyNone;
     next_steps := PyList [PyStr "Consult a healthcare provider";
                           PyStr "Monitor symptoms"];
     metadata := {[ "error" := PyStr (str_exn e) ]} |}.

(** The statement that joins the rule-based flag with the parsed result. *)
Definition combine_flags (is_urgent_rule : bool) (result : DiagnosisResult)
  : DiagnosisResult :=
  if is_urgent_rule && negb (truthy (flagged result))
  then {| conditions := conditions result;
          flagged := PyBool true;
          urgency_level :=
            match urgency_level result with
            | UrgencyLevel.MODERATE => UrgencyLevel.URGENT
            | other => other
            end;
          disclaimer := disclaimer result;
          lifestyle_suggestions := lifestyle_suggestions result;
          next_steps := next_steps result;
          metadata := metadata result |}
  else result.

(** [result.metadata.update({...})] *)
Definition add_metadata (is_urgent_rule : bool) (n_facts : nat)
    (result : DiagnosisResult) : DiagnosisResult :=
  {| conditions := conditions result;
     flagged := flagged result;
     urgency_level := urgency_level result;
     disclaimer := disclaimer result;
     lifestyle_suggestions := lifestyle_suggestions result;
     next_steps := next_steps result;
     metadata :=
       <["medical_facts_count" := PyInt (Z.of_nat n_facts)]>
       (<["rule_based_urgent" := PyBool is_urgent_rule]> (metadata result)) |}.

(** [DiagnosisAnalyzer.analyze_symptoms]: the events in the order they
    happen, and what the call returns or raises. *)
Definition analyze_symptoms (self : DiagnosisAnalyzer) (symptoms : string)
    (prompt_type : string) (include_lifestyle : bool)
  : list event * result DiagnosisResult :=
  match validate_symptoms symptoms with
  | Raise e => ([], Raise e)
  | Ok _ =>
      let is_urgent_rule := check_urgent_keywords symptoms in
      let medical_facts :=
        rag_engine.retrieve_relevant_facts (rag_engine_top_k self)
          symptoms None in
      let trace :=
        [RetrieveFacts symptoms;
         GatewayCall symptoms medical_facts prompt_type include_lifestyle] in
      match gemini_client self symptoms medical_facts prompt_type
              include_lifestyle with
      | Raise e => (trace, Ok (fallback_result is_urgent_rule e))
      | Ok llm_response =>
          match parse_llm_response llm_response with
          | Raise e => (trace, Raise e)
          | Ok result =>
              let result := combine_flags is_urgent_rule result in
              let result :=
                add_metadata is_urgent_rule (length medical_facts) result in
              (trace, Ok result)
          end
      end
  end.

End diagnosis_logic.

(** ** Notions used to state the properties *)
Module spec.
Import py models.

(** [needle] occurs in [hay]. *)
Definition occurs_in (needle hay : string) : Prop :=
  exists pre post : string, hay = pre ++ needle ++ post.

(** [s] consists of white space only (the empty string included). *)
Fixpoint whitespace_only (s : string) : bool :=
  match s with
  | EmptyString => true
  | String c r => isspace c && whitespace_only r
  end.

(** The inputs that the specification says are refused: blank, trimmed
    length below 3, or more than 2000 characters. *)
Definition invalid_symptoms (s : string) : Prop :=
  s = "" \/ whitespace_only s = true
  \/ (String.length (strip s) < 3)%nat \/ (2000 < String.length s)%nat.

(** [s] contains, case-insensitively, a phrase of the urgent list. *)
Definition has_urgent_phrase (s : string) : Prop :=
  exists phrase, In phrase diagnosis_logic.URGENT_KEYWORDS
                 /\ occurs_in phrase (lower s).

(** The [is_urgent] entry of a reply map ([False] when there is none). *)
Definition reply_is_urgent (m : gmap string pyval) : pyval :=
  match m !! "is_urgent" with Some v => v | None => PyBool false end.

(** The level a reply map declares: its [urgency_level] entry when that is
    one of the four spellings, Moderate otherwise. *)
Definition reply_urgency_level (m : gmap string pyval) : UrgencyLevel.t :=
  match m !! "urgency_level" with
  | Some v =>
      match UrgencyLevel.call v with
      | Some u => u | None => UrgencyLevel.MODERATE
      end
  | None => UrgencyLevel.MODERATE
  end.

(** A condition entry of a reply: a dictionary. *)
Definition is_entry (v : pyval) : Prop := exists d, v = PyDict d.

(** The entry [v] has [urgency] spelled as the level [u]. *)
Definition declares_urgency (v : pyval) (u : UrgencyLevel.t) : Prop :=
  exists d, v = PyDict d /\ d !! "urgency" = Some (PyStr (UrgencyLevel.value u)).

(** A reply map whose [conditions] entry is missing or is a list of
    condition entries. *)
Definition well_formed_reply (reply : pyval) : Prop :=
  exists m items,
    reply = PyDict m
    /\ match m !! "conditions" with Some v => v | None => PyList [] end
       = PyList items
    /\ Forall is_entry items.

Definition urgent_entry (v : pyval) : Prop :=
  declares_urgency v UrgencyLevel.CRITICAL
  \/ declares_urgency v UrgencyLevel.URGENT.

(** The invariant of the data model as the specification words it: a
    flagged result has level Critical or Urgent, unless the rule-based gate
    fired and the level is Moderate or Low. *)
Definition flag_level_invariant (gate : bool) (r : DiagnosisResult) : Prop :=
  truthy (flagged r) = true ->
  diagnosis_logic.is_critical_or_urgent (urgency_level r) = true
  \/ (gate = true
      /\ (urgency_level r = UrgencyLevel.MODERATE
          \/ urgency_level r = UrgencyLevel.LOW)).

(** A turn of the retry loop that did not produce a reply. *)
Definition failed (o : gemini_client.attempt_outcome) : Prop :=
  match o with gemini_client.Parsed _ => False | _ => True end.

(** The user keyword [uk] matches the fact [f]: one of them occurs in the
    other, case-insensitively, for some keyword of [f]. *)
Definition matches (uk : string) (f : MedicalFact) : Prop :=
  exists fk, In fk (keywords f)
             /\ (occurs_in (lower uk) (lower fk)
                 \/ occurs_in (lower fk) (lower uk)).

(** The number of matched user keywords of a fact, and its score. *)
Definition match_count (keywords : list string) (f : MedicalFact) : nat :=
  medical_facts.match_score (models.keywords f) keywords.

Definition score (keywords : list string) (f : MedicalFact) : spec_float :=
  float_mul (float_of_int (Z.of_nat (match_count keywords f)))
            (reliability_score f).

(** A table with the position of each row. *)
Definition enumerate {A} (l : list A) : list (nat * A) :=
  combine (seq 0 (length l)) l.

(** [x] stands before [y] in a descending stable order: a greater key, or
    no difference between the keys and an earlier position. *)
Definition before {A K : Type} (key : A -> K) (lt : K -> K -> bool)
    (pos : A -> nat) (x y : A) : Prop :=
  lt (key y) (key x) = true
  \/ (lt (key y) (key x) = false /\ lt (key x) (key y) = false
      /\ (pos x < pos y)%nat).

(** The order of the ranking: a higher score first, and among rows whose
    scores do not differ, the earlier row of the table first. *)
Definition ranks_before (keywords : list string)
    (x y : nat * MedicalFact) : Prop :=
  before (fun r : nat * MedicalFact => score keywords (snd r)) float_lt fst x y.

(** The rows that take part in the ranking: those matched at least once. *)
Definition matched_rows (keywords : list string) (db : list MedicalFact)
  : list (nat * MedicalFact) :=
  List.filter (fun x => (0 <? match_count keywords (snd x))%nat) (enumerate db).

(** [r] with another value in [lifestyle_suggestions]. *)
Definition with_lifestyle_suggestions (r : DiagnosisResult) (v : pyval)
  : DiagnosisResult :=
  {| conditions := conditions r;
     flagged := flagged r;
     urgency_level := urgency_level r;
     disclaimer := disclaimer r;
     lifestyle_suggestions := v;
     next_steps := next_steps r;
     metadata := metadata r |}.

(** A reply that [parse_llm_response] can read: a map whose [conditions]
    entry, or the empty list in its place, can be iterated and yields maps
    only. *)
Definition parsable_reply (reply : pyval) : Prop :=
  exists m items,
    reply = PyDict m
    /\ iterate (match m !! "conditions" with
                | Some v => v | None => PyList []
                end) = Ok items
    /\ Forall is_entry items.

(** The exceptions that reading a reply can raise. *)
Definition is_read_error (e : exn) : Prop :=
  (exists msg, e = AttributeError msg) \/ (exists msg, e = TypeError msg).

(** The condition [c] is what the entry [d] of a reply says: a field that
    is present is copied, a missing one takes its default, and a level that
    is not spelled as a member of its enumeration becomes Low (confidence)
    or Moderate (urgency). *)
Definition field_or (d : gmap string pyval) (key : string) (default : pyval)
    (v : pyval) : Prop :=
  match d !! key with Some x => v = x | None => v = default end.

Definition condition_of_entry (d : gmap string pyval) (c : Condition) : Prop :=
  field_or d "name" (PyStr "Unknown Condition") (name c)
  /\ field_or d "reasoning" (PyStr "No reasoning provided") (reasoning c)
  /\ field_or d "recommendation" (PyStr "Consult a healthcare provider")
       (recommendation c)
  /\ field_or d "related_symptoms" (PyList []) (related_symptoms c)
  /\ (forall x, d !! "confidence" = Some (PyStr (ConfidenceLevel.value x)) ->
                confidence c = x)
  /\ ((forall x, d !! "confidence" <> Some (PyStr (ConfidenceLevel.value x))) ->
      confidence c = ConfidenceLevel.LOW)
  /\ (forall u, d !! "urgency" = Some (PyStr (UrgencyLevel.value u)) ->
                urgency c = u)
  /\ ((forall u, d !! "urgency" <> Some (PyStr (UrgencyLevel.value u))) ->
      urgency c = UrgencyLevel.MODERATE).

(** The sum of a list of delays. *)
Definition total (delays : list Z) : Z := fold_right Z.add 0 delays.

(** The character [c] occurs in [s]. *)
Definition char_in (c : ascii) (s : string) : Prop :=
  occurs_in (String c EmptyString) s.

(** A float that is finite and not zero. *)
Definition is_finite (x : spec_float) : bool :=
  match x with S754_finite _ _ _ => true | _ => false end.

(** A float that is a number. *)
Definition not_nan (x : spec_float) : Prop := x <> S754_nan.

(** A place for each float that is a number, in the lexicographic order of
    triples: the sign class first, then exponent and mantissa. *)
Definition float_rank (x : spec_float) : Z * (Z * Z) :=
  match x with
  | S754_infinity true => (-2, (0, 0))
  | S754_finite true m e => (-1, (- e, - Zpos m))
  | S754_zero _ | S754_nan => (0, (0, 0))
  | S754_finite false m e => (1, (e, Zpos m))
  | S754_infinity false => (2, (0, 0))
  end.

Definition lex_lt (a b : Z * (Z * Z)) : Prop :=
  fst a < fst b
  \/ (fst a = fst b
      /\ (fst (snd a) < fst (snd b)
          \/ (fst (snd a) = fst (snd b) /\ snd (snd a) < snd (snd b)))).

End spec.

(** ** Analyzers and inputs used as test cases *)
Module samples.
Import py models.

(** A client whose every request to the external model fails with
    [msg]. *)
Definition failing_gateway (max_retries : Z) (msg : string)
  : gemini_client.GeminiClient :=
  {| gemini_client.max_retries := max_retries;
     gemini_client.try_body := fun _ _ _ _ _ => gemini_client.OtherError msg |}.

(** A client whose every reply from the external model fails to parse. *)
Definition garbled_gateway (max_retries : Z) : gemini_client.GeminiClient :=
  {| gemini_client.max_retries := max_retries;
     gemini_client.try_body := fun _ _ _ _ _ =>
       gemini_client.JSONDecodeError "Expecting value" |}.


(** A client with one garbled reply and then the reply [reply]. *)
Definition garbled_then_replying_gateway (reply : pyval)
  : gemini_client.GeminiClient :=
  {| gemini_client.max_retries := 3;
     gemini_client.try_body := fun _ _ _ _ attempt =>
       if attempt =? 0 then gemini_client.JSONDecodeError "Expecting value"
       else gemini_client.Parsed reply |}.

(** A client whose external model answers [reply] at once. *)
Definition replying_gateway (reply : pyval) : gemini_client.GeminiClient :=
  {| gemini_client.max_retries := 3;
     gemini_client.try_body := fun _ _ _ _ _ => gemini_client.Parsed reply |}.

(** The analyzers over these clients, with the default [top_k] of 5. *)
Definition failing_client (max_retries : Z) (msg : string)
  : diagnosis_logic.DiagnosisAnalyzer :=
  diagnosis_logic.make_analyzer (failing_gateway max_retries msg) 5.

Definition replying_client (reply : pyval)
  : diagnosis_logic.DiagnosisAnalyzer :=
  diagnosis_logic.make_analyzer (replying_gateway reply) 5.

(** A condition entry of a reply. *)
Definition entry (name urgency : string) : pyval :=
  PyDict {[ "name" := PyStr name; "urgency" := PyStr urgency ]}.

(** A reply that flags nothing itself but lists a Critical condition. *)
Definition reply_with_critical_condition : gmap string pyval :=
  {[ "is_urgent" := PyBool false;
     "urgency_level" := PyStr "Low";
     "conditions" := PyList [entry "Tension headache" "Low";
                             entry "Meningitis" "Critical";
                             entry "Migraine" "Urgent"] ]}.

(** A reply with one condition of Low confidence and Low urgency. *)
Definition reply_low : gmap string pyval :=
  {[ "is_urgent" := PyBool false;
     "urgency_level" := PyStr "Low";
     "conditions" :=
       PyList [PyDict {[ "name" := PyStr "Tension headache";
                         "confidence" := PyStr "Low";
                         "urgency" := PyStr "Low" ]}] ]}.

(** A reply that sets [is_urgent] and says nothing else. *)
Definition reply_only_is_urgent : gmap string pyval :=
  {[ "is_urgent" := PyBool true ]}.

(** A reply that flags nothing and declares the level Moderate. *)
Definition reply_moderate : gmap string pyval :=
  {[ "is_urgent" := PyBool false; "urgency_level" := PyStr "Moderate" ]}.



(** A reply that flags nothing itself and lists an Urgent condition before
    a Critical one. *)
Definition reply_urgent_then_critical : gmap string pyval :=
  {[ "is_urgent" := PyBool false;
     "conditions" := PyList [entry "Migraine" "Urgent";
                             entry "Meningitis" "Critical"] ]}.

(** A reply that flags nothing itself and lists a Critical condition and
    then a sentence in the place of a condition. *)
Definition reply_critical_then_text : gmap string pyval :=
  {[ "is_urgent" := PyBool false;
     "conditions" := PyList [entry "Meningitis" "Critical";
                             PyStr "see a doctor"] ]}.

(** A reply whose [lifestyle_suggestions] are a sentence, not a list. *)
Definition reply_lifestyle_text : gmap string pyval :=
  {[ "lifestyle_suggestions" := PyStr "rest more" ]}.

(** The two-row table of the retrieval scenario of the specification. *)
Definition two_facts : list MedicalFact := [
  {| id := "a"; fact := "Fever and chills"; category := "Fever";
     keywords := ["fever"; "chills"]; source := None;
     reliability_score := float_lit_hundredths 95 |};
  {| id := "b"; fact := "Cough and sore throat"; category := "Respiratory";
     keywords := ["cough"; "sore throat"]; source := None;
     reliability_score := float_lit_hundredths 100 |}
].

(** [c * n] *)
Fixpoint repeat_string (c : string) (n : nat) : string :=
  match n with
  | O => ""
  | S n' => c ++ repeat_string c n'
  end.

End samples.

(** * Properties *)

Import py models spec.

(** ** Strings *)

Lemma append_cons (c : ascii) (s t : string) :
  String c s ++ t = String c (s ++ t).
Proof. reflexivity. Qed.

Lemma prefix_true_iff (p s : string) :
  String.prefix p s = true <-> exists post, s = p ++ post.
Proof.
  revert s. induction p as [|a p IH]; intros [|b s]; simpl.
  - split; [intros _; by exists "" | done].
  - split; [intros _; by exists (String b s) | done].
  - split; [done | intros [post H]; discriminate].
  - destruct (ascii_dec a b) as [->|Hne].
    + rewrite IH. split; intros [post H]; exists post.
      * by rewrite H.
      * by injection H.
    + split; [done | intros [post H]; by injection H].
Qed.

Lemma contains_unfold (needle hay : string) :
  contains needle hay =
  String.prefix needle hay
  || match hay with EmptyString => false | String _ r => contains needle r end.
Proof. by destruct hay. Qed.

Lemma contains_true_iff (needle hay : string) :
  contains needle hay = true <-> occurs_in needle hay.
Proof.
  unfold occurs_in. induction hay as [|c hay IH].
  - rewrite contains_unfold, orb_false_r, prefix_true_iff. split.
    + intros [post H]. by exists "", post.
    + intros [pre [post H]]. destruct pre; [by exists post | discriminate].
  - rewrite contains_unfold, orb_true_iff, prefix_true_iff, IH. split.
    + intros [[post H]|[pre [post H]]].
      * by exists "", post.
      * exists (String c pre), post. by rewrite append_cons, H.
    + intros [pre [post H]]. destruct pre as [|c' pre].
      * left. by exists post.
      * right. exists pre, post. rewrite append_cons in H. congruence.
Qed.

Lemma rstrip_empty_iff (s : string) :
  rstrip s = "" <-> whitespace_only s = true.
Proof.
  induction s as [|c s IH]; simpl; [done|].
  destruct (rstrip s) eqn:E.
  - destruct (isspace c); simpl; [tauto|]. split; discriminate.
  - split; [discriminate|]. intros [_ H]%andb_true_iff.
    apply IH in H. discriminate.
Qed.

Lemma whitespace_only_lstrip (s : string) :
  whitespace_only (lstrip s) = whitespace_only s.
Proof.
  induction s as [|c s IH]; simpl; [done|].
  destruct (isspace c) eqn:E; simpl; [done | by rewrite E].
Qed.

Lemma strip_empty_iff (s : string) :
  strip s = "" <-> whitespace_only s = true.
Proof. unfold strip. by rewrite rstrip_empty_iff, whitespace_only_lstrip. Qed.

Lemma eqb_empty_iff (s : string) : String.eqb s "" = true <-> s = "".
Proof. apply String.eqb_eq. Qed.

(** ** Exceptions *)

Lemma bind_Ok_inv {A B} (r : result A) (k : A -> result B) (b : B) :
  bind r k = Ok b -> exists a, r = Ok a /\ k a = Ok b.
Proof. destruct r as [a|e]; simpl; [eauto | discriminate]. Qed.

Ltac bind_inv H :=
  repeat match type of H with
         | bind _ _ = Ok _ =>
             let a := fresh "v" in
             let E := fresh "E" in
             apply bind_Ok_inv in H as (a & E & H)
         end.

(** ** The rule-based gate and validation *)

Lemma check_urgent_keywords_true_iff (s : string) :
  diagnosis_logic.check_urgent_keywords s = true <-> has_urgent_phrase s.
Proof.
  unfold diagnosis_logic.check_urgent_keywords, has_urgent_phrase.
  rewrite existsb_exists. split; intros (kw & Hin & H); exists kw; split; auto;
    by apply contains_true_iff.
Qed.

Lemma validate_symptoms_Ok_iff (s : string) :
  diagnosis_logic.validate_symptoms s = Ok tt <-> ~ invalid_symptoms s.
Proof.
  unfold diagnosis_logic.validate_symptoms, invalid_symptoms.
  destruct (String.eqb s "") eqn:E0; simpl.
  { apply String.eqb_eq in E0. split; [discriminate | tauto]. }
  apply String.eqb_neq in E0.
  destruct (String.eqb (strip s) "") eqn:E1.
  { apply String.eqb_eq, strip_empty_iff in E1. split; [discriminate | tauto]. }
  assert (whitespace_only s <> true) as Hws.
  { intros H%strip_empty_iff. apply String.eqb_neq in E1. tauto. }
  destruct (Nat.ltb_spec (String.length (strip s)) 3) as [H3|H3].
  { split; [discriminate | tauto]. }
  destruct (Nat.ltb_spec 2000 (String.length s)) as [H2|H2].
  { split; [discriminate | tauto]. }
  split; [|done]. intros _ [?|[?|[?|?]]]; try done; lia.
Qed.

Lemma validate_symptoms_cases (s : string) :
  diagnosis_logic.validate_symptoms s = Ok tt
  \/ exists msg, diagnosis_logic.validate_symptoms s = Raise (ValidationError msg).
Proof.
  unfold diagnosis_logic.validate_symptoms.
  repeat match goal with |- context [if ?b then _ else _] => destruct b end;
    eauto.
Qed.

(** C2. An input that is empty or white space only, or shorter than 3
    characters once trimmed, or longer than 2000 characters makes
    [analyze_symptoms] raise [ValidationError] with no event before it: no
    fact retrieval, no call of the model gateway.  Every other input passes
    [validate_symptoms]. *)
Theorem C2_validation_rejects_before_any_call
    (self : diagnosis_logic.DiagnosisAnalyzer) (s prompt_type : string)
    (include_lifestyle : bool) :
  (invalid_symptoms s ->
   exists msg,
     diagnosis_logic.analyze_symptoms self s prompt_type include_lifestyle
     = ([], Raise (ValidationError msg)))
  /\ (~ invalid_symptoms s -> diagnosis_logic.validate_symptoms s = Ok tt).
Proof.
  split.
  - intros Hinv. unfold diagnosis_logic.analyze_symptoms.
    destruct (validate_symptoms_cases s) as [H|[msg H]].
    + by apply validate_symptoms_Ok_iff in H.
    + rewrite H. eauto.
  - apply validate_symptoms_Ok_iff.
Qed.

Lemma C2_witness :
  invalid_symptoms "  "
  /\ (exists msg,
        diagnosis_logic.analyze_symptoms
          (samples.replying_client (PyDict samples.reply_moderate))
          "  " "zero" false
        = ([], Raise (ValidationError msg)))
  /\ diagnosis_logic.validate_symptoms "I have a mild headache" = Ok tt.
Proof.
  split; [right; left; reflexivity|]. split.
  - apply (C2_validation_rejects_before_any_call _ "  " "zero" false).
    right; left; reflexivity.
  - apply (C2_validation_rejects_before_any_call
             (samples.replying_client PyNone) _ "zero" false).
    apply validate_symptoms_Ok_iff. reflexivity.
Defined.

Example validate_symptoms_too_short :
  diagnosis_logic.validate_symptoms " a " =
  Raise (ValidationError
           "Symptom description is too short. Please provide more details.").
Proof. reflexivity. Qed.

Example validate_symptoms_too_long :
  diagnosis_logic.validate_symptoms (samples.repeat_string "a" 2001) =
  Raise (ValidationError
           "Symptom description is too long. Please keep it under 2000 characters.").
Proof. vm_compute. reflexivity. Qed.

Example validate_symptoms_2000_characters :
  diagnosis_logic.validate_symptoms (samples.repeat_string "a" 2000) = Ok tt.
Proof. vm_compute. reflexivity. Qed.


(** ** Parsing the reply *)

Lemma scan_conditions_find (cs : list Condition) (v : pyval) (l : UrgencyLevel.t) :
  diagnosis_logic.scan_conditions cs v l =
  match find (fun c => diagnosis_logic.is_critical_or_urgent (urgency c)) cs with
  | Some c => (PyBool true, urgency c)
  | None => (v, l)
  end.
Proof.
  induction cs as [|c cs IH]; simpl; [done|].
  by destruct (diagnosis_logic.is_critical_or_urgent (urgency c)).
Qed.

Lemma scan_conditions_cases (cs : list Condition) (v : pyval) (l : UrgencyLevel.t) :
  diagnosis_logic.scan_conditions cs v l = (v, l)
  \/ exists u, diagnosis_logic.is_critical_or_urgent u = true
               /\ diagnosis_logic.scan_conditions cs v l = (PyBool true, u).
Proof.
  rewrite scan_conditions_find.
  destruct (find _ cs) as [c|] eqn:E; [right | by left].
  apply find_some in E as [_ E]. eauto.
Qed.

(** What a successful [parse_llm_response] has read: the reply is a
    dictionary, and the flag and level come either from the reply itself or
    from the scan of the conditions. *)
Lemma parse_llm_response_Ok_inv (response : pyval) (p : DiagnosisResult) :
  diagnosis_logic.parse_llm_response response = Ok p ->
  exists m,
    response = PyDict m
    /\ (flagged p, urgency_level p) =
       (if negb (truthy (reply_is_urgent m))
        then diagnosis_logic.scan_conditions (conditions p)
               (reply_is_urgent m) (reply_urgency_level m)
        else (reply_is_urgent m, reply_urgency_level m)).
Proof.
  intros H. destruct response as [| | | | | |m]; try discriminate H.
  exists m. split; [done|].
  unfold diagnosis_logic.parse_llm_response in H. simpl in H.
  bind_inv H.
  fold (reply_is_urgent m) in H.
  replace (match
              UrgencyLevel.call
                match m !! "urgency_level" with
                | Some v => v
                | None => PyStr "Moderate"
                end
            with
            | Some x => x
            | None => UrgencyLevel.MODERATE
            end) with (reply_urgency_level m) in H
    by (unfold reply_urgency_level; by destruct (m !! "urgency_level")).
  destruct (if negb (truthy (reply_is_urgent m)) then _ else _)
    as [fl lv] eqn:Efinal.
  injection H as <-. simpl. by rewrite Efinal.
Qed.

(** The flag of a parsed reply is [True] set by the scan, or the reply's own
    [is_urgent] entry. *)
Lemma parse_llm_response_flagged (m : gmap string pyval) (p : DiagnosisResult) :
  diagnosis_logic.parse_llm_response (PyDict m) = Ok p ->
  (truthy (reply_is_urgent m) = true
   /\ flagged p = reply_is_urgent m /\ urgency_level p = reply_urgency_level m)
  \/ (truthy (reply_is_urgent m) = false
      /\ flagged p = reply_is_urgent m /\ urgency_level p = reply_urgency_level m)
  \/ (truthy (reply_is_urgent m) = false
      /\ flagged p = PyBool true
      /\ diagnosis_logic.is_critical_or_urgent (urgency_level p) = true).
Proof.
  intros (m' & [= <-] & H)%parse_llm_response_Ok_inv.
  destruct (truthy (reply_is_urgent m)) eqn:T; simpl in H.
  - left. by injection H.
  - right.
    destruct (scan_conditions_cases (conditions p) (reply_is_urgent m)
                (reply_urgency_level m)) as [E|(u & Hu & E)];
      rewrite E in H; injection H as -> ->; auto.
Qed.

(** ** Condition entries *)

Lemma UrgencyLevel_call_value (u : UrgencyLevel.t) :
  UrgencyLevel.call (PyStr (UrgencyLevel.value u)) = Some u.
Proof. by destruct u. Qed.

Lemma UrgencyLevel_call_Some (v : pyval) (u : UrgencyLevel.t) :
  UrgencyLevel.call v = Some u -> v = PyStr (UrgencyLevel.value u).
Proof.
  destruct v as [| | | |s| |]; simpl; try discriminate.
  repeat match goal with
         | |- context [String.eqb s ?t] =>
             destruct (String.eqb_spec s t) as [->|?]
         end; intros [= <-]; done.
Qed.

Lemma parse_condition_entry (d : gmap string pyval) :
  exists c,
    diagnosis_logic.parse_condition (PyDict d) = Ok c
    /\ urgency c =
       match UrgencyLevel.call
               match d !! "urgency" with Some v => v | None => PyStr "Moderate" end
       with Some u => u | None => UrgencyLevel.MODERATE end.
Proof. eexists. split; reflexivity. Qed.

Lemma parse_conditions_cons (x : pyval) (items : list pyval) :
  diagnosis_logic.parse_conditions (x :: items) =
  bind (diagnosis_logic.parse_condition x) (fun c =>
  bind (diagnosis_logic.parse_conditions items) (fun cs => Ok (c :: cs))).
Proof. reflexivity. Qed.

Lemma parse_conditions_entries (items : list pyval) :
  Forall is_entry items ->
  exists cs, diagnosis_logic.parse_conditions items = Ok cs.
Proof.
  induction 1 as [|x items [d ->] _ [cs IH]]; [by exists []|].
  destruct (parse_condition_entry d) as (c & Hc & _).
  rewrite parse_conditions_cons, Hc, IH. simpl. eauto.
Qed.

(** A well-formed reply is always parsed. *)
Lemma parse_llm_response_well_formed (reply : pyval) :
  well_formed_reply reply ->
  exists p, diagnosis_logic.parse_llm_response reply = Ok p.
Proof.
  intros (m & items & -> & Hc & He).
  destruct (parse_conditions_entries items He) as [cs Hcs].
  unfold diagnosis_logic.parse_llm_response. simpl. rewrite Hc. simpl.
  rewrite Hcs. simpl.
  destruct (if negb (truthy _) then _ else _) as [fl lv]. eauto.
Qed.

(** ** The analysis as a whole *)

Lemma analyze_symptoms_valid (self : diagnosis_logic.DiagnosisAnalyzer)
    (s prompt_type : string) (include_lifestyle : bool) :
  diagnosis_logic.validate_symptoms s = Ok tt ->
  let gate := diagnosis_logic.check_urgent_keywords s in
  let facts :=
    rag_engine.retrieve_relevant_facts
      (diagnosis_logic.rag_engine_top_k self) s None in
  snd (diagnosis_logic.analyze_symptoms self s prompt_type include_lifestyle) =
  match diagnosis_logic.gemini_client self s facts prompt_type include_lifestyle with
  | Raise e => Ok (diagnosis_logic.fallback_result gate e)
  | Ok reply =>
      match diagnosis_logic.parse_llm_response reply with
      | Raise e => Raise e
      | Ok p => Ok (diagnosis_logic.add_metadata gate (length facts)
                      (diagnosis_logic.combine_flags gate p))
      end
  end.
Proof.
  intros Hv. unfold diagnosis_logic.analyze_symptoms. rewrite Hv. simpl.
  destruct (diagnosis_logic.gemini_client _ _ _ _ _) as [reply|e]; [|done].
  by destruct (diagnosis_logic.parse_llm_response reply).
Qed.

Lemma analyze_symptoms_Ok_inv (self : diagnosis_logic.DiagnosisAnalyzer)
    (s prompt_type : string) (include_lifestyle : bool) (r : DiagnosisResult) :
  snd (diagnosis_logic.analyze_symptoms self s prompt_type include_lifestyle) = Ok r ->
  diagnosis_logic.validate_symptoms s = Ok tt.
Proof.
  unfold diagnosis_logic.analyze_symptoms.
  destruct (diagnosis_logic.validate_symptoms s) as [[]|e]; [done | discriminate].
Qed.

Lemma combine_flags_flagged (gate : bool) (p : DiagnosisResult) :
  flagged (diagnosis_logic.combine_flags gate p) =
  if gate && negb (truthy (flagged p)) then PyBool true else flagged p.
Proof.
  unfold diagnosis_logic.combine_flags.
  by destruct (gate && negb (truthy (flagged p))).
Qed.

Lemma combine_flags_urgency_level (gate : bool) (p : DiagnosisResult) :
  urgency_level (diagnosis_logic.combine_flags gate p) =
  if gate && negb (truthy (flagged p))
  then match urgency_level p with
       | UrgencyLevel.MODERATE => UrgencyLevel.URGENT
       | other => other
       end
  else urgency_level p.
Proof.
  unfold diagnosis_logic.combine_flags.
  by destruct (gate && negb (truthy (flagged p))).
Qed.






(** C3. When the gateway call raises, the analysis returns a result with
    exactly one condition, "Analysis Unavailable" with Low confidence and
    Moderate urgency; [flagged] is the boolean of the rule-based gate;
    [urgency_level] is Urgent when the gate fired and Moderate otherwise;
    and [metadata] holds the text of the error under "error". *)
Theorem C3_gateway_error_gives_fallback_result
    (self : diagnosis_logic.DiagnosisAnalyzer) (s prompt_type : string)
    (include_lifestyle : bool) (e : exn) :
  diagnosis_logic.validate_symptoms s = Ok tt ->
  diagnosis_logic.gemini_client self s
    (rag_engine.retrieve_relevant_facts
       (diagnosis_logic.rag_engine_top_k self) s None)
    prompt_type include_lifestyle = Raise e ->
  exists r c,
    snd (diagnosis_logic.analyze_symptoms self s prompt_type include_lifestyle)
    = Ok r
    /\ conditions r = [c]
    /\ name c = PyStr "Analysis Unavailable"
    /\ confidence c = ConfidenceLevel.LOW
    /\ urgency c = UrgencyLevel.MODERATE
    /\ flagged r = PyBool (diagnosis_logic.check_urgent_keywords s)
    /\ urgency_level r =
       (if diagnosis_logic.check_urgent_keywords s
        then UrgencyLevel.URGENT else UrgencyLevel.MODERATE)
    /\ metadata r !! "error" = Some (PyStr (str_exn e)).
Proof.
  intros Hv He.
  pose proof (analyze_symptoms_valid self s prompt_type include_lifestyle Hv) as Ha.
  simpl in Ha. rewrite He in Ha.
  eexists _, _. split; [exact Ha|]. simpl. repeat split.
Qed.

Lemma C3_witness :
  exists r c,
    snd (diagnosis_logic.analyze_symptoms
           (samples.failing_client 3 "timed out")
           "severe chest pain and can't breathe" "zero" false) = Ok r
    /\ conditions r = [c]
    /\ name c = PyStr "Analysis Unavailable"
    /\ confidence c = ConfidenceLevel.LOW
    /\ urgency c = UrgencyLevel.MODERATE
    /\ flagged r = PyBool true
    /\ urgency_level r = UrgencyLevel.URGENT
    /\ metadata r !! "error" =
       Some (PyStr "Failed to get response from Gemini API after 3 attempts: timed out").
Proof.
  apply (C3_gateway_error_gives_fallback_result
           (samples.failing_client 3 "timed out")
           "severe chest pain and can't breathe" "zero" false
           (GeminiAPIError
              "Failed to get response from Gemini API after 3 attempts: timed out")).
  - reflexivity.
  - vm_compute. reflexivity.
Defined.


(** C6. After a reply was parsed: when the gate fired and the parsed
    [flagged] is false, the result has [flagged = True], and its level is
    Urgent if the parsed level was Moderate and the parsed level otherwise
    (so Critical and Low stay); when the gate did not fire or the parsed
    [flagged] is true, flag and level are the parsed ones. *)
Theorem C6_gate_merge
    (self : diagnosis_logic.DiagnosisAnalyzer) (s prompt_type : string)
    (include_lifestyle : bool) (reply : pyval) (p : DiagnosisResult) :
  diagnosis_logic.validate_symptoms s = Ok tt ->
  diagnosis_logic.gemini_client self s
    (rag_engine.retrieve_relevant_facts
       (diagnosis_logic.rag_engine_top_k self) s None)
    prompt_type include_lifestyle = Ok reply ->
  diagnosis_logic.parse_llm_response reply = Ok p ->
  exists r,
    snd (diagnosis_logic.analyze_symptoms self s prompt_type include_lifestyle)
    = Ok r
    /\ (diagnosis_logic.check_urgent_keywords s = true ->
        truthy (flagged p) = false ->
        flagged r = PyBool true
        /\ (urgency_level p = UrgencyLevel.MODERATE ->
            urgency_level r = UrgencyLevel.URGENT)
        /\ (urgency_level p <> UrgencyLevel.MODERATE ->
            urgency_level r = urgency_level p))
    /\ (diagnosis_logic.check_urgent_keywords s = false
        \/ truthy (flagged p) = true ->
        flagged r = flagged p /\ urgency_level r = urgency_level p).
Proof.
  intros Hv Hg Hp.
  pose proof (analyze_symptoms_valid self s prompt_type include_lifestyle Hv) as Ha.
  simpl in Ha. rewrite Hg, Hp in Ha.
  eexists. split; [exact Ha|]. simpl.
  rewrite combine_flags_flagged, combine_flags_urgency_level.
  split.
  - intros -> ->. simpl. split; [done|].
    split; [by intros -> | by destruct (urgency_level p)].
  - intros [->| ->]; [done|]. by rewrite andb_false_r.
Qed.

Lemma C6_witness :
  exists r,
    snd (diagnosis_logic.analyze_symptoms
           (samples.replying_client (PyDict samples.reply_moderate))
           "severe pain in my leg" "zero" false) = Ok r
    /\ flagged r = PyBool true
    /\ urgency_level r = UrgencyLevel.URGENT.
Proof.
  destruct (C6_gate_merge
              (samples.replying_client (PyDict samples.reply_moderate))
              "severe pain in my leg" "zero" false
              (PyDict samples.reply_moderate)
              {| conditions := [];
                 flagged := PyBool false;
                 urgency_level := UrgencyLevel.MODERATE;
                 disclaimer := diagnosis_logic.MEDICAL_DISCLAIMER;
                 lifestyle_suggestions := PyNone;
                 next_steps := PyList [];
                 metadata := <["source" := PyStr "gemini_ai"]>
                             (<["conditions_count" := PyInt 0]> ∅) |})
    as (r & Hr & Hfire & _).
  - reflexivity.
  - vm_compute. reflexivity.
  - vm_compute. reflexivity.
  - exists r. split; [exact Hr|].
    destruct Hfire as (Hf & Hup & _); [reflexivity | reflexivity |].
    split; [exact Hf | apply Hup; reflexivity].
Defined.


Example analyze_symptoms_mild_headache :
  exists r,
    snd (diagnosis_logic.analyze_symptoms
           (samples.replying_client (PyDict samples.reply_low))
           "I have a mild headache" "zero" false) = Ok r
    /\ flagged r = PyBool false
    /\ urgency_level r = UrgencyLevel.LOW
    /\ map confidence (conditions r) = [ConfidenceLevel.LOW]
    /\ metadata r !! "rule_based_urgent" = Some (PyBool false)
    /\ metadata r !! "medical_facts_count" = Some (PyInt 2)
    /\ metadata r !! "conditions_count" = Some (PyInt 1).
Proof. eexists. split; [vm_compute; reflexivity|]. repeat split. Qed.

(** C4, as amended.  A flagged result of the analysis has level Critical or
    Urgent, except in two cases: the reply's own [is_urgent] entry is true,
    and then the level is the one the reply declares (Moderate when it
    declares none); or the flag comes from the rule-based gate alone and the
    reply declares the level Low, which is kept. *)
Theorem C4_flagged_level_amended
    (self : diagnosis_logic.DiagnosisAnalyzer) (s prompt_type : string)
    (include_lifestyle : bool) (r : DiagnosisResult) :
  snd (diagnosis_logic.analyze_symptoms self s prompt_type include_lifestyle)
  = Ok r ->
  truthy (flagged r) = true ->
  diagnosis_logic.is_critical_or_urgent (urgency_level r) = true
  \/ (exists m,
        diagnosis_logic.gemini_client self s
          (rag_engine.retrieve_relevant_facts
             (diagnosis_logic.rag_engine_top_k self) s None)
          prompt_type include_lifestyle = Ok (PyDict m)
        /\ truthy (reply_is_urgent m) = true
        /\ urgency_level r = reply_urgency_level m)
  \/ (exists m,
        diagnosis_logic.gemini_client self s
          (rag_engine.retrieve_relevant_facts
             (diagnosis_logic.rag_engine_top_k self) s None)
          prompt_type include_lifestyle = Ok (PyDict m)
        /\ truthy (reply_is_urgent m) = false
        /\ diagnosis_logic.check_urgent_keywords s = true
        /\ reply_urgency_level m = UrgencyLevel.LOW
        /\ urgency_level r = UrgencyLevel.LOW).
Proof.
  intros Hr Hf.
  pose proof (analyze_symptoms_Ok_inv _ _ _ _ _ Hr) as Hv.
  pose proof (analyze_symptoms_valid self s prompt_type include_lifestyle Hv) as Ha.
  simpl in Ha. rewrite Hr in Ha.
  destruct (diagnosis_logic.gemini_client _ _ _ _ _) as [reply|e] eqn:Eg.
  - destruct (diagnosis_logic.parse_llm_response reply) as [p|e] eqn:Ep;
      [|discriminate].
    injection Ha as ->. simpl in *.
    rewrite combine_flags_flagged in Hf. rewrite combine_flags_urgency_level.
    destruct reply as [| | | | | |m]; try discriminate Ep.
    apply parse_llm_response_flagged in Ep
      as [(T & Hfl & Hl)|[(T & Hfl & Hl)|(T & Hfl & Hl)]].
    + right; left. exists m. rewrite Hfl, T, andb_false_r. auto.
    + rewrite Hfl, T, andb_true_r in *.
      destruct (diagnosis_logic.check_urgent_keywords s) eqn:G; [|congruence].
      rewrite Hl. destruct (reply_urgency_level m) eqn:L; auto.
      right; right. exists m. auto.
    + left. rewrite Hfl. simpl. by rewrite andb_false_r.
  - injection Ha as ->. simpl in *. left.
    by destruct (diagnosis_logic.check_urgent_keywords s).
Qed.

Lemma C4_witness :
  exists r,
    snd (diagnosis_logic.analyze_symptoms
           (samples.replying_client (PyDict samples.reply_only_is_urgent))
           "I have a mild headache" "zero" false) = Ok r
    /\ truthy (flagged r) = true
    /\ (diagnosis_logic.is_critical_or_urgent (urgency_level r) = true
        \/ (exists m,
              Ok (PyDict samples.reply_only_is_urgent) = Ok (PyDict m)
              /\ truthy (reply_is_urgent m) = true
              /\ urgency_level r = reply_urgency_level m)
        \/ (exists m,
              Ok (PyDict samples.reply_only_is_urgent) = Ok (PyDict m)
              /\ truthy (reply_is_urgent m) = false
              /\ diagnosis_logic.check_urgent_keywords "I have a mild headache"
                 = true
              /\ reply_urgency_level m = UrgencyLevel.LOW
              /\ urgency_level r = UrgencyLevel.LOW)).
Proof.
  eexists. split; [vm_compute; reflexivity|]. split; [reflexivity|].
  apply (C4_flagged_level_amended
           (samples.replying_client (PyDict samples.reply_only_is_urgent))
           "I have a mild headache" "zero" false).
  - vm_compute. reflexivity.
  - reflexivity.
Defined.

(** The invariant as the specification words it fails: the reply sets
    [is_urgent] and declares no level, the symptoms hold no urgent phrase,
    and the result is flagged with level Moderate. *)
Lemma C4_counterexample :
  exists r,
    snd (diagnosis_logic.analyze_symptoms
           (samples.replying_client (PyDict samples.reply_only_is_urgent))
           "I have a mild headache" "zero" false) = Ok r
    /\ diagnosis_logic.check_urgent_keywords "I have a mild headache" = false
    /\ flagged r = PyBool true
    /\ urgency_level r = UrgencyLevel.MODERATE
    /\ ~ flag_level_invariant
           (diagnosis_logic.check_urgent_keywords "I have a mild headache") r.
Proof.
  eexists. split; [vm_compute; reflexivity|].
  split; [reflexivity|]. split; [reflexivity|]. split; [reflexivity|].
  intros H. destruct (H eq_refl) as [H1|[H1 _]]; discriminate H1.
Qed.


(** ** Urgent entries *)

(** The scan stops at the first urgent entry. *)
Lemma scan_first_urgent_entry (pre post : list pyval) (x : pyval)
    (u : UrgencyLevel.t) :
  Forall is_entry (pre ++ x :: post) ->
  Forall (fun y => ~ urgent_entry y) pre ->
  declares_urgency x u ->
  diagnosis_logic.is_critical_or_urgent u = true ->
  exists cs,
    diagnosis_logic.parse_conditions (pre ++ x :: post) = Ok cs
    /\ forall v l, diagnosis_logic.scan_conditions cs v l = (PyBool true, u).
Proof.
  intros He Hpre (d & -> & Hd) Hu.
  induction pre as [|y pre IH]; rewrite <- ?app_comm_cons in *;
    rewrite ?app_nil_l in *.
  - apply Forall_cons_1 in He as [_ He].
    destruct (parse_conditions_entries post He) as [cs Hcs].
    destruct (parse_condition_entry d) as (c & Hc & Hurg).
    rewrite Hd, UrgencyLevel_call_value in Hurg.
    rewrite parse_conditions_cons, Hc, Hcs. simpl. eexists. split; [done|].
    intros v l. simpl. by rewrite Hurg, Hu.
  - apply Forall_cons_1 in He as [[dy ->] He].
    apply Forall_cons_1 in Hpre as [Hy Hpre].
    destruct (IH He Hpre) as (cs & Hcs & Hscan).
    destruct (parse_condition_entry dy) as (c & Hc & Hurg).
    rewrite parse_conditions_cons, Hc, Hcs. simpl. eexists. split; [done|].
    intros v l. simpl.
    destruct (diagnosis_logic.is_critical_or_urgent (urgency c)) eqn:Ec;
      [|apply Hscan].
    exfalso. apply Hy.
    destruct (UrgencyLevel.call _) as [u'|] eqn:Ecall in Hurg;
      [|by rewrite Hurg in Ec].
    apply UrgencyLevel_call_Some in Ecall. rewrite Hurg in Ec.
    destruct (dy !! "urgency") as [w|] eqn:Edy;
      [|injection Ecall as Ecall; by destruct u'].
    subst w. destruct u'; try discriminate Ec;
      [left | right]; by exists dy.
Qed.

Lemma scan_urgent_entries (pre post : list pyval) (x : pyval)
    (u : UrgencyLevel.t) :
  Forall is_entry (pre ++ x :: post) ->
  declares_urgency x u ->
  diagnosis_logic.is_critical_or_urgent u = true ->
  exists cs u',
    diagnosis_logic.parse_conditions (pre ++ x :: post) = Ok cs
    /\ (forall v l, diagnosis_logic.scan_conditions cs v l = (PyBool true, u'))
    /\ diagnosis_logic.is_critical_or_urgent u' = true
    /\ ((u' = u /\ Forall (fun y => ~ urgent_entry y) pre)
        \/ exists y, In y pre /\ declares_urgency y u').
Proof.
  intros He Hx Hu.
  induction pre as [|y pre IH]; rewrite <- ?app_comm_cons in *;
    rewrite ?app_nil_l in *.
  - destruct (scan_first_urgent_entry [] post x u He (List.Forall_nil _) Hx Hu)
      as (cs & Hcs & Hscan).
    exists cs, u. repeat split; try done. left. by split.
  - apply Forall_cons_1 in He as [[dy ->] He].
    destruct (IH He) as (cs & u' & Hcs & Hscan & Hu' & Hwhere).
    destruct (parse_condition_entry dy) as (c & Hc & Hurg).
    rewrite parse_conditions_cons, Hc, Hcs. cbn [bind].
    destruct (diagnosis_logic.is_critical_or_urgent (urgency c)) eqn:Ec.
    + exists (c :: cs), (urgency c). split; [done|].
      split; [intros v l; simpl; by rewrite Ec|]. split; [done|].
      right. exists (PyDict dy). split; [by left|]. exists dy. split; [done|].
      destruct (UrgencyLevel.call _) as [w|] eqn:Ecall in Hurg;
        [|by rewrite Hurg in Ec].
      apply UrgencyLevel_call_Some in Ecall. rewrite Hurg.
      destruct (dy !! "urgency") as [z|] eqn:Edy; [by rewrite Ecall|].
      injection Ecall as Ecall. rewrite Hurg in Ec. by destruct w.
    + exists (c :: cs), u'. split; [done|].
      split; [intros v l; simpl; rewrite Ec; apply Hscan|]. split; [done|].
      destruct Hwhere as [[-> Hpre]|(y & Hy & Hd)].
      * left. split; [done|]. constructor; [|done].
        intros Hy. 
        assert (exists w, declares_urgency (PyDict dy) w
                          /\ diagnosis_logic.is_critical_or_urgent w = true)
          as (w & (d' & Ed & Hw) & Hcu)
          by (destruct Hy as [Hy|Hy]; eexists; split; try exact Hy; done).
        injection Ed as <-. rewrite Hw, UrgencyLevel_call_value in Hurg.
        rewrite Hurg, Hcu in Ec. discriminate Ec.
      * right. exists y. split; [by right | done].
Qed.

(** C5, as amended.  For a reply map whose [is_urgent] entry counts as false
    (or is missing) and whose [conditions] are a list of dictionaries with
    an entry of urgency Critical or Urgent among them:
    [parse_llm_response] returns a result with [flagged = True] and a level
    that is Critical or Urgent; the level is the one of the first such
    entry in list order; in particular, for a Critical entry that no Urgent
    entry precedes, the level is Critical. *)
Theorem C5_first_urgent_condition_amended
    (m : gmap string pyval) (pre post : list pyval) (x : pyval)
    (u : UrgencyLevel.t) :
  truthy (reply_is_urgent m) = false ->
  m !! "conditions" = Some (PyList (pre ++ x :: post)) ->
  Forall is_entry (pre ++ x :: post) ->
  declares_urgency x u ->
  diagnosis_logic.is_critical_or_urgent u = true ->
  exists r,
    diagnosis_logic.parse_llm_response (PyDict m) = Ok r
    /\ flagged r = PyBool true
    /\ diagnosis_logic.is_critical_or_urgent (urgency_level r) = true
    /\ (Forall (fun y => ~ urgent_entry y) pre -> urgency_level r = u)
    /\ (u = UrgencyLevel.CRITICAL ->
        Forall (fun y => ~ declares_urgency y UrgencyLevel.URGENT) pre ->
        urgency_level r = UrgencyLevel.CRITICAL).
Proof.
  intros Hiu Hc He Hx Hu.
  destruct (scan_urgent_entries pre post x u He Hx Hu)
    as (cs & u' & Hcs & Hscan & Hu' & Hwhere).
  unfold diagnosis_logic.parse_llm_response. simpl.
  rewrite Hc. simpl. rewrite Hcs. simpl.
  fold (reply_is_urgent m). rewrite Hiu. simpl. rewrite Hscan.
  eexists. split; [reflexivity|]. cbn [flagged urgency_level].
  split; [done|]. split; [done|]. split.
  - intros Hpre. destruct Hwhere as [[-> _]|(y & Hy & Hd)]; [done|].
    exfalso. rewrite List.Forall_forall in Hpre. apply (Hpre y Hy).
    destruct u'; try discriminate Hu'; [by left | by right].
  - intros -> Hpre. destruct Hwhere as [[-> _]|(y & Hy & Hd)]; [done|].
    destruct u'; try discriminate Hu'; [done|].
    exfalso. rewrite List.Forall_forall in Hpre. by apply (Hpre y Hy).
Qed.

Lemma C5_witness :
  exists r,
    diagnosis_logic.parse_llm_response
      (PyDict samples.reply_with_critical_condition) = Ok r
    /\ flagged r = PyBool true
    /\ urgency_level r = UrgencyLevel.CRITICAL.
Proof.
  destruct (C5_first_urgent_condition_amended
              samples.reply_with_critical_condition
              [samples.entry "Tension headache" "Low"]
              [samples.entry "Migraine" "Urgent"]
              (samples.entry "Meningitis" "Critical") UrgencyLevel.CRITICAL)
    as (r & Hr & Hf & _ & Hfirst & _).
  - reflexivity.
  - reflexivity.
  - repeat constructor; eexists; reflexivity.
  - eexists. split; reflexivity.
  - reflexivity.
  - exists r. split; [exact Hr|]. split; [exact Hf|]. apply Hfirst.
    constructor; [|constructor].
    intros [(d & Hd & Hu)|(d & Hd & Hu)];
      injection Hd as <-; vm_compute in Hu; discriminate Hu.
Defined.

Lemma C5_counterexample :
  (truthy (reply_is_urgent samples.reply_urgent_then_critical) = false
   /\ (exists items x,
         samples.reply_urgent_then_critical !! "conditions"
         = Some (PyList items)
         /\ In x items /\ declares_urgency x UrgencyLevel.CRITICAL)
   /\ exists r,
        diagnosis_logic.parse_llm_response
          (PyDict samples.reply_urgent_then_critical) = Ok r
        /\ urgency_level r = UrgencyLevel.URGENT
        /\ urgency_level r <> UrgencyLevel.CRITICAL)
  /\ (truthy (reply_is_urgent samples.reply_critical_then_text) = false
      /\ (exists items x,
            samples.reply_critical_then_text !! "conditions"
            = Some (PyList items)
            /\ In x items /\ declares_urgency x UrgencyLevel.CRITICAL)
      /\ exists msg,
           diagnosis_logic.parse_llm_response
             (PyDict samples.reply_critical_then_text)
           = Raise (AttributeError msg)).
Proof.
  split; (split; [reflexivity|]); split.
  - exists [samples.entry "Migraine" "Urgent";
            samples.entry "Meningitis" "Critical"],
      (samples.entry "Meningitis" "Critical").
    split; [reflexivity|]. split; [simpl; tauto|].
    eexists. split; reflexivity.
  - eexists. split; [vm_compute; reflexivity|]. split; [reflexivity|].
    discriminate.
  - exists [samples.entry "Meningitis" "Critical"; PyStr "see a doctor"],
      (samples.entry "Meningitis" "Critical").
    split; [reflexivity|]. split; [simpl; tauto|].
    eexists. split; reflexivity.
  - eexists. vm_compute. reflexivity.
Qed.

Example parse_llm_response_out_of_range_level :
  exists r,
    diagnosis_logic.parse_llm_response
      (PyDict {[ "urgency_level" := PyStr "critical";
                 "conditions" := PyList [samples.entry "Cold" "severe"] ]})
    = Ok r
    /\ flagged r = PyBool false
    /\ urgency_level r = UrgencyLevel.MODERATE
    /\ map urgency (conditions r) = [UrgencyLevel.MODERATE]
    /\ map confidence (conditions r) = [ConfidenceLevel.LOW].
Proof. eexists. split; [vm_compute; reflexivity|]. repeat split. Qed.

Example parse_llm_response_entry_without_get :
  diagnosis_logic.parse_llm_response
    (PyDict {[ "conditions" := PyList [PyStr "Cold"] ]})
  = Raise (AttributeError "'str' object has no attribute 'get'").
Proof. vm_compute. reflexivity. Qed.


(** ** The gateway's retry loop *)

Lemma retry_loop_S (max_retries : Z) (s : string)
    (call : Z -> gemini_client.attempt_outcome) (turns : nat) (attempt : Z)
    (log : list Z) :
  gemini_client.retry_loop max_retries s call (S turns) attempt log =
  match call attempt with
  | gemini_client.Parsed reply => (log, Ok reply)
  | gemini_client.JSONDecodeError e =>
      if attempt =? max_retries - 1
      then (log, Ok (gemini_client._create_fallback_response s))
      else gemini_client.retry_loop max_retries s call turns (attempt + 1)
             (log ++ [1])%list
  | gemini_client.OtherError e =>
      if attempt =? max_retries - 1
      then (log, Raise (GeminiAPIError
             ("Failed to get response from Gemini API after "
              ++ str_of_int max_retries ++ " attempts: " ++ e)))
      else gemini_client.retry_loop max_retries s call turns (attempt + 1)
             (log ++ [2 ^ attempt])%list
  end.
Proof. reflexivity. Qed.

(** When every turn before the last one fails, the last turn decides. *)
Lemma retry_loop_last_turn_decides (max_retries : Z) (s : string)
    (call : Z -> gemini_client.attempt_outcome) (turns : nat) :
  forall (attempt : Z) (log : list Z),
    attempt + Z.of_nat (S turns) = max_retries ->
    (forall i, attempt <= i < max_retries - 1 -> failed (call i)) ->
    snd (gemini_client.retry_loop max_retries s call (S turns) attempt log) =
    match call (max_retries - 1) with
    | gemini_client.Parsed reply => Ok reply
    | gemini_client.JSONDecodeError _ =>
        Ok (gemini_client._create_fallback_response s)
    | gemini_client.OtherError e =>
        Raise (GeminiAPIError
                 ("Failed to get response from Gemini API after "
                  ++ str_of_int max_retries ++ " attempts: " ++ e))
    end.
Proof.
  induction turns as [|turns IH]; intros attempt log Hsum Hfail.
  - assert (attempt = max_retries - 1) as -> by lia.
    rewrite retry_loop_S, Z.eqb_refl.
    by destruct (call (max_retries - 1)).
  - assert ((attempt =? max_retries - 1) = false) as Hne by lia.
    assert (failed (call attempt)) as Hf by (apply Hfail; lia).
    rewrite retry_loop_S, Hne.
    destruct (call attempt) as [reply|e|e]; [done | |];
      apply IH; try lia; intros i Hi; apply Hfail; lia.
Qed.




Example gateway_backoff_delays :
  gemini_client.analyze_symptoms (samples.failing_gateway 3 "connection reset")
    "fever" [] "zero" false
  = ([1; 2],
     Raise (GeminiAPIError
              "Failed to get response from Gemini API after 3 attempts: connection reset")).
Proof. reflexivity. Qed.

Example gateway_json_failure_then_reply :
  gemini_client.analyze_symptoms
    (samples.garbled_then_replying_gateway (PyDict samples.reply_moderate))
    "fever" [] "zero" false
  = ([1], Ok (PyDict samples.reply_moderate)).
Proof. reflexivity. Qed.

Example gateway_without_tries :
  gemini_client.analyze_symptoms (samples.garbled_gateway 0)
    "fever" [] "zero" false
  = ([], Raise (GeminiAPIError "Failed to get response from Gemini API")).
Proof. reflexivity. Qed.

(** ** The stable descending sort *)

Section SortReverse.
Context {A K : Type} (key : A -> K) (lt : K -> K -> bool) (pos : A -> nat).

Lemma insert_reverse_perm (x : A) (l : list A) :
  Permutation (insert_reverse key lt x l) (x :: l).
Proof.
  induction l as [|y l IH]; simpl; [done|].
  destruct (lt (key x) (key y)); [|done].
  rewrite IH. apply perm_swap.
Qed.

Lemma sort_reverse_perm (l : list A) :
  Permutation (sort_reverse key lt l) l.
Proof.
  induction l as [|x l IH]; simpl; [done|].
  by rewrite insert_reverse_perm, IH.
Qed.

Lemma sort_reverse_length (l : list A) :
  length (sort_reverse key lt l) = length l.
Proof. apply Permutation_length, sort_reverse_perm. Qed.

Lemma insert_reverse_HdRel (x y : A) (l : list A) :
  HdRel (before key lt pos) y l -> (before key lt pos) y x ->
  HdRel (before key lt pos) y (insert_reverse key lt x l).
Proof.
  intros Hl Hx. destruct l as [|z l]; simpl; [by constructor|].
  destruct (lt (key x) (key z)); constructor; [|done].
  by apply HdRel_inv in Hl.
Qed.

Lemma insert_reverse_sorted (x : A) (l : list A) :
  Sorted (before key lt pos) l ->
  Forall (fun y => (pos x < pos y)%nat) l ->
  Sorted (before key lt pos) (insert_reverse key lt x l).
Proof.
  induction 1 as [|y l Hs IH Hhd]; intros Hpos; simpl.
  - by repeat constructor.
  - apply Forall_cons_1 in Hpos as [Hxy Hpos].
    destruct (lt (key x) (key y)) eqn:Exy.
    + constructor; [by apply IH|].
      apply insert_reverse_HdRel; [done|]. by left.
    + constructor; [by constructor|]. constructor.
      destruct (lt (key y) (key x)) eqn:Eyx; [by left | by right].
Qed.

(** Sorting a list whose positions increase gives a list sorted by
    [before]: descending keys, earlier positions first among rows whose
    keys do not differ. *)
Lemma sort_reverse_sorted (l : list A) :
  StronglySorted (fun x y => (pos x < pos y)%nat) l ->
  Sorted (before key lt pos) (sort_reverse key lt l).
Proof.
  induction 1 as [|x l _ IH Hx]; simpl; [constructor|].
  apply insert_reverse_sorted; [done|].
  by rewrite sort_reverse_perm.
Qed.
End SortReverse.

(** The sort looks at the keys only, so it commutes with a map that keeps
    them. *)
Lemma sort_reverse_map {A B K : Type} (key : B -> K) (lt : K -> K -> bool)
    (g : A -> B) (l : list A) :
  sort_reverse key lt (map g l) = map g (sort_reverse (fun a => key (g a)) lt l).
Proof.
  induction l as [|x l IH]; simpl; [done|]. rewrite IH.
  generalize (sort_reverse (fun a => key (g a)) lt l). intros s.
  induction s as [|y s IHs]; simpl; [done|].
  destruct (lt (key (g x)) (key (g y))); simpl; [by rewrite IHs | done].
Qed.

Lemma slice_to_nonneg {A} (l : list A) (k : Z) :
  0 <= k -> slice_to l k = firstn (Z.to_nat k) l.
Proof. intros H. unfold slice_to. by destruct (Z.leb_spec 0 k); [|lia]. Qed.

(** ** Binary64 comparison *)

Lemma lex_lt_irrefl (a : Z * (Z * Z)) : ~ lex_lt a a.
Proof. unfold lex_lt. lia. Qed.

Lemma lex_lt_trans (a b c : Z * (Z * Z)) :
  lex_lt a b -> lex_lt b c -> lex_lt a c.
Proof. unfold lex_lt. lia. Qed.

Lemma lex_lt_total (a b : Z * (Z * Z)) : lex_lt a b \/ a = b \/ lex_lt b a.
Proof.
  destruct a as [a1 [a2 a3]], b as [b1 [b2 b3]]. unfold lex_lt. simpl.
  destruct (Z.lt_total a1 b1) as [?|[->|?]]; [lia| |lia].
  destruct (Z.lt_total a2 b2) as [?|[->|?]]; [lia| |lia].
  destruct (Z.lt_total a3 b3) as [?|[->|?]]; [lia| |lia].
  right; by left.
Qed.

(** On numbers, [<] of binary64 is the order of the ranks. *)
Lemma float_lt_rank (x y : spec_float) :
  not_nan x -> not_nan y ->
  float_lt x y = true <-> lex_lt (float_rank x) (float_rank y).
Proof.
  unfold not_nan, float_lt, SFltb, SFcompare, lex_lt.
  destruct x as [[]|[]| |[] mx ex], y as [[]|[]| |[] my ey];
    intros Hx Hy; try done; simpl; try (split; [done | lia]);
    try (split; [lia | done]);
    change (Pos.compare_cont Eq mx my) with (Pos.compare mx my);
    destruct (Z.compare_spec ex ey) as [->| |];
    try destruct (Pos.compare_spec mx my) as [->| |];
    simpl; split; (done || lia).
Qed.

(** Rounding a mantissa that is not negative never gives NaN. *)
Lemma iter_pos_invariant {A} (P : A -> Prop) (f : A -> A) (p : positive) :
  (forall a, P a -> P (f a)) -> forall a, P a -> P (SpecFloat.iter_pos f p a).
Proof. intros Hf. induction p as [p IH|p IH|]; simpl; auto. Qed.

Lemma shr_1_nonneg (mrs : shr_record) : 0 <= shr_m mrs -> 0 <= shr_m (shr_1 mrs).
Proof. destruct mrs as [[|[p|p|]|p] r s]; simpl; lia. Qed.

Lemma shr_fexp_nonneg (m e : Z) (l : location) :
  0 <= m -> 0 <= shr_m (fst (shr_fexp prec emax m e l)).
Proof.
  intros Hm. unfold shr_fexp, shr.
  assert (0 <= shr_m (shr_record_of_loc m l)) as H0
    by (destruct l as [|[]]; done).
  destruct (fexp prec emax (Zdigits2 m + e) - e) as [|p|p]; simpl; try done.
  by apply iter_pos_invariant; [apply shr_1_nonneg|].
Qed.

Lemma binary_round_aux_not_nan (sx : bool) (mx ex : Z) (lx : location) :
  0 <= mx -> not_nan (binary_round_aux prec emax sx mx ex lx).
Proof.
  intros Hm. unfold binary_round_aux, not_nan.
  pose proof (shr_fexp_nonneg mx ex lx Hm) as H1.
  destruct (shr_fexp prec emax mx ex lx) as [mrs' e']. simpl in H1.
  assert (0 <= round_nearest_even (shr_m mrs') (loc_of_shr_record mrs')) as H2.
  { unfold round_nearest_even.
    destruct (loc_of_shr_record mrs') as [|[]]; try done;
      [destruct (Z.even (shr_m mrs'))|]; lia. }
  pose proof (shr_fexp_nonneg _ e' loc_Exact H2) as H3.
  destruct (shr_fexp prec emax _ e' loc_Exact) as [mrs'' e'']. simpl in H3.
  destruct (shr_m mrs'') as [|m|m]; [done | | lia].
  by destruct (e'' <=? emax - prec).
Qed.

Lemma float_of_int_not_nan (z : Z) : not_nan (float_of_int z).
Proof.
  unfold float_of_int, binary_normalize, binary_round.
  destruct z as [|p|p]; [done| |];
    destruct (shl_align _ _ _) as [mz ez];
    by apply binary_round_aux_not_nan.
Qed.

(** An integer times a finite float is a number. *)
Lemma float_mul_int_not_nan (z : Z) (s : bool) (m : positive) (e : Z) :
  not_nan (float_mul (float_of_int z) (S754_finite s m e)).
Proof.
  pose proof (float_of_int_not_nan z) as Hz.
  unfold float_mul, SFmul.
  destruct (float_of_int z) as [sz|sz| |sz mz ez]; try done.
  by apply binary_round_aux_not_nan.
Qed.

(** ** The fact store *)

Lemma keyword_match_true_iff (uk fk : string) :
  medical_facts.keyword_match uk fk = true <-> occurs_in uk fk \/ occurs_in fk uk.
Proof.
  unfold medical_facts.keyword_match.
  by rewrite orb_true_iff, !contains_true_iff.
Qed.

Lemma fold_left_count {A} (test : A -> bool) (l : list A) (n : nat) :
  fold_left (fun score a => if test a then S score else score) l n
  = (n + length (List.filter test l))%nat.
Proof.
  revert n. induction l as [|a l IH]; intros n; simpl; [lia|].
  rewrite IH. destruct (test a); simpl; lia.
Qed.

(** The integer score counts the user keywords that match the fact, each
    entry of the list once. *)
Lemma match_score_counts_matches (f : MedicalFact) (kws : list string)
    (test : string -> bool) :
  (forall uk, test uk = true <-> matches uk f) ->
  match_count kws f = length (List.filter test kws).
Proof.
  intros Htest. unfold match_count, medical_facts.match_score.
  rewrite fold_left_count. simpl.
  induction kws as [|uk kws IH]; [done|]. cbn [map List.filter].
  assert (existsb (medical_facts.keyword_match (lower uk))
                  (map lower (keywords f)) = test uk) as ->.
  { apply eq_true_iff_eq. rewrite Htest, existsb_exists. unfold matches. split.
    - intros (fk' & (fk & <- & Hin)%in_map_iff & H%keyword_match_true_iff). eauto.
    - intros (fk & Hin & H). exists (lower fk). split; [by apply in_map|].
      by apply keyword_match_true_iff. }
  destruct (test uk); simpl; by rewrite IH.
Qed.

Lemma scored_facts_of_enumerate (db : list MedicalFact) (kws : list string)
    (n : nat) :
  medical_facts.scored_facts_of db kws =
  map (fun x : nat * MedicalFact => (score kws (snd x), snd x))
      (List.filter (fun x => (0 <? match_count kws (snd x))%nat)
              (combine (seq n (length db)) db)).
Proof.
  revert n. induction db as [|f db IH]; intros n; [done|].
  cbn [medical_facts.scored_facts_of length seq combine List.filter snd].
  fold (match_count kws f).
  destruct (0 <? match_count kws f)%nat; cbn [map snd]; by rewrite <- IH.
Qed.

Lemma enumerate_positions_increase {A} (l : list A) (n : nat) :
  StronglySorted (fun x y : nat * A => (fst x < fst y)%nat)
                 (combine (seq n (length l)) l).
Proof.
  revert n. induction l as [|a l IH]; intros n; simpl; constructor; [apply IH|].
  apply List.Forall_forall. intros [i b] Hin. apply in_combine_l in Hin.
  apply in_seq in Hin. simpl. lia.
Qed.

Lemma StronglySorted_filter {A} (R : A -> A -> Prop) (P : A -> bool)
    (l : list A) :
  StronglySorted R l -> StronglySorted R (List.filter P l).
Proof.
  induction 1 as [|a l _ IH Ha]; simpl; [constructor|].
  destruct (P a); [|done]. constructor; [done|].
  apply List.Forall_forall. intros x [Hx _]%filter_In.
  revert x Hx. by apply List.Forall_forall.
Qed.

(** The ranking behind [get_facts_by_keywords]. *)
Lemma get_facts_by_keywords_in_ranking (db : list MedicalFact)
    (kws : list string) (limit : Z) :
  0 <= limit ->
  exists ranking : list (nat * MedicalFact),
    Permutation ranking (matched_rows kws db)
    /\ Sorted (ranks_before kws) ranking
    /\ medical_facts.get_facts_by_keywords_in db kws limit =
       map snd (firstn (Z.to_nat limit) ranking).
Proof.
  intros Hl.
  exists (sort_reverse (fun x : nat * MedicalFact => score kws (snd x))
            float_lt (matched_rows kws db)).
  split; [apply sort_reverse_perm|]. split.
  - apply (sort_reverse_sorted
             (fun x : nat * MedicalFact => score kws (snd x)) float_lt fst).
    apply StronglySorted_filter, enumerate_positions_increase.
  - unfold medical_facts.get_facts_by_keywords_in.
    rewrite slice_to_nonneg by done.
    rewrite (scored_facts_of_enumerate db kws 0).
    rewrite (sort_reverse_map fst float_lt
               (fun x : nat * MedicalFact => (score kws (snd x), snd x))).
    rewrite <- !firstn_map, !map_map. done.
Qed.

Lemma in_enumerate_from {A} (l : list A) (n i : nat) (a : A) :
  In (i, a) (combine (seq n (length l)) l) <->
  (n <= i)%nat /\ nth_error l (i - n) = Some a.
Proof.
  revert n. induction l as [|b l IH]; intros n; simpl.
  - split; [done|]. intros [_ H]. by destruct (i - n)%nat.
  - rewrite IH. split.
    + intros [[= <- <-]|[Hle H]].
      * split; [lia|]. by rewrite Nat.sub_diag.
      * split; [lia|]. by replace (i - n)%nat with (S (i - S n)) by lia.
    + intros [Hle H]. destruct (i - n)%nat as [|j] eqn:E.
      * left. injection H as ->. f_equal. lia.
      * right. split; [lia|]. by replace (i - S n)%nat with j by lia.
Qed.

Lemma map_fst_combine {A B} (l : list A) (l' : list B) :
  length l = length l' -> map fst (combine l l') = l.
Proof.
  revert l'. induction l as [|a l IH]; intros [|b l'] H; simpl in *;
    try done. f_equal. apply IH. lia.
Qed.

Lemma in_matched_rows (kws : list string) (db : list MedicalFact)
    (i : nat) (f : MedicalFact) :
  In (i, f) (matched_rows kws db) <->
  nth_error db i = Some f /\ (0 < match_count kws f)%nat.
Proof.
  unfold matched_rows, enumerate.
  rewrite filter_In, in_enumerate_from, Nat.sub_0_r. simpl.
  rewrite Nat.ltb_lt. intuition lia.
Qed.

(** *** The order of the ranking on the table *)

Lemma reliability_scores_finite :
  Forall (fun f => is_finite (reliability_score f) = true)
         medical_facts.MEDICAL_FACTS_DB.
Proof. repeat constructor. Qed.

Lemma score_not_nan (kws : list string) (f : MedicalFact) :
  is_finite (reliability_score f) = true -> not_nan (score kws f).
Proof.
  unfold score. destruct (reliability_score f) as [| | |s m e]; try done.
  intros _. apply float_mul_int_not_nan.
Qed.

(** On rows whose scores are numbers, [ranks_before] is the lexicographic
    order of (rank of the score, descending; position, ascending). *)
Lemma ranks_before_rank (kws : list string) (x y : nat * MedicalFact) :
  not_nan (score kws (snd x)) -> not_nan (score kws (snd y)) ->
  ranks_before kws x y <->
  lex_lt (float_rank (score kws (snd y))) (float_rank (score kws (snd x)))
  \/ (float_rank (score kws (snd x)) = float_rank (score kws (snd y))
      /\ (fst x < fst y)%nat).
Proof.
  intros Hx Hy. unfold ranks_before, before.
  pose proof (float_lt_rank _ _ Hy Hx) as Hyx.
  pose proof (float_lt_rank _ _ Hx Hy) as Hxy.
  rewrite <- !not_true_iff_false, Hyx, Hxy. split.
  - intros [H|(H1 & H2 & H3)]; [by left|]. right. split; [|done].
    destruct (lex_lt_total (float_rank (score kws (snd x)))
                (float_rank (score kws (snd y)))) as [?|[?|?]]; tauto.
  - intros [H|[E H]]; [by left|]. right. rewrite E.
    repeat split; try done; apply lex_lt_irrefl.
Qed.

Lemma ranks_before_trans (kws : list string) (x y z : nat * MedicalFact) :
  not_nan (score kws (snd x)) -> not_nan (score kws (snd y)) ->
  not_nan (score kws (snd z)) ->
  ranks_before kws x y -> ranks_before kws y z -> ranks_before kws x z.
Proof.
  intros Hx Hy Hz. rewrite !ranks_before_rank by done.
  intros [H1|[E1 P1]] [H2|[E2 P2]].
  - left. eapply lex_lt_trans; eauto.
  - left. by rewrite <- E2.
  - left. by rewrite E1.
  - right. split; [congruence | lia].
Qed.

Lemma ranks_before_asym (kws : list string) (x y : nat * MedicalFact) :
  not_nan (score kws (snd x)) -> not_nan (score kws (snd y)) ->
  ranks_before kws x y -> ranks_before kws y x -> False.
Proof.
  intros Hx Hy. rewrite !ranks_before_rank by done.
  intros [H1|[E1 P1]] [H2|[E2 P2]].
  - eapply lex_lt_irrefl, lex_lt_trans; eauto.
  - rewrite E2 in H1. by apply lex_lt_irrefl in H1.
  - rewrite E1 in H2. by apply lex_lt_irrefl in H2.
  - lia.
Qed.

Lemma Sorted_StronglySorted_on {A} (R : A -> A -> Prop) (P : A -> Prop)
    (l : list A) :
  (forall x y z, P x -> P y -> P z -> R x y -> R y z -> R x z) ->
  Forall P l -> Sorted R l -> StronglySorted R l.
Proof.
  intros Htrans HP Hs. induction Hs as [|a l Hs IH Hhd]; [constructor|].
  apply Forall_cons_1 in HP as [Pa HP]. specialize (IH HP).
  constructor; [done|].
  destruct Hhd as [|b l Hab]; [done|].
  apply Forall_cons_1 in HP as [Pb HP].
  apply StronglySorted_inv in IH as [_ Hb].
  constructor; [done|].
  rewrite List.Forall_forall in Hb, HP |- *.
  intros z Hz. eapply (Htrans a b z); auto.
Qed.

(** Two lists with the same elements, both sorted by an order that is
    asymmetric on them, are equal. *)
Lemma StronglySorted_perm_unique {A} (R : A -> A -> Prop) (P : A -> Prop)
    (l1 l2 : list A) :
  (forall x y, P x -> P y -> R x y -> R y x -> False) ->
  Forall P l1 ->
  StronglySorted R l1 -> StronglySorted R l2 -> Permutation l1 l2 ->
  l1 = l2.
Proof.
  intros Hasym. revert l2.
  induction l1 as [|a l1 IH]; intros l2 HP H1 H2 Hperm.
  - by apply Permutation_nil in Hperm.
  - destruct l2 as [|b l2].
    { by apply Permutation_sym, Permutation_nil in Hperm. }
    apply Forall_cons_1 in HP as [Pa HP].
    apply StronglySorted_inv in H1 as [H1 Ha].
    apply StronglySorted_inv in H2 as [H2 Hb].
    rewrite List.Forall_forall in Ha, Hb, HP.
    assert (a = b) as <-.
    { assert (In a (b :: l2)) as [->|Hin2]
        by (eapply Permutation_in; [exact Hperm | by left]); [done|].
      assert (In b (a :: l1)) as [->|Hin1]
        by (eapply Permutation_in; [symmetry; exact Hperm | by left]); [done|].
      exfalso. apply (Hasym a b); auto. }
    f_equal. apply IH; try done.
    + by apply List.Forall_forall.
    + by apply Permutation_cons_inv in Hperm.
Qed.

Lemma matched_rows_scores_not_nan (kws : list string) :
  Forall (fun x : nat * MedicalFact => not_nan (score kws (snd x)))
         (matched_rows kws medical_facts.MEDICAL_FACTS_DB).
Proof.
  apply List.Forall_forall. intros [i f] [Hin _]%filter_In.
  apply in_combine_r in Hin. apply score_not_nan. simpl.
  pose proof reliability_scores_finite as H.
  rewrite List.Forall_forall in H. by apply H.
Qed.

(** C9. For a keyword list and a limit (a count, so not negative):
    the integer score of a fact is the number of user keywords, each entry
    counted once, for which the case-insensitive test "one occurs in the
    other" succeeds with some keyword of the fact; the score of a fact is
    that number times its [reliability_score]; the rows that are ranked are
    exactly the rows of the table with at least one match, each once; in the
    ranking every row stands before all later rows, that is, it has a
    greater score, or a score that does not differ and an earlier place in
    the table; no other arrangement of these rows has that property; and the
    result is the first [limit] facts of the ranking. *)
Theorem C9_keyword_ranking (keywords : list string) (limit : Z) :
  0 <= limit ->
  (forall f test,
     (forall uk, test uk = true <-> matches uk f) ->
     match_count keywords f = length (List.filter test keywords))
  /\ exists ranking : list (nat * MedicalFact),
       (forall i f,
          In (i, f) ranking <->
          nth_error medical_facts.MEDICAL_FACTS_DB i = Some f
          /\ (0 < match_count keywords f)%nat)
       /\ List.NoDup ranking
       /\ StronglySorted (ranks_before keywords) ranking
       /\ (forall other,
             Permutation other ranking ->
             StronglySorted (ranks_before keywords) other ->
             other = ranking)
       /\ medical_facts.get_facts_by_keywords keywords limit =
          map snd (firstn (Z.to_nat limit) ranking).
Proof.
  intros Hl. split.
  - intros f test. apply match_score_counts_matches.
  - destruct (get_facts_by_keywords_in_ranking
                medical_facts.MEDICAL_FACTS_DB keywords limit Hl)
      as (ranking & Hperm & Hsorted & Hres).
    assert (Forall (fun x : nat * MedicalFact =>
                      not_nan (score keywords (snd x))) ranking) as Hnum.
    { rewrite Hperm. apply matched_rows_scores_not_nan. }
    assert (StronglySorted (ranks_before keywords) ranking) as Hstrong.
    { eapply Sorted_StronglySorted_on; [|exact Hnum|exact Hsorted].
      intros x y z. apply ranks_before_trans. }
    exists ranking. split; [|split; [|split; [|split]]]; try done.
    + intros i f. rewrite <- in_matched_rows. split; intros Hin.
      * eapply Permutation_in; [exact Hperm | done].
      * eapply Permutation_in; [symmetry; exact Hperm | done].
    + eapply Permutation_NoDup; [symmetry; exact Hperm|].
      apply List.NoDup_filter. unfold enumerate.
      apply (List.NoDup_map_inv fst).
      rewrite map_fst_combine; [apply List.seq_NoDup | apply length_seq].
    + intros other Hother Hso. symmetry.
      eapply StronglySorted_perm_unique;
        [|exact Hnum|exact Hstrong|exact Hso|by symmetry].
      intros x y. apply ranks_before_asym.
Qed.

Lemma C9_witness :
  exists ranking : list (nat * MedicalFact),
    (forall i f,
       In (i, f) ranking <->
       nth_error medical_facts.MEDICAL_FACTS_DB i = Some f
       /\ (0 < match_count ["fever"; "cough"] f)%nat)
    /\ List.NoDup ranking
    /\ StronglySorted (ranks_before ["fever"; "cough"]) ranking
    /\ (forall other,
          Permutation other ranking ->
          StronglySorted (ranks_before ["fever"; "cough"]) other ->
          other = ranking)
    /\ medical_facts.get_facts_by_keywords ["fever"; "cough"] 2 =
       map snd (firstn 2 ranking).
Proof.
  destruct (C9_keyword_ranking ["fever"; "cough"] 2) as [_ H]; [lia|].
  exact H.
Defined.

Example get_facts_by_keywords_fever_cough :
  map id (medical_facts.get_facts_by_keywords ["Fever"; "cough"] 5)
  = ["fever_001"; "digestive_002"; "respiratory_002"].
Proof. vm_compute. reflexivity. Qed.

(** The comparison is the one of binary64: [19 * 0.90] is greater than
    [18 * 0.95] there, so the fact about cough is ranked first. *)
Example get_facts_by_keywords_float_scores :
  map id (medical_facts.get_facts_by_keywords
            (repeat "cough" 19 ++ repeat "fever" 18) 2)
  = ["respiratory_002"; "fever_001"].
Proof. vm_compute. reflexivity. Qed.

Example get_facts_by_keywords_two_facts :
  map id (medical_facts.get_facts_by_keywords_in samples.two_facts
            ["fever"; "cough"] 5)
  = ["b"; "a"].
Proof. vm_compute. reflexivity. Qed.

Example reliability_score_literals :
  map reliability_score (firstn 4 medical_facts.MEDICAL_FACTS_DB)
  = [S754_finite false 0x1e666666666666 (-53);
     S754_finite false 0x1e666666666666 (-53);
     S754_finite false 0x1f5c28f5c28f5c (-53);
     S754_finite false 0x1ccccccccccccd (-53)].
Proof. vm_compute. reflexivity. Qed.

(** ** Retrieval *)

Lemma is_blank_whitespace_only (s : string) :
  rag_engine.is_blank s = whitespace_only s.
Proof.
  unfold rag_engine.is_blank. apply eq_true_iff_eq.
  rewrite orb_true_iff, !String.eqb_eq, strip_empty_iff.
  split; [intros [->|H]; done | auto].
Qed.

Lemma get_facts_by_keywords_length (kws : list string) (k : Z) :
  0 <= k ->
  length (medical_facts.get_facts_by_keywords kws k) =
  Nat.min (Z.to_nat k)
          (length (matched_rows kws medical_facts.MEDICAL_FACTS_DB)).
Proof.
  intros Hk.
  destruct (get_facts_by_keywords_in_ranking
              medical_facts.MEDICAL_FACTS_DB kws k Hk)
    as (ranking & Hperm & _ & Hres).
  unfold medical_facts.get_facts_by_keywords.
  by rewrite Hres, length_map, length_firstn, (Permutation_length Hperm).
Qed.

Lemma matched_rows_no_keyword (db : list MedicalFact) :
  matched_rows [] db = [].
Proof.
  unfold matched_rows.
  induction (enumerate db) as [|x l IH]; [done | exact IH].
Qed.

(** C8, as amended.  For a limit [k >= 0]: blank input gives no fact; for
    input that is not blank the result has at most [k] facts, namely
    [min(k, m)] of them when [m > 0] facts of the table are matched by the
    extracted keywords, and [min(k, total)] when none is (in particular
    when no keyword is extracted); so for [k >= 1] the result of an input
    that is not blank is never empty. *)
Theorem C8_retrieval_size_amended (self_top_k : Z) (s : string)
    (top_k : option Z) :
  let k := match top_k with Some k => k | None => self_top_k end in
  let result := rag_engine.retrieve_relevant_facts self_top_k s top_k in
  let m := length (matched_rows (rag_engine.extract_keywords s)
                     medical_facts.MEDICAL_FACTS_DB) in
  0 <= k ->
  (whitespace_only s = true -> result = [])
  /\ (whitespace_only s = false ->
      (length result <= Z.to_nat k)%nat
      /\ length result =
         (if (m =? 0)%nat
          then Nat.min (Z.to_nat k) (length medical_facts.get_all_facts)
          else Nat.min (Z.to_nat k) m)
      /\ (1 <= k -> result <> [])).
Proof.
  intros k result m Hk. subst result. unfold rag_engine.retrieve_relevant_facts.
  rewrite is_blank_whitespace_only. fold k.
  split; [by intros ->|]. intros ->.
  assert (length (slice_to medical_facts.get_all_facts k)
          = Nat.min (Z.to_nat k) (length medical_facts.get_all_facts)) as Hall.
  { rewrite slice_to_nonneg by done. apply length_firstn. }
  assert (forall l : list MedicalFact,
            length l =
            (if (m =? 0)%nat
             then Nat.min (Z.to_nat k) (length medical_facts.get_all_facts)
             else Nat.min (Z.to_nat k) m) ->
            (length l <= Z.to_nat k)%nat
            /\ length l =
               (if (m =? 0)%nat
                then Nat.min (Z.to_nat k) (length medical_facts.get_all_facts)
                else Nat.min (Z.to_nat k) m)
            /\ (1 <= k -> l <> [])) as Hfin.
  { intros l Hlen. split; [|split; [done|]].
    - destruct (m =? 0)%nat; lia.
    - intros Hk1 ->. simpl in Hlen.
      change (length medical_facts.get_all_facts) with 13%nat in Hlen.
      destruct (Nat.eqb_spec m 0); lia. }
  apply Hfin.
  pose proof (get_facts_by_keywords_length (rag_engine.extract_keywords s) k Hk)
    as Hlen. fold m in Hlen.
  destruct (rag_engine.extract_keywords s) as [|kw kws] eqn:Ekw.
  - subst m. rewrite matched_rows_no_keyword. simpl. exact Hall.
  - destruct (medical_facts.get_facts_by_keywords (kw :: kws) k)
      as [|f facts] eqn:Ef.
    + rewrite Hall. simpl in Hlen.
      destruct (Nat.eqb_spec m 0); [done|]. lia.
    + rewrite Hlen. simpl in Hlen. destruct (Nat.eqb_spec m 0); [lia | done].
Qed.

Lemma C8_witness :
  whitespace_only "fever" = false
  /\ length (rag_engine.retrieve_relevant_facts 5 "fever" None) = 2%nat
  /\ whitespace_only "  " = true
  /\ rag_engine.retrieve_relevant_facts 5 "  " None = [].
Proof.
  pose proof (C8_retrieval_size_amended 5 "fever" None) as Hfever.
  pose proof (C8_retrieval_size_amended 5 "  " None) as Hblank.
  simpl in Hfever, Hblank.
  destruct Hfever as [_ Hfever]; [lia|].
  destruct Hblank as [Hblank _]; [lia|].
  split; [reflexivity|]. split.
  - destruct (Hfever eq_refl) as (_ & Hlen & _). exact Hlen.
  - split; [reflexivity | exact (Hblank eq_refl)].
Defined.

(** The lower bound of the specification fails: "fever" is not blank, the
    table has 13 facts and 5 are asked for, yet only the two matching facts
    are returned. *)
Lemma C8_counterexample :
  whitespace_only "fever" = false
  /\ map id (rag_engine.retrieve_relevant_facts 5 "fever" None)
     = ["fever_001"; "digestive_002"]
  /\ ~ (Nat.min 5 (length medical_facts.get_all_facts)
        <= length (rag_engine.retrieve_relevant_facts 5 "fever" None))%nat.
Proof.
  split; [reflexivity|]. split; [vm_compute; reflexivity|].
  vm_compute. lia.
Qed.

Example retrieve_relevant_facts_no_match :
  map id (rag_engine.retrieve_relevant_facts 5 "zzzz qqqq" None)
  = ["fever_001"; "infection_001"; "respiratory_001"; "respiratory_002";
     "headache_001"].
Proof. vm_compute. reflexivity. Qed.

Example retrieve_relevant_facts_negative_limit :
  length (rag_engine.retrieve_relevant_facts 5 "zzzz qqqq" (Some (-1)))
  = 12%nat.
Proof. vm_compute. reflexivity. Qed.

Example extract_keywords_sample :
  rag_engine.extract_keywords "I have a Mild headache and chest pain, fever"
  = ["fever"; "headache"; "pain"; "ache"; "chest pain"; "mild"; "chest"].
Proof. vm_compute. reflexivity. Qed.

(** ** The external representation *)

(** C10, as amended.  Under "lifestyle_suggestions", [to_dict] always stores a
    value other than [None]: the empty list when the field is [None] or
    any other value that counts as false, and the field itself, unchanged,
    otherwise.  So the stored value is a list exactly when the field is a
    list or counts as false, and a result with [None] and the same result
    with the empty list have the same representation.
    "possible_conditions" is a list with one dictionary for each condition,
    in the same order, holding the condition's name under "condition". *)
Theorem C10_to_dict_shape_amended (r : DiagnosisResult) :
  (exists v, to_dict r !! "lifestyle_suggestions" = Some v
             /\ v <> PyNone
             /\ v = (if truthy (lifestyle_suggestions r)
                     then lifestyle_suggestions r else PyList [])
             /\ ((exists l, v = PyList l)
                 <-> truthy (lifestyle_suggestions r) = false
                     \/ exists l, lifestyle_suggestions r = PyList l))
  /\ (lifestyle_suggestions r = PyNone ->
      to_dict r !! "lifestyle_suggestions" = Some (PyList []))
  /\ (forall l, lifestyle_suggestions r = PyList l ->
                to_dict r !! "lifestyle_suggestions" = Some (PyList l))
  /\ to_dict (with_lifestyle_suggestions r PyNone)
     = to_dict (with_lifestyle_suggestions r (PyList []))
  /\ exists ds,
       to_dict r !! "possible_conditions" = Some (PyList ds)
       /\ length ds = length (conditions r)
       /\ forall i c,
            nth_error (conditions r) i = Some c ->
            exists d, nth_error ds i = Some (PyDict d)
                      /\ d !! "condition" = Some (name c).
Proof.
  assert (to_dict r !! "lifestyle_suggestions"
          = Some (or_ (lifestyle_suggestions r) (PyList []))) as Hl
    by reflexivity.
  split; [|split; [|split; [|split]]].
  - eexists. split; [exact Hl|]. unfold or_.
    destruct (truthy (lifestyle_suggestions r)) eqn:T.
    + split; [intros E; by rewrite E in T|]. split; [done|].
      split; [by right | intros [Hf|Hlist]; [discriminate Hf | done]].
    + split; [done|]. split; [done|]. split; [by left | eauto].
  - intros E. by rewrite Hl, E.
  - intros l E. rewrite Hl, E. by destruct l.
  - reflexivity.
  - exists (map condition_to_dict (conditions r)).
    split; [reflexivity|]. split; [apply length_map|].
    intros i c Hc. eexists. split.
    + rewrite nth_error_map, Hc. reflexivity.
    + reflexivity.
Qed.

Lemma C10_counterexample :
  exists r,
    snd (diagnosis_logic.analyze_symptoms
           (samples.replying_client (PyDict samples.reply_lifestyle_text))
           "I have a mild headache" "zero" false) = Ok r
    /\ to_dict r !! "lifestyle_suggestions" = Some (PyStr "rest more")
    /\ ~ exists l, to_dict r !! "lifestyle_suggestions" = Some (PyList l).
Proof.
  eexists. split; [vm_compute; reflexivity|]. split; [reflexivity|].
  intros [l Hl]. discriminate Hl.
Qed.

Example to_dict_of_fallback_result :
  let d := to_dict (diagnosis_logic.fallback_result true (GeminiAPIError "down")) in
  d !! "lifestyle_suggestions" = Some (PyList [])
  /\ d !! "flagged" = Some (PyBool true)
  /\ d !! "urgency_level" = Some (PyStr "Urgent").
Proof. repeat split. Qed.

(** * Further properties *)

(** ** More on strings *)

Lemma str_app_nil_r (s : string) : s ++ "" = s.
Proof. induction s as [|c s IH]; [done|]. by rewrite append_cons, IH. Qed.

Lemma str_app_assoc (a b c : string) : (a ++ b) ++ c = a ++ b ++ c.
Proof.
  induction a as [|x a IH]; [done|]. by rewrite !append_cons, IH.
Qed.

Lemma str_length_app (a b : string) :
  String.length (a ++ b) = (String.length a + String.length b)%nat.
Proof.
  induction a as [|x a IH]; [done|]. rewrite append_cons. simpl. by rewrite IH.
Qed.

Lemma occurs_in_refl (s : string) : occurs_in s s.
Proof. exists "", "". by rewrite str_app_nil_r. Qed.

Lemma occurs_in_app (a pre post : string) :
  occurs_in a (pre ++ a ++ post).
Proof. by exists pre, post. Qed.

Lemma occurs_in_trans (a b c : string) :
  occurs_in a b -> occurs_in b c -> occurs_in a c.
Proof.
  intros (p1 & q1 & ->) (p2 & q2 & ->).
  exists (p2 ++ p1), (q1 ++ q2). by rewrite !str_app_assoc.
Qed.

Lemma occurs_in_app_l (a b c : string) : occurs_in a b -> occurs_in a (b ++ c).
Proof.
  intros H. eapply occurs_in_trans; [exact H|].
  exists "", c. done.
Qed.

Lemma occurs_in_app_r (a b c : string) : occurs_in a c -> occurs_in a (b ++ c).
Proof.
  intros H. eapply occurs_in_trans; [exact H|].
  exists b, "". by rewrite str_app_nil_r.
Qed.

Lemma occurs_in_length (a b : string) :
  occurs_in a b -> (String.length a <= String.length b)%nat.
Proof. intros (p & q & ->). rewrite !str_length_app. lia. Qed.

Lemma lower_app (a b : string) : lower (a ++ b) = lower a ++ lower b.
Proof.
  induction a as [|c a IH]; [done|]. rewrite append_cons. simpl.
  by rewrite IH, append_cons.
Qed.

Lemma lower_char_idem (c : ascii) : lower_char (lower_char c) = lower_char c.
Proof. by destruct c as [[] [] [] [] [] [] [] []]. Qed.

Lemma lower_idem (s : string) : lower (lower s) = lower s.
Proof.
  induction s as [|c s IH]; [done|]. simpl. by rewrite lower_char_idem, IH.
Qed.

Lemma lower_length (s : string) : String.length (lower s) = String.length s.
Proof. induction s as [|c s IH]; [done|]. simpl. by rewrite IH. Qed.

(** *** Trimming *)

Lemma lstrip_suffix (s : string) : exists w, s = w ++ lstrip s.
Proof.
  induction s as [|c s [w IH]]; [by exists ""|]. simpl.
  destruct (isspace c).
  - exists (String c w). by rewrite append_cons, <- IH.
  - by exists "".
Qed.

Lemma rstrip_prefix (s : string) : exists w, s = rstrip s ++ w.
Proof.
  induction s as [|c s [w IH]]; [by exists ""|]. simpl.
  destruct (rstrip s) as [|c' r'] eqn:E.
  - destruct (isspace c).
    + by exists (String c s).
    + exists w. by rewrite append_cons, <- IH.
  - exists w. by rewrite append_cons, <- IH.
Qed.

Lemma lstrip_length (s : string) :
  (String.length (lstrip s) <= String.length s)%nat.
Proof.
  destruct (lstrip_suffix s) as [w H]. rewrite H at 2.
  rewrite str_length_app. lia.
Qed.

Lemma rstrip_length (s : string) :
  (String.length (rstrip s) <= String.length s)%nat.
Proof.
  destruct (rstrip_prefix s) as [w H]. rewrite H at 2.
  rewrite str_length_app. lia.
Qed.

Lemma strip_length (s : string) :
  (String.length (strip s) <= String.length s)%nat.
Proof.
  unfold strip. pose proof (rstrip_length (lstrip s)).
  pose proof (lstrip_length s). lia.
Qed.

Lemma lstrip_head (s : string) :
  lstrip s = "" \/ exists c r, lstrip s = String c r /\ isspace c = false.
Proof.
  induction s as [|c s IH]; [by left|]. simpl.
  destruct (isspace c) eqn:E; [done|]. right. eauto.
Qed.

Lemma rstrip_cons_nonspace (c : ascii) (s : string) :
  isspace c = false -> rstrip (String c s) = String c (rstrip s).
Proof. intros H. simpl. rewrite H. by destruct (rstrip s). Qed.

Lemma rstrip_idem (s : string) : rstrip (rstrip s) = rstrip s.
Proof.
  induction s as [|c s IH]; [done|]. simpl.
  destruct (rstrip s) as [|c' r'] eqn:E.
  - destruct (isspace c) eqn:Ec; [done|]. simpl. by rewrite Ec.
  - simpl. simpl in IH. by rewrite IH.
Qed.

Lemma strip_idem (s : string) : strip (strip s) = strip s.
Proof.
  unfold strip. destruct (lstrip_head s) as [->|(c & r & -> & Hc)]; [done|].
  rewrite rstrip_cons_nonspace by done. simpl. rewrite Hc.
  rewrite <- rstrip_cons_nonspace by done. apply rstrip_idem.
Qed.

Lemma lstrip_app_nonspace (pre : string) (c : ascii) (r : string) :
  isspace c = false -> lstrip (pre ++ String c r) = lstrip pre ++ String c r.
Proof.
  intros Hc. induction pre as [|a pre IH]; simpl.
  - by rewrite Hc.
  - rewrite ?append_cons. simpl. destruct (isspace a); [done|].
    by rewrite ?append_cons.
Qed.

Lemma rstrip_app_nonspace (pre : string) (c : ascii) (post : string) :
  isspace c = false ->
  rstrip (pre ++ String c post) = pre ++ String c (rstrip post).
Proof.
  intros Hc. induction pre as [|a pre IH].
  - by apply rstrip_cons_nonspace.
  - rewrite !append_cons. simpl. rewrite IH.
    by destruct pre.
Qed.

(** ** The rule-based gate and validation, continued *)

(** X1. The gate looks for the phrases anywhere in the lowered text and for
    nothing else: a text that is flagged stays flagged whatever is written
    before and after it (a negation included) and however its letters are
    cased. *)
Theorem check_urgent_keywords_kept_in_context (pre s s' post : string) :
  lower s' = lower s ->
  diagnosis_logic.check_urgent_keywords s = true ->
  diagnosis_logic.check_urgent_keywords (pre ++ s' ++ post) = true.
Proof.
  intros Hcase. rewrite !check_urgent_keywords_true_iff.
  intros (phrase & Hin & Hocc). exists phrase. split; [done|].
  rewrite !lower_app, Hcase.
  by apply occurs_in_app_r, occurs_in_app_l.
Qed.

Lemma check_urgent_keywords_kept_in_context_witness :
  diagnosis_logic.check_urgent_keywords "chest pain" = true
  /\ diagnosis_logic.check_urgent_keywords
       ("I have no " ++ "Chest Pain" ++ " at all") = true.
Proof.
  split; [reflexivity|].
  apply (check_urgent_keywords_kept_in_context
           "I have no " "chest pain" "Chest Pain" " at all");
    reflexivity.
Defined.

(** X2. Trimming never turns an accepted input into a refused one: what
    [validate_symptoms] accepts, it accepts again once stripped. *)
Theorem validate_symptoms_accepts_stripped (s : string) :
  diagnosis_logic.validate_symptoms s = Ok tt ->
  diagnosis_logic.validate_symptoms (strip s) = Ok tt.
Proof.
  rewrite !validate_symptoms_Ok_iff. unfold invalid_symptoms.
  intros Hs. rewrite <- strip_empty_iff, strip_idem.
  pose proof (strip_length s) as Hlen.
  intros [H|[H|[H|H]]]; apply Hs.
  - right; left. by apply strip_empty_iff.
  - right; left. by apply strip_empty_iff.
  - right; right; left. done.
  - right; right; right. lia.
Qed.

Lemma validate_symptoms_accepts_stripped_witness :
  diagnosis_logic.validate_symptoms "  fever and cough  " = Ok tt
  /\ diagnosis_logic.validate_symptoms (strip "  fever and cough  ") = Ok tt.
Proof.
  split; [reflexivity|].
  apply (validate_symptoms_accepts_stripped "  fever and cough  ").
  reflexivity.
Defined.

(** The converse fails: the upper bound counts the white space around the
    text. *)
Example validate_symptoms_counts_padding :
  let s := samples.repeat_string "a" 1990 ++ samples.repeat_string " " 20 in
  diagnosis_logic.validate_symptoms (strip s) = Ok tt
  /\ diagnosis_logic.validate_symptoms s =
     Raise (ValidationError
              "Symptom description is too long. Please keep it under 2000 characters.").
Proof. vm_compute. split; reflexivity. Qed.

(** ** Extracting the JSON text of a reply *)

Lemma char_in_nil (c : ascii) : ~ char_in c "".
Proof. intros ([|a pre] & post & H); discriminate H. Qed.

Lemma char_in_cons (c a : ascii) (s : string) :
  char_in c (String a s) <-> a = c \/ char_in c s.
Proof.
  unfold char_in, occurs_in. split.
  - intros ([|b pre] & post & H).
    + left. by injection H.
    + right. rewrite append_cons in H. injection H as _ H. eauto.
  - intros [->|(pre & post & ->)].
    + by exists "", s.
    + by exists (String a pre), post.
Qed.

Lemma char_in_app (c : ascii) (a b : string) :
  char_in c (a ++ b) <-> char_in c a \/ char_in c b.
Proof.
  induction a as [|x a IH].
  - change ("" ++ b) with b. pose proof (char_in_nil c). tauto.
  - rewrite append_cons, !char_in_cons, IH. tauto.
Qed.

Lemma find_char_app_miss (c : ascii) (P r : string) :
  ~ char_in c P -> find_char c (P ++ String c r) = Z.of_nat (String.length P).
Proof.
  induction P as [|a P IH]; intros Hc.
  - change ("" ++ String c r) with (String c r). simpl.
    by rewrite Ascii.eqb_refl.
  - rewrite char_in_cons in Hc. rewrite append_cons.
    cbn [find_char String.length].
    destruct (Ascii.eqb_spec a c) as [->|Hne]; [tauto|].
    rewrite IH by tauto.
    destruct (Z.eqb_spec (Z.of_nat (String.length P)) (-1)); lia.
Qed.

Lemma rfind_char_miss (c : ascii) (Q : string) :
  ~ char_in c Q -> rfind_char c Q = -1.
Proof.
  induction Q as [|a Q IH]; intros Hc; [done|].
  rewrite char_in_cons in Hc. cbn [rfind_char]. rewrite IH by tauto. simpl.
  destruct (Ascii.eqb_spec a c); [tauto | done].
Qed.

Lemma rfind_char_app_miss (c : ascii) (X Q : string) :
  ~ char_in c Q -> rfind_char c (X ++ String c Q) = Z.of_nat (String.length X).
Proof.
  intros Hc. induction X as [|a X IH].
  - change ("" ++ String c Q) with (String c Q). cbn [rfind_char].
    rewrite rfind_char_miss by done. simpl. by rewrite Ascii.eqb_refl.
  - rewrite append_cons. cbn [rfind_char String.length]. rewrite IH.
    destruct (Z.eqb_spec (Z.of_nat (String.length X)) (-1)); simpl; lia.
Qed.

Lemma rfind_char_lower_bound (c : ascii) (s : string) : -1 <= rfind_char c s.
Proof.
  induction s as [|a s IH]; [done|]. cbn [rfind_char].
  destruct (Z.eqb_spec (rfind_char c s) (-1)); simpl; [|lia].
  destruct (Ascii.eqb a c); lia.
Qed.

Lemma rfind_char_none (c : ascii) (s : string) :
  rfind_char c s = -1 -> ~ char_in c s.
Proof.
  induction s as [|a s IH]; [intros _; apply char_in_nil|].
  cbn [rfind_char]. pose proof (rfind_char_lower_bound c s).
  destruct (Z.eqb_spec (rfind_char c s) (-1)); simpl; [|lia].
  destruct (Ascii.eqb_spec a c); [done|].
  intros _. rewrite char_in_cons. tauto.
Qed.

Lemma find_char_decompose (c : ascii) (s : string) :
  find_char c s <> -1 ->
  exists P r, s = P ++ String c r /\ ~ char_in c P
              /\ find_char c s = Z.of_nat (String.length P).
Proof.
  induction s as [|a s IH]; [done|]. cbn [find_char].
  destruct (Ascii.eqb_spec a c) as [->|Hne].
  - intros _. exists "", s. split; [done|]. split; [apply char_in_nil | done].
  - destruct (Z.eqb_spec (find_char c s) (-1)) as [E|E]; [done|].
    intros _. destruct (IH E) as (P & r & -> & HP & Hi).
    exists (String a P), r. split; [done|]. split.
    + rewrite char_in_cons. tauto.
    + rewrite Hi. simpl. lia.
Qed.

Lemma rfind_char_decompose (c : ascii) (s : string) :
  rfind_char c s <> -1 ->
  exists X Q, s = X ++ String c Q /\ ~ char_in c Q
              /\ rfind_char c s = Z.of_nat (String.length X).
Proof.
  induction s as [|a s IH]; [done|]. cbn [rfind_char].
  destruct (Z.eqb_spec (rfind_char c s) (-1)) as [E|E]; simpl.
  - destruct (Ascii.eqb_spec a c) as [->|Hne]; [|done].
    intros _. exists "", s. split; [done|]. split; [|done].
    by apply rfind_char_none.
  - intros _. destruct (IH E) as (X & Q & -> & HQ & Hi).
    exists (String a X), Q. split; [done|]. split; [done|].
    rewrite Hi. simpl. lia.
Qed.

Lemma prefix_comparable (P R X S : string) (c : ascii) :
  P ++ String c R = X ++ S ->
  (String.length P < String.length X)%nat ->
  exists mid, X = P ++ String c mid.
Proof.
  revert X. induction P as [|a P IH]; intros [|x X] H Hlen; simpl in Hlen;
    try lia.
  - change ("" ++ String c R) with (String c R) in H.
    rewrite append_cons in H. injection H as -> _. by exists X.
  - rewrite !append_cons in H. injection H as -> H.
    destruct (IH X H) as [mid ->]; [lia|]. by exists mid.
Qed.

Lemma substring_app (P M Q : string) :
  String.substring (String.length P) (String.length M) (P ++ M ++ Q) = M.
Proof.
  induction P as [|a P IH].
  - change ("" ++ M ++ Q) with (M ++ Q). simpl.
    induction M as [|m M IHM]; [by destruct Q|].
    rewrite append_cons. simpl. by rewrite IHM.
  - rewrite append_cons. exact IH.
Qed.

Lemma str_slice_app (P M Q : string) :
  M <> "" ->
  str_slice (P ++ M ++ Q) (Z.of_nat (String.length P))
    (Z.of_nat (String.length P) + Z.of_nat (String.length M)) = M.
Proof.
  intros HM. unfold str_slice. rewrite !str_length_app.
  assert (0 < String.length M)%nat by (destruct M; [done | simpl; lia]).
  set (p := String.length P) in *. set (m := String.length M) in *.
  set (q := String.length Q) in *.
  destruct (Z.ltb_spec (Z.of_nat p) 0); [lia|].
  destruct (Z.ltb_spec (Z.of_nat p + Z.of_nat m) 0); [lia|].
  replace (Z.max 0 (Z.min (Z.of_nat (p + (m + q))) (Z.of_nat p)))
    with (Z.of_nat p) by lia.
  replace (Z.max 0 (Z.min (Z.of_nat (p + (m + q)))
                      (Z.of_nat p + Z.of_nat m)))
    with (Z.of_nat p + Z.of_nat m) by lia.
  destruct (Z.ltb_spec (Z.of_nat p) (Z.of_nat p + Z.of_nat m)); [|lia].
  replace (Z.to_nat (Z.of_nat p + Z.of_nat m - Z.of_nat p)) with m by lia.
  rewrite Nat2Z.id. apply substring_app.
Qed.

Lemma extract_json_strip (t : string) :
  gemini_client._extract_json (strip t) = gemini_client._extract_json t.
Proof. unfold gemini_client._extract_json. by rewrite strip_idem. Qed.

(** On a trimmed text that holds an opening brace before a closing one, the
    result runs from the first opening to the last closing brace. *)
Lemma extract_json_braces (P mid Q : string) :
  let T := P ++ String "{" (mid ++ String "}" Q) in
  strip T = T -> ~ char_in "{" P -> ~ char_in "}" Q ->
  gemini_client._extract_json T = String "{" (mid ++ "}").
Proof.
  intros T HT HP HQ. unfold gemini_client._extract_json. rewrite HT.
  assert (find_char "{" T = Z.of_nat (String.length P)) as ->
    by (by apply find_char_app_miss).
  assert (T = (P ++ String "{" mid) ++ String "}" Q) as HT2.
  { unfold T. by rewrite str_app_assoc, append_cons. }
  assert (rfind_char "}" T
          = Z.of_nat (String.length P) + 1 + Z.of_nat (String.length mid))
    as ->.
  { rewrite HT2, rfind_char_app_miss by done.
    rewrite str_length_app. simpl. lia. }
  destruct (Z.eqb_spec (Z.of_nat (String.length P)) (-1)); [lia|].
  destruct (Z.eqb_spec (Z.of_nat (String.length P) + 1
                        + Z.of_nat (String.length mid)) (-1)); [lia|].
  destruct (Z.ltb_spec (Z.of_nat (String.length P))
              (Z.of_nat (String.length P) + 1
               + Z.of_nat (String.length mid))); [|lia].
  simpl.
  assert (T = P ++ String "{" (mid ++ "}") ++ Q) as ->.
  { unfold T. by rewrite append_cons, str_app_assoc. }
  replace (Z.of_nat (String.length P) + 1 + Z.of_nat (String.length mid) + 1)
    with (Z.of_nat (String.length P)
          + Z.of_nat (String.length (String "{" (mid ++ "}")))).
  - by apply str_slice_app.
  - simpl. rewrite str_length_app. simpl. lia.
Qed.

(** X3. A JSON object wrapped in other text is recovered: when the text
    before it holds no opening brace and the text after it no closing brace
    (a code fence, a sentence of introduction, white space),
    [_extract_json] returns the object, braces included, and nothing
    else. *)
Theorem extract_json_recovers_object (pre mid post : string) :
  ~ char_in "{" pre -> ~ char_in "}" post ->
  gemini_client._extract_json (pre ++ "{" ++ mid ++ "}" ++ post)
  = "{" ++ mid ++ "}".
Proof.
  intros Hpre Hpost. rewrite <- extract_json_strip.
  change ("{" ++ mid ++ "}" ++ post) with (String "{" (mid ++ String "}" post)).
  assert (strip (pre ++ String "{" (mid ++ String "}" post))
          = lstrip pre ++ String "{" (mid ++ String "}" (rstrip post))) as Hs.
  { unfold strip. rewrite lstrip_app_nonspace by done.
    rewrite <- !append_cons, <- !str_app_assoc.
    rewrite rstrip_app_nonspace by done.
    by rewrite !str_app_assoc, !append_cons. }
  rewrite Hs. apply extract_json_braces.
  - by rewrite <- Hs, strip_idem.
  - intros H. apply Hpre. destruct (lstrip_suffix pre) as [w Hw].
    rewrite Hw. apply char_in_app. by right.
  - intros H. apply Hpost. destruct (rstrip_prefix post) as [w Hw].
    rewrite Hw. apply char_in_app. by left.
Qed.

Lemma find_char_lower_bound (c : ascii) (s : string) : -1 <= find_char c s.
Proof.
  induction s as [|a s IH]; [done|]. cbn [find_char].
  destruct (Ascii.eqb a c); [lia|].
  destruct (Z.eqb_spec (find_char c s) (-1)); lia.
Qed.

Lemma find_char_none (c : ascii) (s : string) :
  find_char c s = -1 -> ~ char_in c s.
Proof.
  induction s as [|a s IH]; [intros _; apply char_in_nil|].
  cbn [find_char]. pose proof (find_char_lower_bound c s).
  destruct (Ascii.eqb_spec a c); [done|].
  destruct (Z.eqb_spec (find_char c s) (-1)); [|lia].
  intros _. rewrite char_in_cons. tauto.
Qed.

Lemma extract_json_recovers_object_witness :
  gemini_client._extract_json
    (("Here is the analysis:" ++ nl ++ "```json" ++ nl)
     ++ "{" ++ (quoted "is_urgent" ++ ": false") ++ "}"
     ++ (nl ++ "```" ++ nl))
  = "{" ++ (quoted "is_urgent" ++ ": false") ++ "}".
Proof.
  apply (extract_json_recovers_object
           ("Here is the analysis:" ++ nl ++ "```json" ++ nl)
           (quoted "is_urgent" ++ ": false")
           (nl ++ "```" ++ nl));
    apply find_char_none; reflexivity.
Defined.

Lemma strip_occurs_in (t : string) : occurs_in (strip t) t.
Proof.
  unfold strip. destruct (lstrip_suffix t) as [w1 H1].
  destruct (rstrip_prefix (lstrip t)) as [w2 H2].
  exists w1, w2. by rewrite <- H2.
Qed.

(** Either the trimmed text holds an opening brace before a closing one, or
    the trimmed text is returned as it is. *)
Lemma extract_json_cases (t : string) :
  (exists P mid Q,
     strip t = P ++ String "{" (mid ++ String "}" Q)
     /\ ~ char_in "{" P /\ ~ char_in "}" Q)
  \/ gemini_client._extract_json t = strip t.
Proof.
  unfold gemini_client._extract_json.
  destruct (Z.eqb_spec (find_char "{" (strip t)) (-1)) as [|Hf]; [by right|].
  destruct (Z.eqb_spec (rfind_char "}" (strip t)) (-1)) as [|Hr]; [by right|].
  destruct (Z.ltb_spec (find_char "{" (strip t)) (rfind_char "}" (strip t)))
    as [Hlt|]; [|by right].
  left.
  destruct (find_char_decompose _ _ Hf) as (P & R & HT & HP & Hi).
  destruct (rfind_char_decompose _ _ Hr) as (X & Q & HT' & HQ & Hj).
  rewrite Hi, Hj in Hlt.
  destruct (prefix_comparable P R X (String "}" Q) "{") as [mid ->];
    [congruence | lia |].
  exists P, mid, Q. split; [|done].
  by rewrite HT', str_app_assoc, append_cons.
Qed.

(** X4. [_extract_json] returns a part of the text it is given, and applying
    it to its own result changes nothing. *)
Theorem extract_json_idempotent (t : string) :
  occurs_in (gemini_client._extract_json t) t
  /\ gemini_client._extract_json (gemini_client._extract_json t)
     = gemini_client._extract_json t.
Proof.
  destruct (extract_json_cases t) as [(P & mid & Q & HT & HP & HQ)|E].
  - assert (gemini_client._extract_json t = String "{" (mid ++ "}")) as ->.
    { rewrite <- extract_json_strip, HT. apply extract_json_braces; try done.
      by rewrite <- HT, strip_idem. }
    split.
    + eapply occurs_in_trans; [|apply strip_occurs_in]. rewrite HT.
      exists P, Q. by rewrite append_cons, str_app_assoc.
    + apply (extract_json_braces "" mid ""); try apply char_in_nil.
      change ("" ++ String "{" (mid ++ "}")) with (String "{" (mid ++ "}")).
      unfold strip. simpl lstrip. rewrite <- append_cons.
      by rewrite rstrip_app_nonspace.
  - rewrite E. split; [apply strip_occurs_in|].
    by rewrite extract_json_strip.
Qed.

Example extract_json_without_braces :
  gemini_client._extract_json "  I cannot help with that.  "
  = "I cannot help with that.".
Proof. reflexivity. Qed.

Example extract_json_braces_in_wrong_order :
  gemini_client._extract_json "} unexpected {" = "} unexpected {".
Proof. reflexivity. Qed.

(** ** The gateway's retry loop, continued *)




(** What a run of the loop can end in, and how long it can sleep. *)
Lemma retry_loop_outcomes (max_retries : Z) (s : string)
    (call : Z -> gemini_client.attempt_outcome) (turns : nat) :
  forall (attempt : Z) (log : list Z),
    0 <= attempt ->
    attempt + Z.of_nat turns = max_retries ->
    let out := gemini_client.retry_loop max_retries s call turns attempt log in
    match snd out with
    | Ok v =>
        v = gemini_client._create_fallback_response s
        \/ exists i, attempt <= i < max_retries
                     /\ call i = gemini_client.Parsed v
    | Raise e => exists msg, e = GeminiAPIError msg
    end
    /\ (turns <> O ->
        total (fst out) + 2 ^ attempt <= total log + 2 ^ (max_retries - 1))
    /\ (turns = O -> fst out = log).
Proof.
  induction turns as [|turns IH]; intros attempt log H0 Hsum; cbv zeta.
  - simpl. split; [eauto|]. split; [done | done].
  - rewrite retry_loop_S.
    assert (2 ^ attempt <= 2 ^ (max_retries - 1)) as Hpow
      by (apply Z.pow_le_mono_r; lia).
    assert (forall d, total (log ++ [d])%list = total log + d) as Htot.
    { intros d. unfold total. rewrite fold_right_app. simpl.
      generalize log. intros l. induction l as [|x l IHl]; simpl; lia. }
    assert (0 < 2 ^ attempt) as Hpos by (apply Z.pow_pos_nonneg; lia).
    destruct (call attempt) as [r|e|e] eqn:Ec.
    + simpl. split; [|split; [intros _; lia | done]].
      right. exists attempt. split; [lia | done].
    + destruct (Z.eqb_spec attempt (max_retries - 1)) as [E|E].
      * simpl. split; [by left|]. split; [intros _; lia | done].
      * destruct (IH (attempt + 1) (log ++ [1])%list) as (H1 & H2 & H3);
          [lia | lia |].
        cbv zeta in H1, H2, H3. split; [|split; [|done]].
        -- destruct (snd _) as [v|e']; [|done].
           destruct H1 as [H1|(i & Hi & H1)]; [by left|].
           right. exists i. split; [lia | done].
        -- intros _. destruct turns as [|turns']; [lia|].
           specialize (H2 ltac:(done)). rewrite Htot in H2.
           replace (2 ^ (attempt + 1)) with (2 * 2 ^ attempt) in H2
             by (rewrite Z.pow_add_r by lia; change (2 ^ 1) with 2; lia).
           lia.
    + destruct (Z.eqb_spec attempt (max_retries - 1)) as [E|E].
      * simpl. split; [eauto|]. split; [intros _; lia | done].
      * destruct (IH (attempt + 1) (log ++ [2 ^ attempt])%list)
          as (H1 & H2 & H3); [lia | lia |].
        cbv zeta in H1, H2, H3. split; [|split; [|done]].
        -- destruct (snd _) as [v|e']; [|done].
           destruct H1 as [H1|(i & Hi & H1)]; [by left|].
           right. exists i. split; [lia | done].
        -- intros _. destruct turns as [|turns']; [lia|].
           specialize (H2 ltac:(done)). rewrite Htot in H2.
           replace (2 ^ (attempt + 1)) with (2 * 2 ^ attempt) in H2
             by (rewrite Z.pow_add_r by lia; change (2 ^ 1) with 2; lia).
           lia.
Qed.


(** X7. The sleeps of one call add up to at most [2^(max_retries-1) - 1]
    time units (3 for the default of three tries), whatever the tries end
    in. *)
Theorem gateway_total_delay_bound (self : gemini_client.GeminiClient)
    (s : string) (facts : list MedicalFact) (prompt_type : string)
    (include_lifestyle : bool) :
  1 <= gemini_client.max_retries self ->
  total (fst (gemini_client.analyze_symptoms self s facts prompt_type
                include_lifestyle))
  <= 2 ^ (gemini_client.max_retries self - 1) - 1.
Proof.
  intros Hmr. unfold gemini_client.analyze_symptoms.
  destruct (retry_loop_outcomes (gemini_client.max_retries self) s
              (gemini_client.try_body self s facts prompt_type
                 include_lifestyle)
              (Z.to_nat (gemini_client.max_retries self)) 0 [])
    as (_ & H & _); [lia | lia |].
  cbv zeta in H. simpl in H. specialize (H ltac:(lia)). lia.
Qed.

Lemma gateway_total_delay_bound_witness :
  total (fst (gemini_client.analyze_symptoms
                (samples.failing_gateway 3 "connection reset")
                "fever" [] "zero" false)) <= 3.
Proof.
  apply (gateway_total_delay_bound
           (samples.failing_gateway 3 "connection reset")
           "fever" [] "zero" false).
  simpl. lia.
Defined.

(** ** Reading the reply, continued *)

Lemma parse_condition_Ok_entry (x : pyval) (c : Condition) :
  diagnosis_logic.parse_condition x = Ok c -> is_entry x.
Proof. destruct x as [| | | | | |d]; try discriminate. by exists d. Qed.

Lemma parse_condition_Raise (x : pyval) (e : exn) :
  diagnosis_logic.parse_condition x = Raise e -> is_read_error e.
Proof.
  destruct x as [| | | | | |d]; try discriminate;
    intros [= <-]; left; eauto.
Qed.

Lemma parse_conditions_Ok_entries (items : list pyval) (cs : list Condition) :
  diagnosis_logic.parse_conditions items = Ok cs -> Forall is_entry items.
Proof.
  revert cs. induction items as [|x items IH]; intros cs H; [constructor|].
  rewrite parse_conditions_cons in H. bind_inv H.
  constructor; [by eapply parse_condition_Ok_entry | by eapply IH].
Qed.

Lemma parse_conditions_Raise (items : list pyval) (e : exn) :
  diagnosis_logic.parse_conditions items = Raise e -> is_read_error e.
Proof.
  induction items as [|x items IH]; [discriminate|].
  rewrite parse_conditions_cons.
  destruct (diagnosis_logic.parse_condition x) as [c|e'] eqn:Ec; simpl.
  - destruct (diagnosis_logic.parse_conditions items) as [cs|e'']; simpl;
      [discriminate|]. intros [= <-]. by apply IH.
  - intros [= <-]. by eapply parse_condition_Raise.
Qed.

Lemma iterate_Raise (v : pyval) (e : exn) :
  iterate v = Raise e -> is_read_error e.
Proof.
  destruct v; try discriminate; intros [= <-]; right; eauto.
Qed.

(** What [parse_llm_response] does with a map. *)
Lemma parse_llm_response_map (m : gmap string pyval) :
  diagnosis_logic.parse_llm_response (PyDict m) =
  bind (iterate (match m !! "conditions" with
                 | Some v => v | None => PyList []
                 end)) (fun items =>
  bind (diagnosis_logic.parse_conditions items) (fun cs =>
  let final :=
    if negb (truthy (reply_is_urgent m))
    then diagnosis_logic.scan_conditions cs (reply_is_urgent m)
           (reply_urgency_level m)
    else (reply_is_urgent m, reply_urgency_level m) in
  Ok {| conditions := cs;
        flagged := fst final;
        urgency_level := snd final;
        disclaimer := diagnosis_logic.MEDICAL_DISCLAIMER;
        lifestyle_suggestions :=
          match m !! "lifestyle_suggestions" with
          | Some v => v | None => PyNone
          end;
        next_steps :=
          match m !! "next_steps" with Some v => v | None => PyList [] end;
        metadata :=
          <["source" := PyStr "gemini_ai"]>
          (<["conditions_count" := PyInt (Z.of_nat (length cs))]> ∅) |})).
Proof.
  unfold diagnosis_logic.parse_llm_response. simpl.
  destruct (iterate _) as [items|e]; [|done]. simpl.
  destruct (diagnosis_logic.parse_conditions items) as [cs|e]; [|done]. simpl.
  fold (reply_is_urgent m).
  replace (match
              UrgencyLevel.call
                match m !! "urgency_level" with
                | Some v => v
                | None => PyStr "Moderate"
                end
            with
            | Some x => x
            | None => UrgencyLevel.MODERATE
            end) with (reply_urgency_level m)
    by (unfold reply_urgency_level; by destruct (m !! "urgency_level")).
  by destruct (if negb (truthy (reply_is_urgent m)) then _ else _).
Qed.

Lemma parse_llm_response_Raise (reply : pyval) (e : exn) :
  diagnosis_logic.parse_llm_response reply = Raise e -> is_read_error e.
Proof.
  destruct reply as [| | | | | |m]; try (intros [= <-]; left; eauto).
  rewrite parse_llm_response_map.
  destruct (iterate _) as [items|e'] eqn:Eit; simpl.
  - destruct (diagnosis_logic.parse_conditions items) as [cs|e''] eqn:Ecs;
      simpl; [discriminate|]. intros [= <-].
    by eapply parse_conditions_Raise.
  - intros [= <-]. by eapply iterate_Raise.
Qed.

(** X8. [parse_llm_response] returns a result exactly for the replies that
    are maps whose [conditions] (the empty list when missing) can be
    iterated and yield maps only; for every other reply it raises
    [AttributeError] or [TypeError], and nothing else. *)
Theorem parse_llm_response_succeeds_iff (reply : pyval) :
  ((exists p, diagnosis_logic.parse_llm_response reply = Ok p)
   <-> parsable_reply reply)
  /\ (forall e, diagnosis_logic.parse_llm_response reply = Raise e ->
                is_read_error e).
Proof.
  split; [split|].
  - intros [p Hp]. destruct reply as [| | | | | |m]; try discriminate Hp.
    rewrite parse_llm_response_map in Hp. bind_inv Hp.
    exists m, v. split; [done|]. split; [done|].
    by eapply parse_conditions_Ok_entries.
  - intros (m & items & -> & Hit & He).
    destruct (parse_conditions_entries items He) as [cs Hcs].
    rewrite parse_llm_response_map, Hit. simpl. rewrite Hcs. simpl. eauto.
  - intros e. apply parse_llm_response_Raise.
Qed.

Example parse_llm_response_conditions_not_iterable :
  diagnosis_logic.parse_llm_response (PyDict {[ "conditions" := PyInt 3 ]})
  = Raise (TypeError "'int' object is not iterable").
Proof. vm_compute. reflexivity. Qed.

Example parse_llm_response_reply_is_a_list :
  diagnosis_logic.parse_llm_response (PyList [])
  = Raise (AttributeError "'list' object has no attribute 'get'").
Proof. vm_compute. reflexivity. Qed.

Lemma ConfidenceLevel_call_value (x : ConfidenceLevel.t) :
  ConfidenceLevel.call (PyStr (ConfidenceLevel.value x)) = Some x.
Proof. by destruct x. Qed.

Lemma ConfidenceLevel_call_Some (v : pyval) (x : ConfidenceLevel.t) :
  ConfidenceLevel.call v = Some x -> v = PyStr (ConfidenceLevel.value x).
Proof.
  destruct v as [| | | |s| |]; simpl; try discriminate.
  repeat match goal with
         | |- context [String.eqb s ?t] =>
             destruct (String.eqb_spec s t) as [->|?]
         end; intros [= <-]; done.
Qed.

Lemma parse_condition_of_entry (d : gmap string pyval) :
  exists c, diagnosis_logic.parse_condition (PyDict d) = Ok c
            /\ condition_of_entry d c.
Proof.
  eexists. split; [reflexivity|].
  unfold condition_of_entry, field_or. simpl.
  repeat split; try by destruct (d !! _).
  - intros x ->. by rewrite ConfidenceLevel_call_value.
  - intros H. destruct (ConfidenceLevel.call _) as [x|] eqn:E; [|done].
    apply ConfidenceLevel_call_Some in E.
    destruct (d !! "confidence") as [v|] eqn:Ed.
    + subst v. by destruct (H x).
    + injection E as E. by destruct x.
  - intros u ->. by rewrite UrgencyLevel_call_value.
  - intros H. destruct (UrgencyLevel.call _) as [u|] eqn:E; [|done].
    apply UrgencyLevel_call_Some in E.
    destruct (d !! "urgency") as [v|] eqn:Ed.
    + subst v. by destruct (H u).
    + injection E as E. by destruct u.
Qed.

Lemma parse_conditions_of_entries (items : list pyval) (cs : list Condition) :
  diagnosis_logic.parse_conditions items = Ok cs ->
  Forall2 (fun item c => exists d, item = PyDict d /\ condition_of_entry d c)
          items cs.
Proof.
  revert cs. induction items as [|x items IH]; intros cs H.
  - injection H as <-. constructor.
  - rewrite parse_conditions_cons in H. bind_inv H. injection H as <-.
    constructor; [|by apply IH].
    destruct (parse_condition_Ok_entry _ _ E) as [d ->].
    destruct (parse_condition_of_entry d) as (c & Hc & Hd).
    exists d. split; [done|]. congruence.
Qed.

(** X9. A parsed reply has one condition for each entry of [conditions], in
    the order of the reply.  In each, a field that the entry holds is copied
    as it is and a missing field takes its default; a confidence or urgency
    that is not spelled as one of the members degrades to Low or Moderate
    instead of failing.  The metadata count the conditions. *)
Theorem parse_llm_response_conditions (m : gmap string pyval)
    (items : list pyval) (p : DiagnosisResult) :
  iterate (match m !! "conditions" with
           | Some v => v | None => PyList []
           end) = Ok items ->
  diagnosis_logic.parse_llm_response (PyDict m) = Ok p ->
  Forall2 (fun item c => exists d, item = PyDict d /\ condition_of_entry d c)
          items (conditions p)
  /\ metadata p !! "conditions_count" = Some (PyInt (Z.of_nat (length items))).
Proof.
  intros Hit Hp. rewrite parse_llm_response_map, Hit in Hp. simpl in Hp.
  bind_inv Hp. injection Hp as <-. simpl.
  pose proof (parse_conditions_of_entries _ _ E) as HF. split; [done|].
  rewrite (Forall2_length _ _ _ HF). reflexivity.
Qed.

Lemma parse_llm_response_conditions_witness :
  exists p,
    diagnosis_logic.parse_llm_response
      (PyDict {[ "conditions" :=
                   PyList [samples.entry "Cold" "severe";
                           PyDict {[ "confidence" := PyStr "High" ]}] ]})
    = Ok p
    /\ map name (conditions p) = [PyStr "Cold"; PyStr "Unknown Condition"]
    /\ map urgency (conditions p)
       = [UrgencyLevel.MODERATE; UrgencyLevel.MODERATE]
    /\ map confidence (conditions p)
       = [ConfidenceLevel.LOW; ConfidenceLevel.HIGH]
    /\ metadata p !! "conditions_count" = Some (PyInt 2).
Proof.
  edestruct (parse_llm_response_conditions
               {[ "conditions" :=
                    PyList [samples.entry "Cold" "severe";
                            PyDict {[ "confidence" := PyStr "High" ]}] ]}
               [samples.entry "Cold" "severe";
                PyDict {[ "confidence" := PyStr "High" ]}])
    as [_ Hcount]; [vm_compute; reflexivity | vm_compute; reflexivity |].
  eexists. split; [vm_compute; reflexivity|].
  split; [reflexivity|]. split; [reflexivity|]. split; [reflexivity|].
  exact Hcount.
Defined.

(** ** The analysis as a whole, continued *)

Lemma validate_symptoms_Raise_invalid (s : string) (e : exn) :
  diagnosis_logic.validate_symptoms s = Raise e -> invalid_symptoms s.
Proof.
  unfold diagnosis_logic.validate_symptoms, invalid_symptoms.
  destruct (String.eqb_spec s "") as [->|_]; simpl; [by left|].
  destruct (String.eqb_spec (strip s) "") as [E|_].
  { intros _. right; left. by apply strip_empty_iff. }
  destruct (Nat.ltb_spec (String.length (strip s)) 3); [by auto|].
  destruct (Nat.ltb_spec 2000 (String.length s)); [by auto | discriminate].
Qed.

(** X10. [analyze_symptoms] never lets an exception of the gateway through:
    it raises [ValidationError] for an input that validation refuses, before
    anything else is done, or else the [AttributeError] or [TypeError] met
    while reading a reply that the gateway did return.  In particular it
    never raises [GeminiAPIError]. *)
Theorem analyze_symptoms_raises_only
    (self : diagnosis_logic.DiagnosisAnalyzer) (s prompt_type : string)
    (include_lifestyle : bool) (e : exn) :
  snd (diagnosis_logic.analyze_symptoms self s prompt_type include_lifestyle)
  = Raise e ->
  (exists msg,
     e = ValidationError msg /\ invalid_symptoms s
     /\ fst (diagnosis_logic.analyze_symptoms self s prompt_type
               include_lifestyle) = [])
  \/ (exists reply,
        diagnosis_logic.gemini_client self s
          (rag_engine.retrieve_relevant_facts
             (diagnosis_logic.rag_engine_top_k self) s None)
          prompt_type include_lifestyle = Ok reply
        /\ diagnosis_logic.parse_llm_response reply = Raise e
        /\ is_read_error e).
Proof.
  intros H. destruct (validate_symptoms_cases s) as [Hv|[msg Hv]].
  - right. rewrite analyze_symptoms_valid in H by done.
    destruct (diagnosis_logic.gemini_client _ _ _ _ _) as [reply|e'];
      [|discriminate].
    exists reply. split; [done|].
    destruct (diagnosis_logic.parse_llm_response reply) as [p|e'] eqn:Ep;
      [discriminate|].
    injection H as <-. split; [done|].
    by eapply parse_llm_response_Raise.
  - left. exists msg. unfold diagnosis_logic.analyze_symptoms in *.
    rewrite Hv in *. simpl in *. injection H as <-. split; [done|].
    split; [|done]. by eapply validate_symptoms_Raise_invalid.
Qed.

Lemma analyze_symptoms_raises_only_witness :
  snd (diagnosis_logic.analyze_symptoms
         (samples.replying_client (PyList [])) "I have a fever" "zero" false)
  = Raise (AttributeError "'list' object has no attribute 'get'")
  /\ is_read_error (AttributeError "'list' object has no attribute 'get'").
Proof.
  assert (snd (diagnosis_logic.analyze_symptoms
                 (samples.replying_client (PyList [])) "I have a fever"
                 "zero" false)
          = Raise (AttributeError "'list' object has no attribute 'get'"))
    as H by (vm_compute; reflexivity).
  split; [exact H|].
  destruct (analyze_symptoms_raises_only _ _ _ _ _ H)
    as [(msg & Hmsg & _)|(reply & _ & _ & Herr)];
    [discriminate Hmsg | exact Herr].
Defined.

(** A gateway that only fails hard still gives a result. *)
Example analyze_symptoms_absorbs_gateway_error :
  exists r,
    snd (diagnosis_logic.analyze_symptoms
           (samples.failing_client 3 "401 unauthorized")
           "I have a fever" "zero" false) = Ok r
    /\ flagged r = PyBool false
    /\ urgency_level r = UrgencyLevel.MODERATE.
Proof. eexists. split; [vm_compute; reflexivity|]. by split. Qed.




(** X12. When the model's output cannot be parsed in any of the tries (at
    least one try), the analysis over that client still returns a result:
    the single condition "Unable to analyze" with Low confidence and
    Moderate urgency, no lifestyle suggestion, [flagged] equal to the
    rule-based gate, and level Urgent when the gate fired and Moderate
    otherwise; its metadata name the model as the source and hold no
    error. *)
Theorem analyze_symptoms_unparsable_model_output
    (client : gemini_client.GeminiClient) (top_k : Z)
    (s prompt_type : string) (include_lifestyle : bool) :
  let facts := rag_engine.retrieve_relevant_facts top_k s None in
  diagnosis_logic.validate_symptoms s = Ok tt ->
  1 <= gemini_client.max_retries client ->
  (forall i, 0 <= i < gemini_client.max_retries client ->
     exists msg,
       gemini_client.try_body client s facts prompt_type include_lifestyle i
       = gemini_client.JSONDecodeError msg) ->
  exists r c,
    snd (diagnosis_logic.analyze_symptoms
           (diagnosis_logic.make_analyzer client top_k)
           s prompt_type include_lifestyle) = Ok r
    /\ conditions r = [c]
    /\ name c = PyStr "Unable to analyze"
    /\ confidence c = ConfidenceLevel.LOW
    /\ urgency c = UrgencyLevel.MODERATE
    /\ flagged r = PyBool (diagnosis_logic.check_urgent_keywords s)
    /\ urgency_level r =
       (if diagnosis_logic.check_urgent_keywords s
        then UrgencyLevel.URGENT else UrgencyLevel.MODERATE)
    /\ lifestyle_suggestions r = PyList []
    /\ metadata r !! "source" = Some (PyStr "gemini_ai")
    /\ metadata r !! "error" = None.
Proof.
  intros facts Hv Hmr Hjson.
  rewrite analyze_symptoms_valid by done. cbv zeta. simpl.
  fold facts. unfold gemini_client.analyze_symptoms.
  destruct (Z.to_nat (gemini_client.max_retries client)) as [|turns] eqn:Et;
    [lia|].
  rewrite (retry_loop_last_turn_decides (gemini_client.max_retries client) s
             _ turns 0 []); [|lia|].
  - destruct (Hjson (gemini_client.max_retries client - 1)) as [msg ->];
      [lia|].
    change (diagnosis_logic.parse_llm_response
              (gemini_client._create_fallback_response s))
      with (diagnosis_logic.parse_llm_response
              (gemini_client._create_fallback_response "")).
    destruct (diagnosis_logic.parse_llm_response
                (gemini_client._create_fallback_response "")) as [p|e] eqn:Ep;
      [|by vm_compute in Ep].
    vm_compute in Ep. injection Ep as <-.
    eexists _, _. split; [reflexivity|].
    by destruct (diagnosis_logic.check_urgent_keywords s).
  - intros i Hi. destruct (Hjson i) as [msg ->]; [lia | done].
Qed.

Lemma analyze_symptoms_unparsable_model_output_witness :
  exists r,
    snd (diagnosis_logic.analyze_symptoms
           (diagnosis_logic.make_analyzer (samples.garbled_gateway 3) 5)
           "severe chest pain and can't breathe" "zero" false) = Ok r
    /\ map name (conditions r) = [PyStr "Unable to analyze"]
    /\ flagged r = PyBool true
    /\ urgency_level r = UrgencyLevel.URGENT.
Proof.
  destruct (analyze_symptoms_unparsable_model_output
              (samples.garbled_gateway 3) 5
              "severe chest pain and can't breathe" "zero" false)
    as (r & c & Hr & Hcs & Hname & _ & _ & Hfl & Hlv & _);
    [reflexivity | simpl; lia | intros i _; eexists; reflexivity |].
  exists r. split; [exact Hr|]. rewrite Hcs. simpl. rewrite Hname.
  split; [reflexivity|]. split; [exact Hfl | exact Hlv].
Defined.

(** ** Keyword extraction *)

Lemma str_in_true_iff (x : string) (l : list string) :
  str_in x l = true <-> In x l.
Proof.
  unfold str_in. rewrite existsb_exists. split.
  - intros (y & Hin & ->%String.eqb_eq). done.
  - intros Hin. exists x. split; [done | apply String.eqb_refl].
Qed.

Lemma str_in_false_iff (x : string) (l : list string) :
  str_in x l = false <-> ~ In x l.
Proof. rewrite <- str_in_true_iff. by destruct (str_in x l). Qed.

(** The words that the regular expression finds are parts of the text. *)
Lemma findall_words_from_occur (s cur w : string) :
  In w (findall_words_from cur s) -> occurs_in w (cur ++ s).
Proof.
  revert cur. induction s as [|c s IH]; intros cur; simpl.
  - destruct (String.eqb_spec cur ""); [done|].
    intros [<-|[]]. rewrite str_app_nil_r. apply occurs_in_refl.
  - destruct (isword c).
    + intros H%IH. by rewrite str_app_assoc in H.
    + destruct (String.eqb_spec cur "") as [->|_].
      * intros H%IH. apply (occurs_in_app_r _ (String c "")) in H. exact H.
      * intros [<-|H%IH]; [apply occurs_in_app_l, occurs_in_refl|].
        apply occurs_in_app_r. by apply (occurs_in_app_r _ (String c "")) in H.
Qed.

Lemma add_word_elements (P : string -> Prop) (acc : list string) (w : string) :
  Forall P acc ->
  ((3 < String.length w)%nat -> ~ In w rag_engine.stop_words -> P w) ->
  Forall P (rag_engine.add_word acc w).
Proof.
  intros Hacc Hw. unfold rag_engine.add_word.
  destruct (Nat.ltb_spec 3 (String.length w));
    destruct (str_in w rag_engine.stop_words) eqn:Es;
    destruct (str_in w acc); cbn [andb negb]; try done.
  apply Forall_app. split; [done|]. constructor; [|done].
  apply Hw; [done|]. by apply str_in_false_iff.
Qed.

Lemma add_word_NoDup (acc : list string) (w : string) :
  List.NoDup acc -> List.NoDup (rag_engine.add_word acc w).
Proof.
  intros Hacc. unfold rag_engine.add_word.
  destruct (_ && negb (str_in w acc)) eqn:E; [|done].
  apply andb_true_iff in E as [_ E%negb_true_iff%str_in_false_iff].
  apply List.NoDup_app; [done| |].
  - constructor; [by intros []|constructor].
  - intros x Hx [<-|[]]. done.
Qed.

Lemma fold_add_word_elements (P : string -> Prop) (words acc : list string) :
  Forall P acc ->
  (forall w, In w words -> (3 < String.length w)%nat ->
             ~ In w rag_engine.stop_words -> P w) ->
  Forall P (fold_left rag_engine.add_word words acc).
Proof.
  revert acc. induction words as [|w words IH]; intros acc Hacc Hw; [done|].
  simpl. apply IH.
  - apply add_word_elements; [done|]. apply Hw. by left.
  - intros w' Hin. apply Hw. by right.
Qed.

Lemma fold_add_word_NoDup (words acc : list string) :
  List.NoDup acc -> List.NoDup (fold_left rag_engine.add_word words acc).
Proof.
  revert acc. induction words as [|w words IH]; intros acc Hacc; [done|].
  simpl. by apply IH, add_word_NoDup.
Qed.

Lemma NoDup_firstn_list {A} (n : nat) (l : list A) :
  List.NoDup l -> List.NoDup (firstn n l).
Proof.
  revert n. induction l as [|a l IH]; intros [|n] H; simpl;
    try constructor.
  - inversion H as [|? ? Hnot Hl]; subst. intros Hin. apply Hnot.
    rewrite <- (firstn_skipn n l). apply in_or_app. by left.
  - inversion H; subst. by apply IH.
Qed.

Lemma medical_keywords_NoDup : List.NoDup rag_engine.medical_keywords.
Proof.
  unfold rag_engine.medical_keywords.
  repeat (constructor; [by rewrite <- str_in_false_iff|]). constructor.
Qed.

(** What every extracted keyword is. *)
Lemma extract_keywords_elements (text : string) :
  Forall (fun kw =>
            occurs_in kw (lower text)
            /\ (In kw rag_engine.medical_keywords
                \/ ((3 < String.length kw)%nat
                    /\ ~ In kw rag_engine.stop_words)))
         (rag_engine.extract_keywords text).
Proof.
  unfold rag_engine.extract_keywords.
  apply Forall_take, fold_add_word_elements.
  - apply List.Forall_forall. intros kw [Hin Hc]%filter_In.
    split; [by apply contains_true_iff | by left].
  - intros w Hin Hlen Hstop. split; [|by right].
    apply findall_words_from_occur in Hin. exact Hin.
Qed.

(** X13. The keywords extracted from a text are at most 20, all different,
    and each one is a part of the lowered text: either one of the listed
    medical terms, or a word of more than three characters that is not a
    stop word. *)
Theorem extract_keywords_invariants (text : string) :
  let kws := rag_engine.extract_keywords text in
  (length kws <= 20)%nat
  /\ List.NoDup kws
  /\ forall kw, In kw kws ->
       occurs_in kw (lower text)
       /\ (In kw rag_engine.medical_keywords
           \/ ((3 < String.length kw)%nat
               /\ ~ In kw rag_engine.stop_words)).
Proof.
  cbv zeta. split; [|split].
  - unfold rag_engine.extract_keywords. rewrite length_firstn. lia.
  - unfold rag_engine.extract_keywords.
    apply NoDup_firstn_list, fold_add_word_NoDup, List.NoDup_filter,
      medical_keywords_NoDup.
  - apply List.Forall_forall, extract_keywords_elements.
Qed.

Example extract_keywords_repeated_words :
  rag_engine.extract_keywords "Cough, cough and more COUGH; the weakness"
  = ["cough"; "weakness"; "more"].
Proof. vm_compute. reflexivity. Qed.

Lemma extract_keywords_short (text : string) :
  (String.length text <= 3)%nat -> rag_engine.extract_keywords text = [].
Proof.
  intros Hlen. pose proof (extract_keywords_elements text) as H.
  destruct (rag_engine.extract_keywords text) as [|kw kws]; [done|].
  apply Forall_cons_1 in H as [[Hocc Hkw] _].
  apply occurs_in_length in Hocc. rewrite lower_length in Hocc.
  assert (3 < String.length kw)%nat; [|lia].
  destruct Hkw as [Hin|[? _]]; [|done].
  assert (Forall (fun k => (3 < String.length k)%nat)
                 rag_engine.medical_keywords) as Hall
    by (repeat constructor).
  rewrite List.Forall_forall in Hall. by apply Hall.
Qed.

(** X14. An input of at most three characters gives no keyword, so for such
    an input that is not blank the retrieval returns the first [k] facts of
    the table, whatever the input is: "flu" does not retrieve the fact
    about the flu. *)
Theorem retrieve_relevant_facts_short_input (self_top_k : Z) (s : string)
    (top_k : option Z) :
  whitespace_only s = false ->
  (String.length s <= 3)%nat ->
  rag_engine.retrieve_relevant_facts self_top_k s top_k
  = slice_to medical_facts.get_all_facts
      (match top_k with Some k => k | None => self_top_k end).
Proof.
  intros Hb Hlen. unfold rag_engine.retrieve_relevant_facts.
  by rewrite is_blank_whitespace_only, Hb, extract_keywords_short.
Qed.

Lemma retrieve_relevant_facts_short_input_witness :
  map id (rag_engine.retrieve_relevant_facts 5 "flu" None)
  = ["fever_001"; "infection_001"; "respiratory_001"; "respiratory_002";
     "headache_001"]
  /\ In "flu" (keywords (nth 1 medical_facts.MEDICAL_FACTS_DB
                           (nth 0 medical_facts.MEDICAL_FACTS_DB
                              {| id := ""; fact := ""; category := "";
                                 keywords := []; source := None;
                                 reliability_score := S754_nan |}))).
Proof.
  split.
  - rewrite (retrieve_relevant_facts_short_input 5 "flu" None);
      [reflexivity | reflexivity | simpl; lia].
  - simpl. tauto.
Defined.

(** ** The fact store, continued *)

Lemma filter_length_perm {A} (test : A -> bool) (l l' : list A) :
  Permutation l l' ->
  length (List.filter test l) = length (List.filter test l').
Proof.
  induction 1 as [|x l l' _ IH|x y l|l l' l'' _ IH1 _ IH2]; simpl.
  - done.
  - destruct (test x); simpl; by rewrite IH.
  - by destruct (test x), (test y).
  - by rewrite IH1.
Qed.

Lemma match_score_perm (fact_keywords kws kws' : list string) :
  Permutation (map lower kws) (map lower kws') ->
  medical_facts.match_score fact_keywords kws
  = medical_facts.match_score fact_keywords kws'.
Proof.
  intros H. unfold medical_facts.match_score.
  rewrite !fold_left_count. f_equal. by apply filter_length_perm.
Qed.

Lemma scored_facts_of_perm (db : list MedicalFact) (kws kws' : list string) :
  Permutation (map lower kws) (map lower kws') ->
  medical_facts.scored_facts_of db kws = medical_facts.scored_facts_of db kws'.
Proof.
  intros H. induction db as [|f db IH]; [done|].
  cbn [medical_facts.scored_facts_of].
  by rewrite (match_score_perm (keywords f) kws kws' H), IH.
Qed.

(** X15. The facts found depend on the user keywords only up to their
    letter case and their order: two keyword lists whose lowered forms are
    rearrangements of each other give the same facts in the same order. *)
Theorem get_facts_by_keywords_case_and_order (kws kws' : list string)
    (top_k : Z) :
  Permutation (map lower kws) (map lower kws') ->
  medical_facts.get_facts_by_keywords kws top_k
  = medical_facts.get_facts_by_keywords kws' top_k.
Proof.
  intros H.
  unfold medical_facts.get_facts_by_keywords,
    medical_facts.get_facts_by_keywords_in.
  by rewrite (scored_facts_of_perm _ kws kws' H).
Qed.

Lemma get_facts_by_keywords_case_and_order_witness :
  medical_facts.get_facts_by_keywords ["Fever"; "COUGH"; "nausea"] 3
  = medical_facts.get_facts_by_keywords ["nausea"; "cough"; "fever"] 3.
Proof.
  apply (get_facts_by_keywords_case_and_order
           ["Fever"; "COUGH"; "nausea"] ["nausea"; "cough"; "fever"] 3).
  change (Permutation ["fever"; "cough"; "nausea"] ["nausea"; "cough"; "fever"]).
  eapply perm_trans; [apply perm_swap|].
  eapply perm_trans; [apply perm_skip, perm_swap|].
  eapply perm_trans; [apply perm_swap|]. apply Permutation_refl.
Defined.

(** X16. Asking for more facts only adds facts at the end: for limits
    [0 <= k <= k'], the facts returned for [k] are the first [k] of those
    returned for [k']. *)
Theorem get_facts_by_keywords_limit_prefix (kws : list string) (k k' : Z) :
  0 <= k <= k' ->
  medical_facts.get_facts_by_keywords kws k
  = firstn (Z.to_nat k) (medical_facts.get_facts_by_keywords kws k').
Proof.
  intros Hk.
  unfold medical_facts.get_facts_by_keywords,
    medical_facts.get_facts_by_keywords_in.
  rewrite !slice_to_nonneg by lia.
  rewrite <- firstn_map, <- (firstn_map _ (Z.to_nat k')).
  rewrite firstn_firstn. f_equal. lia.
Qed.

Lemma get_facts_by_keywords_limit_prefix_witness :
  map id (medical_facts.get_facts_by_keywords ["fever"; "cough"] 3)
  = ["fever_001"; "digestive_002"; "respiratory_002"]
  /\ medical_facts.get_facts_by_keywords ["fever"; "cough"] 2
     = firstn 2 (medical_facts.get_facts_by_keywords ["fever"; "cough"] 3).
Proof.
  split; [vm_compute; reflexivity|].
  apply (get_facts_by_keywords_limit_prefix ["fever"; "cough"] 2 3). lia.
Defined.

(** *** No fact twice *)

Lemma slice_to_firstn {A} (l : list A) (k : Z) :
  exists n, slice_to l k = firstn n l.
Proof. unfold slice_to. destruct (0 <=? k); eauto. Qed.

Lemma NoDup_map_filter {A B} (f : A -> B) (P : A -> bool) (l : list A) :
  List.NoDup (map f l) -> List.NoDup (map f (List.filter P l)).
Proof.
  induction l as [|a l IH]; simpl; [done|].
  intros H. inversion H as [|? ? Hnot Hl]; subst.
  destruct (P a); simpl; [|by apply IH].
  constructor; [|by apply IH].
  intros (x & Hx & [Hin _]%filter_In)%in_map_iff. apply Hnot.
  apply in_map_iff. eauto.
Qed.

Lemma scored_facts_of_filter (db : list MedicalFact) (kws : list string) :
  map snd (medical_facts.scored_facts_of db kws)
  = List.filter (fun f => (0 <? match_count kws f)%nat) db.
Proof.
  induction db as [|f db IH]; [done|].
  cbn [medical_facts.scored_facts_of List.filter].
  fold (match_count kws f).
  destruct (0 <? match_count kws f)%nat; simpl; by rewrite IH.
Qed.

Lemma fact_ids_NoDup : List.NoDup (map id medical_facts.MEDICAL_FACTS_DB).
Proof.
  simpl. repeat (constructor; [by rewrite <- str_in_false_iff|]). constructor.
Qed.

Lemma get_facts_by_keywords_rows (kws : list string) (k : Z) :
  exists n ranked,
    Permutation ranked
      (List.filter (fun f => (0 <? match_count kws f)%nat)
                   medical_facts.MEDICAL_FACTS_DB)
    /\ medical_facts.get_facts_by_keywords kws k = firstn n ranked.
Proof.
  unfold medical_facts.get_facts_by_keywords,
    medical_facts.get_facts_by_keywords_in.
  destruct (slice_to_firstn
              (sort_reverse fst float_lt
                 (medical_facts.scored_facts_of
                    medical_facts.MEDICAL_FACTS_DB kws)) k) as [n ->].
  exists n, (map snd (sort_reverse fst float_lt
                        (medical_facts.scored_facts_of
                           medical_facts.MEDICAL_FACTS_DB kws))).
  split; [|by rewrite firstn_map].
  rewrite <- scored_facts_of_filter. apply Permutation_map, sort_reverse_perm.
Qed.

(** X17. Whatever the input and the limit (a negative one included), the
    retrieval returns rows of the table and no row twice: the identifiers
    of the returned facts are all different. *)
Theorem retrieve_relevant_facts_distinct_rows (self_top_k : Z) (s : string)
    (top_k : option Z) :
  let result := rag_engine.retrieve_relevant_facts self_top_k s top_k in
  List.NoDup (map id result)
  /\ forall f, In f result -> In f medical_facts.MEDICAL_FACTS_DB.
Proof.
  cbv zeta.
  assert (forall n,
            List.NoDup (map id (firstn n medical_facts.MEDICAL_FACTS_DB))
            /\ forall f, In f (firstn n medical_facts.MEDICAL_FACTS_DB) ->
                         In f medical_facts.MEDICAL_FACTS_DB) as Hprefix.
  { intros n. split.
    - rewrite <- firstn_map. apply NoDup_firstn_list, fact_ids_NoDup.
    - intros f Hin. rewrite <- (firstn_skipn n). apply in_or_app. by left. }
  assert (forall kws k,
            List.NoDup (map id (medical_facts.get_facts_by_keywords kws k))
            /\ forall f, In f (medical_facts.get_facts_by_keywords kws k) ->
                         In f medical_facts.MEDICAL_FACTS_DB) as Hranked.
  { intros kws k.
    destruct (get_facts_by_keywords_rows kws k) as (n & ranked & Hperm & ->).
    split.
    - rewrite <- firstn_map. apply NoDup_firstn_list.
      eapply Permutation_NoDup;
        [symmetry; apply Permutation_map; exact Hperm|].
      apply NoDup_map_filter, fact_ids_NoDup.
    - intros f Hin.
      assert (In f ranked) as Hin'
        by (rewrite <- (firstn_skipn n); apply in_or_app; by left).
      eapply Permutation_in in Hin'; [|exact Hperm].
      by apply filter_In in Hin' as [? _]. }
  unfold rag_engine.retrieve_relevant_facts.
  destruct (rag_engine.is_blank s); [split; [constructor | by intros f []]|].
  set (k := match top_k with Some k => k | None => self_top_k end).
  destruct (slice_to_firstn medical_facts.get_all_facts k) as [n Hn].
  destruct (rag_engine.extract_keywords s) as [|kw kws].
  - rewrite Hn. apply Hprefix.
  - destruct (medical_facts.get_facts_by_keywords (kw :: kws) k) eqn:E.
    + rewrite Hn. apply Hprefix.
    + rewrite <- E. apply Hranked.
Qed.

(** ** The prompt *)

Lemma occurs_in_concat (sep x : string) (l : list string) :
  In x l -> occurs_in x (String.concat sep l).
Proof.
  induction l as [|y l IH]; [done|].
  intros [->|Hin].
  - destruct l as [|z l]; [apply occurs_in_refl|].
    cbn [String.concat]. apply occurs_in_app_l, occurs_in_refl.
  - destruct l as [|z l]; [done|].
    cbn [String.concat]. by apply occurs_in_app_r, occurs_in_app_r, IH.
Qed.

(** X18. Whatever the prompt type and the lifestyle switch, the prompt
    that is built contains the whole zero-shot prompt, the text of the
    user unchanged, and one line [- fact] for each fact given; a prompt
    type other than "role" and "few" gives the zero-shot prompt itself. *)
Theorem build_prompt_carries_input (symptom_text : string)
    (facts : list MedicalFact) (prompt_type : string)
    (include_lifestyle : bool) :
  let prompt :=
    gemini_client._build_prompt symptom_text facts prompt_type
      include_lifestyle in
  let zero := gemini_client._build_prompt symptom_text facts "zero" false in
  occurs_in zero prompt
  /\ occurs_in symptom_text prompt
  /\ (forall f, In f facts -> occurs_in ("- " ++ fact f) prompt)
  /\ (prompt_type <> "role" -> prompt_type <> "few" ->
      include_lifestyle = false -> prompt = zero).
Proof.
  cbv zeta.
  assert (occurs_in (gemini_client._build_prompt symptom_text facts "zero" false)
            (gemini_client._build_prompt symptom_text facts prompt_type
               include_lifestyle)) as Hzero.
  { unfold gemini_client._build_prompt.
    change ("zero" =? "role")%string with false.
    change ("zero" =? "few")%string with false. cbv iota.
    set (base := gemini_client.prompt_before_symptoms ++ _).
    assert (forall p, occurs_in base p ->
              occurs_in base
                (if include_lifestyle
                 then p ++ nl ++ nl
                      ++ "Also provide general lifestyle and wellness suggestions that may help with symptom management."
                 else p)) as Hl.
    { intros p Hp. destruct include_lifestyle; [|done].
      by apply occurs_in_app_l. }
    apply Hl.
    destruct (prompt_type =? "role")%string.
    - apply occurs_in_app_r, occurs_in_refl.
    - destruct (prompt_type =? "few")%string.
      + apply occurs_in_app_l, occurs_in_refl.
      + apply occurs_in_refl. }
  split; [exact Hzero|].
  split; [|split].
  - eapply occurs_in_trans; [|exact Hzero].
    unfold gemini_client._build_prompt.
    change ("zero" =? "role")%string with false.
    change ("zero" =? "few")%string with false. cbv iota.
    apply occurs_in_app.
  - intros f Hin. eapply occurs_in_trans; [|exact Hzero].
    unfold gemini_client._build_prompt.
    change ("zero" =? "role")%string with false.
    change ("zero" =? "few")%string with false. cbv iota.
    do 3 apply occurs_in_app_r. apply occurs_in_app_l.
    apply occurs_in_concat.
    apply (in_map (fun fact0 => "- " ++ fact fact0)), Hin.
  - intros Hr Hf ->. unfold gemini_client._build_prompt.
    apply String.eqb_neq in Hr, Hf. rewrite Hr, Hf. reflexivity.
Qed.

Example build_prompt_chain_is_zero :
  gemini_client._build_prompt "fever" samples.two_facts "chain" false
  = gemini_client._build_prompt "fever" samples.two_facts "zero" false.
Proof. reflexivity. Qed.

(** ** The numbered list of facts *)

Lemma add_fact_line_app (acc : string) (x : nat * MedicalFact) :
  rag_engine.add_fact_line acc x = acc ++ rag_engine.add_fact_line "" x.
Proof.
  destruct x as [i f]. unfold rag_engine.add_fact_line.
  destruct (source f) as [src|]; [destruct (negb (src =? "")%string)|];
    cbn [append]; by rewrite ?str_app_assoc.
Qed.

Lemma fold_add_fact_line_app (l : list (nat * MedicalFact)) (acc : string) :
  fold_left rag_engine.add_fact_line l acc
  = acc ++ fold_left rag_engine.add_fact_line l "".
Proof.
  revert acc. induction l as [|x l IH]; intros acc; simpl.
  - by rewrite str_app_nil_r.
  - rewrite IH, (IH (rag_engine.add_fact_line "" x)), add_fact_line_app.
    by rewrite str_app_assoc.
Qed.

Lemma add_fact_line_numbered (i : nat) (f : MedicalFact) :
  occurs_in (str_of_int (Z.of_nat i) ++ ". " ++ fact f)
    (rag_engine.add_fact_line "" (i, f)).
Proof.
  unfold rag_engine.add_fact_line. cbn [append].
  apply occurs_in_app_l.
  destruct (source f) as [src|]; [destruct (negb (src =? "")%string)|].
  - rewrite <- str_app_assoc. apply occurs_in_app_l.
    rewrite str_app_assoc. apply occurs_in_refl.
  - apply occurs_in_refl.
  - apply occurs_in_refl.
Qed.

Lemma add_fact_line_source (i : nat) (f : MedicalFact) (src : string) :
  source f = Some src -> src <> "" ->
  occurs_in (fact f ++ " (Source: " ++ src ++ ")" ++ nl)
    (rag_engine.add_fact_line "" (i, f)).
Proof.
  intros Hs Hne. unfold rag_engine.add_fact_line. rewrite Hs.
  apply String.eqb_neq in Hne. rewrite Hne. cbn [negb].
  exists (str_of_int (Z.of_nat i) ++ ". "), "".
  rewrite !str_app_assoc, ?str_app_nil_r. reflexivity.
Qed.

Lemma fold_add_fact_line_nth (facts : list MedicalFact) (start i : nat)
    (f : MedicalFact) :
  nth_error facts i = Some f ->
  exists pre post,
    fold_left rag_engine.add_fact_line
      (combine (seq start (length facts)) facts) ""
    = pre ++ rag_engine.add_fact_line "" ((start + i)%nat, f) ++ post.
Proof.
  revert start i. induction facts as [|g facts IH]; intros start i Hi.
  - by destruct i.
  - cbn [length seq combine fold_left]. rewrite fold_add_fact_line_app.
    destruct i as [|i].
    + injection Hi as ->. exists "". eexists.
      rewrite Nat.add_0_r. reflexivity.
    + destruct (IH (S start) i Hi) as (pre & post & ->).
      exists (rag_engine.add_fact_line "" (start, g) ++ pre), post.
      rewrite str_app_assoc. by replace (S start + i)%nat with (start + S i)%nat by lia.
Qed.

(** X19. In the text made of a non-empty list of facts, after the heading
    [Medical Facts:], the fact at position [i] (from 0) appears as
    [i+1. fact], and when it has a non-empty source the fact is followed
    by [ (Source: ...)] on the same line. *)
Theorem format_facts_for_prompt_numbered (facts : list MedicalFact) (i : nat)
    (f : MedicalFact) :
  nth_error facts i = Some f ->
  let text := rag_engine.format_facts_for_prompt facts in
  String.prefix ("Medical Facts:" ++ nl) text = true
  /\ occurs_in (str_of_int (Z.of_nat (S i)) ++ ". " ++ fact f) text
  /\ forall src, source f = Some src -> src <> "" ->
       occurs_in (fact f ++ " (Source: " ++ src ++ ")" ++ nl) text.
Proof.
  intros Hi. cbv zeta.
  assert (exists pre post,
            rag_engine.format_facts_for_prompt facts
            = ("Medical Facts:" ++ nl)
              ++ pre ++ rag_engine.add_fact_line "" (S i, f) ++ post)
    as (pre & post & ->).
  { unfold rag_engine.format_facts_for_prompt.
    destruct facts as [|g rest] eqn:E; [by destruct i|]. rewrite <- E in *.
    rewrite fold_add_fact_line_app.
    destruct (fold_add_fact_line_nth facts 1 i f Hi) as (pre & post & ->).
    by exists pre, post. }
  split; [|split].
  - apply prefix_true_iff. eauto.
  - apply occurs_in_app_r, occurs_in_app_r, occurs_in_app_l,
      add_fact_line_numbered.
  - intros src Hs Hne.
    by apply occurs_in_app_r, occurs_in_app_r, occurs_in_app_l,
      add_fact_line_source.
Qed.

Lemma format_facts_for_prompt_numbered_witness :
  exists f,
    nth_error samples.two_facts 1 = Some f
    /\ occurs_in (str_of_int 2 ++ ". " ++ fact f)
         (rag_engine.format_facts_for_prompt samples.two_facts).
Proof.
  eexists. split; [reflexivity|].
  destruct (format_facts_for_prompt_numbered samples.two_facts 1 _ eq_refl)
    as (_ & H & _).
  exact H.
Defined.

(** ** The external representation, continued *)

Lemma ConfidenceLevel_value_inj (a b : ConfidenceLevel.t) :
  ConfidenceLevel.value a = ConfidenceLevel.value b -> a = b.
Proof. by destruct a, b. Qed.

Lemma UrgencyLevel_value_inj (a b : UrgencyLevel.t) :
  UrgencyLevel.value a = UrgencyLevel.value b -> a = b.
Proof. by destruct a, b. Qed.

Lemma condition_to_dict_inj (c1 c2 : Condition) :
  condition_to_dict c1 = condition_to_dict c2 -> c1 = c2.
Proof.
  unfold condition_to_dict. intros H.
  pose proof (f_equal (fun v => match v with PyDict m => m !! "condition" | _ => None end) H) as H1.
  pose proof (f_equal (fun v => match v with PyDict m => m !! "confidence" | _ => None end) H) as H2.
  pose proof (f_equal (fun v => match v with PyDict m => m !! "reasoning" | _ => None end) H) as H3.
  pose proof (f_equal (fun v => match v with PyDict m => m !! "recommendation" | _ => None end) H) as H4.
  pose proof (f_equal (fun v => match v with PyDict m => m !! "urgency" | _ => None end) H) as H5.
  pose proof (f_equal (fun v => match v with PyDict m => m !! "related_symptoms" | _ => None end) H) as H6.
  clear H.
  change (Some (name c1) = Some (name c2)) in H1.
  change (Some (PyStr (ConfidenceLevel.value (confidence c1)))
          = Some (PyStr (ConfidenceLevel.value (confidence c2)))) in H2.
  change (Some (reasoning c1) = Some (reasoning c2)) in H3.
  change (Some (recommendation c1) = Some (recommendation c2)) in H4.
  change (Some (PyStr (UrgencyLevel.value (urgency c1)))
          = Some (PyStr (UrgencyLevel.value (urgency c2)))) in H5.
  change (Some (related_symptoms c1) = Some (related_symptoms c2)) in H6.
  injection H1 as E1. injection H2 as E2%ConfidenceLevel_value_inj.
  injection H3 as E3. injection H4 as E4.
  injection H5 as E5%UrgencyLevel_value_inj. injection H6 as E6.
  destruct c1, c2; simpl in *; congruence.
Qed.

Lemma map_condition_to_dict_inj (l1 l2 : list Condition) :
  map condition_to_dict l1 = map condition_to_dict l2 -> l1 = l2.
Proof.
  revert l2. induction l1 as [|c l1 IH]; intros [|d l2] H; try done.
  pose proof (f_equal (hd PyNone) H) as Ec.
  pose proof (f_equal (@tl pyval) H) as El.
  cbn [map hd tl] in Ec, El.
  apply condition_to_dict_inj in Ec. apply IH in El. congruence.
Qed.

(** X20. The dictionary made of a result determines the result, but for
    the lifestyle suggestions, where every empty value ([None], the empty
    list, ...) is written as the empty list: two results with the same
    dictionary have the same conditions, flag, urgency level, disclaimer,
    next steps and metadata, and lifestyle suggestions that are equal once
    an empty value is replaced by the empty list. *)
Theorem to_dict_determines_result (r1 r2 : DiagnosisResult) :
  to_dict r1 = to_dict r2 ->
  conditions r1 = conditions r2
  /\ flagged r1 = flagged r2
  /\ urgency_level r1 = urgency_level r2
  /\ disclaimer r1 = disclaimer r2
  /\ next_steps r1 = next_steps r2
  /\ metadata r1 = metadata r2
  /\ or_ (lifestyle_suggestions r1) (PyList [])
     = or_ (lifestyle_suggestions r2) (PyList []).
Proof.
  intros H.
  pose proof (f_equal (fun m => m !! "possible_conditions") H) as H1.
  pose proof (f_equal (fun m => m !! "flagged") H) as H2.
  pose proof (f_equal (fun m => m !! "urgency_level") H) as H3.
  pose proof (f_equal (fun m => m !! "disclaimer") H) as H4.
  pose proof (f_equal (fun m => m !! "next_steps") H) as H5.
  pose proof (f_equal (fun m => m !! "metadata") H) as H6.
  pose proof (f_equal (fun m => m !! "lifestyle_suggestions") H) as H7.
  clear H.
  change (Some (PyList (map condition_to_dict (conditions r1)))
          = Some (PyList (map condition_to_dict (conditions r2)))) in H1.
  change (Some (flagged r1) = Some (flagged r2)) in H2.
  change (Some (PyStr (UrgencyLevel.value (urgency_level r1)))
          = Some (PyStr (UrgencyLevel.value (urgency_level r2)))) in H3.
  change (Some (PyStr (disclaimer r1)) = Some (PyStr (disclaimer r2))) in H4.
  change (Some (next_steps r1) = Some (next_steps r2)) in H5.
  change (Some (PyDict (metadata r1)) = Some (PyDict (metadata r2))) in H6.
  change (Some (or_ (lifestyle_suggestions r1) (PyList []))
          = Some (or_ (lifestyle_suggestions r2) (PyList []))) in H7.
  injection H1 as E1%map_condition_to_dict_inj.
  injection H2 as E2. injection H3 as E3%UrgencyLevel_value_inj.
  injection H4 as E4. injection H5 as E5. injection H6 as E6.
  injection H7 as E7.
  done.
Qed.

Lemma to_dict_determines_result_witness :
  let r1 := with_lifestyle_suggestions (diagnosis_logic.fallback_result true (GeminiAPIError "down")) PyNone in
  let r2 := with_lifestyle_suggestions (diagnosis_logic.fallback_result true (GeminiAPIError "down")) (PyStr "") in
  to_dict r1 = to_dict r2 /\ conditions r1 = conditions r2.
Proof.
  cbv zeta. split; [reflexivity|].
  destruct (to_dict_determines_result
              (with_lifestyle_suggestions (diagnosis_logic.fallback_result true (GeminiAPIError "down")) PyNone)
              (with_lifestyle_suggestions (diagnosis_logic.fallback_result true (GeminiAPIError "down")) (PyStr ""))
              eq_refl) as (H & _).
  exact H.
Defined.
